(** * Real-time delivery core of the chat application

    A shallow embedding of
      - [repo/chat_sala_repo.py]      (room identity, creation, activity),
      - [repo/chat_mensagem_repo.py]  (message persistence, history, read
                                       markers),
      - [repo/chat_participante_repo.py] (membership lookup),
      - [repo/usuario_repo.py]        (user lookup and search),
      - [dtos/chat_dto.py]            (request validation),
      - [util/chat_manager.py]        (the connection registry and fan-out),
      - [util/auth_decorator.py], [util/flash_messages.py] and the pages of
        [routes/auth_routes.py] that need no password (sessions),
      - [routes/chat_routes.py]       (the endpoints and the SSE session),
    followed by the properties of the delivery core and, after them, of
    the rest of the embedded code.

    Conventions.  A Python [str] is a Rocq [string]; each character stands
    for the code point of the same number (0..255).  A Python [int] is a
    [Z]; the interpreter's optional cap on the number of digits accepted by
    [int(str)] and [str(int)] is not modelled.  A request is a function of
    the world [Mundo] that returns a value or raises ([Resultado]); the
    readings of [datetime.now()] and the faults of SQLite are fields of
    the world. *)

From Stdlib Require Import ZArith Lia Ascii String Decimal DecimalString DecimalPos DecimalZ.
From stdpp Require Import base option strings list gmap sorting.

Local Open Scope Z_scope.

(** ** Python built-ins on strings and integers *)

Module Py.

(** [str.isspace] on one code point below 256, the characters [str.strip]
    removes. *)
Definition is_space (c : ascii) : bool :=
  let n := nat_of_ascii c in
  ((9 <=? n)%nat && (n <=? 13)%nat) || ((28 <=? n)%nat && (n <=? 32)%nat)
  || (n =? 133)%nat || (n =? 160)%nat.

(** The white space [int(str)] skips at both ends: the file, group,
    record and unit separators (28..31) are white space for [strip] and
    not for [int]. *)
Definition is_int_space (c : ascii) : bool :=
  let n := nat_of_ascii c in
  ((9 <=? n)%nat && (n <=? 13)%nat) || (n =? 32)%nat
  || (n =? 133)%nat || (n =? 160)%nat.

Definition is_digit (c : ascii) : bool :=
  let n := nat_of_ascii c in (48 <=? n)%nat && (n <=? 57)%nat.

Definition digit_value (c : ascii) : Z := Z.of_nat (nat_of_ascii c) - 48.

Fixpoint lstrip_with (sp : ascii → bool) (s : string) : string :=
  match s with
  | String c s' => if sp c then lstrip_with sp s' else s
  | EmptyString => EmptyString
  end.

Fixpoint rstrip_with (sp : ascii → bool) (s : string) : string :=
  match s with
  | String c s' =>
      match rstrip_with sp s' with
      | EmptyString => if sp c then EmptyString else String c EmptyString
      | r => String c r
      end
  | EmptyString => EmptyString
  end.

(** [s.strip()] *)
Definition strip (s : string) : string :=
  rstrip_with is_space (lstrip_with is_space s).

(** [s.split(sep)] for a separator of one character: one more part than
    there are separators, empty parts kept. *)
Fixpoint split (sep : ascii) (s : string) : list string :=
  match s with
  | EmptyString => [EmptyString]
  | String c s' =>
      if Ascii.eqb c sep then EmptyString :: split sep s'
      else match split sep s' with
           | p :: ps => String c p :: ps
           | [] => [String c EmptyString]
           end
  end.

(** The digits of a decimal literal: at least one digit, single
    underscores allowed between digits only.  [need] says that the next
    character has to be a digit (at the start and after an underscore). *)
Fixpoint digits (need : bool) (acc : Z) (s : string) : option Z :=
  match s with
  | EmptyString => if need then None else Some acc
  | String c s' =>
      if is_digit c then digits false (10 * acc + digit_value c) s'
      else if Ascii.eqb c "_" && negb need then digits true acc s'
      else None
  end.

(** [int(s)] in base ten; [None] is [ValueError]. *)
Definition int (s : string) : option Z :=
  match rstrip_with is_int_space (lstrip_with is_int_space s) with
  | String c r =>
      if Ascii.eqb c "-" then Z.opp <$> digits true 0 r
      else if Ascii.eqb c "+" then digits true 0 r
      else digits true 0 (String c r)
  | EmptyString => None
  end.

(** [str(z)], also what an f-string writes for [{z}]. *)
Definition str (z : Z) : string := NilZero.string_of_int (Z.to_int z).

(** [sorted([a, b])] *)
Definition sorted2 (a b : Z) : Z * Z := if a <=? b then (a, b) else (b, a).

End Py.

(** ** SQLite operators used by the queries *)

Module Sqlite.


(** [LIKE] reads its operands as C strings: up to the first NUL. *)
Fixpoint ate_nul (s : string) : string :=
  match s with
  | EmptyString => EmptyString
  | String c s' =>
      if Ascii.eqb c "000" then EmptyString else String c (ate_nul s')
  end.



(** [LIMIT n]: a negative [n] is no limit. *)
Definition limit {A} (n : Z) (l : list A) : list A :=
  if n <? 0 then l else take (Z.to_nat n) l.

(** [OFFSET n]: a negative [n] is 0. *)
Definition offset {A} (n : Z) (l : list A) : list A :=
  drop (Z.to_nat n) l.

End Sqlite.

(** ** Room identity: [gerar_sala_id] of [repo/chat_sala_repo.py] *)

(** [gerar_sala_id(usuario1_id, usuario2_id)] *)
Definition gerar_sala_id (usuario1_id usuario2_id : Z) : string :=
  let ids_ordenados := Py.sorted2 usuario1_id usuario2_id in
  Py.str ids_ordenados.1 +:+ "_" +:+ Py.str ids_ordenados.2.

(** The parsing that [broadcast_para_sala] performs on a room id, on its
    own: [partes = sala_id.split("_")], the length test, and the two
    [int(...)] conversions. *)
Inductive Partes :=
  | PartesInvalidas            (* len(partes) != 2 *)
  | PartesValueError           (* int(...) raised *)
  | PartesOk (usuario1_id usuario2_id : Z).

Definition extrair_ids (sala_id : string) : Partes :=
  match Py.split "_" sala_id with
  | [p0; p1] =>
      match Py.int p0 with
      | None => PartesValueError
      | Some usuario1_id =>
          match Py.int p1 with
          | None => PartesValueError
          | Some usuario2_id => PartesOk usuario1_id usuario2_id
          end
      end
  | _ => PartesInvalidas
  end.


(** ** Data model: [model/*.py], the tables of [util/database.py] *)

(** A naive [datetime], as [datetime.now()] returns it. *)
Record datetime := {
  year : Z; month : Z; day : Z;
  hour : Z; minute : Z; second : Z; microsecond : Z
}.

Module ChatMensagem.
Record t := {
  id : Z;
  sala_id : string;
  usuario_id : Z;
  mensagem : string;
  data_envio : datetime;
  lida_em : option datetime
}.
End ChatMensagem.

Module ChatParticipante.
Record t := {
  sala_id : string;
  usuario_id : Z;
  ultima_leitura : option datetime
}.
End ChatParticipante.

Module ChatSala.
Record t := {
  id : string;
  criada_em : datetime;
  ultima_atividade : datetime
}.
End ChatSala.

Module Usuario.
Record t := {
  id : Z;
  nome : string;
  email : string;
  senha : string;
  data_cadastro : option string
}.
End Usuario.

(** The three chat tables, rows in rowid order, and the AUTOINCREMENT
    counter of [chat_mensagem] (the largest id ever issued). *)
Record Banco := {
  chat_sala : list ChatSala.t;
  chat_mensagem : list ChatMensagem.t;
  chat_mensagem_seq : Z;
  chat_participante : list ChatParticipante.t
}.

(** The JSON object sent to the clients: ["mensagem"] inside the event
    [mensagem_sse] of [enviar_mensagem]. *)
Module MensagemJson.
Record t := {
  id : Z;
  sala_id : string;
  usuario_id : Z;
  mensagem : string;
  data_envio : option string;
  lida_em : option string
}.
End MensagemJson.

(** [mensagem_sse], the dict put on the queues. *)
Module Evento.
Record t := {
  tipo : string;
  sala_id : string;
  mensagem : MensagemJson.t
}.
End Evento.

(** ** The world a request runs in *)

(** An [asyncio.Queue] is an object: it is named by its address in [filas],
    the list of all queues created so far, and holds its pending events,
    oldest first. *)
Abbreviation Fila := nat (only parsing).

Record ChatManager := {
  _connections : gmap Z Fila;
  _active_connections : gset Z
}.

(** What [print] wrote, one entry per line:
    - [LinhaConectado u n]:    "[ChatManager] Usuário u conectado. Total: n"
    - [LinhaDesconectado u n]: "[ChatManager] Usuário u desconectado. Total: n"
    - [LinhaSalaInvalida s]:   "[ChatManager] sala_id inválido: s"
    - [LinhaEnviada u]:        "[ChatManager] Mensagem enviada para usuário u"
    - [LinhaCancelada u]:      "[SSE] Conexão cancelada para usuário u" *)
Inductive Linha :=
  | LinhaConectado (usuario_id : Z) (total : nat)
  | LinhaDesconectado (usuario_id : Z) (total : nat)
  | LinhaSalaInvalida (sala_id : string)
  | LinhaEnviada (usuario_id : Z)
  | LinhaCancelada (usuario_id : Z).

(** The writes a request performed, in the order they took effect (ghost
    state: nothing reads it). *)
Inductive Efeito :=
  | EfInserir (m : ChatMensagem.t)                 (* INSERT INTO chat_mensagem, committed *)
  | EfAtividade (sala_id : string) (d : datetime)  (* UPDATE chat_sala, committed *)
  | EfLidas (sala_id : string) (usuario_id : Z)    (* UPDATE chat_mensagem, committed *)
  | EfPut (fila : Fila) (e : Evento.t)             (* queue.put(e) *)
  | EfGet (fila : Fila) (e : Evento.t).            (* queue.get() returned e *)

(** The outside of the process: the [n]-th reading of the clock is
    [relogio n], the [n]-th use of SQLite raises when [sqlite_falha n]. *)
Record Mundo := {
  chat_manager : ChatManager;
  filas : list (list Evento.t);
  stdout : list Linha;
  banco : Banco;
  efeitos : list Efeito;
  relogio : nat → datetime;
  leituras : nat;
  sqlite_falha : nat → bool;
  acessos : nat
}.

Inductive Validacao :=
  | SalaIdObrigatorio      (* 'ID da sala é obrigatório.' *)
  | MensagemVazia          (* 'Mensagem não pode estar vazia.' *)
  | MensagemMuitoLonga.    (* 'Mensagem muito longa (máximo 5000 caracteres).' *)

Inductive Detalhe :=
  | DetalheValidacao (v : Validacao)   (* e.errors()[0]["msg"] *)
  | DetalheDadosInvalidos              (* "Dados inválidos." *)
  | DetalheSemAcesso.                  (* "Você não tem acesso a esta sala." *)

Inductive Excecao :=
  | ValueError
  | ValidationError (erros : list Validacao)
  | HTTPException (status_code : Z) (detail : Detalhe)
  | SqliteError.

Inductive Resultado (A : Type) :=
  | Retorno (a : A)
  | Levanta (e : Excecao).
Arguments Retorno {A} a.
Arguments Levanta {A} e.

(** State and exceptions. *)
Definition M (A : Type) : Type := Mundo → Resultado A * Mundo.

Definition raise {A} (e : Excecao) : M A := λ w, (Levanta e, w).

#[export] Instance M_ret : MRet M := λ A a w, (Retorno a, w).
#[export] Instance M_bind : MBind M := λ A B k m w,
  match m w with
  | (Retorno a, w') => k a w'
  | (Levanta e, w') => (Levanta e, w')
  end.

(** [try: m except ...: h e]; [h e = None] when no clause matches [e]. *)
Definition try_except {A} (m : M A) (h : Excecao → option (M A)) : M A :=
  λ w, match m w with
       | (Retorno a, w') => (Retorno a, w')
       | (Levanta e, w') =>
           match h e with Some k => k w' | None => (Levanta e, w') end
       end.

Definition com_manager (m : ChatManager) (w : Mundo) : Mundo :=
  {| chat_manager := m; filas := filas w; stdout := stdout w; banco := banco w;
     efeitos := efeitos w; relogio := relogio w; leituras := leituras w;
     sqlite_falha := sqlite_falha w; acessos := acessos w |}.
Definition com_filas (f : list (list Evento.t)) (w : Mundo) : Mundo :=
  {| chat_manager := chat_manager w; filas := f; stdout := stdout w; banco := banco w;
     efeitos := efeitos w; relogio := relogio w; leituras := leituras w;
     sqlite_falha := sqlite_falha w; acessos := acessos w |}.
Definition com_stdout (o : list Linha) (w : Mundo) : Mundo :=
  {| chat_manager := chat_manager w; filas := filas w; stdout := o; banco := banco w;
     efeitos := efeitos w; relogio := relogio w; leituras := leituras w;
     sqlite_falha := sqlite_falha w; acessos := acessos w |}.
Definition com_banco (b : Banco) (w : Mundo) : Mundo :=
  {| chat_manager := chat_manager w; filas := filas w; stdout := stdout w; banco := b;
     efeitos := efeitos w; relogio := relogio w; leituras := leituras w;
     sqlite_falha := sqlite_falha w; acessos := acessos w |}.
Definition com_efeitos (t : list Efeito) (w : Mundo) : Mundo :=
  {| chat_manager := chat_manager w; filas := filas w; stdout := stdout w; banco := banco w;
     efeitos := t; relogio := relogio w; leituras := leituras w;
     sqlite_falha := sqlite_falha w; acessos := acessos w |}.
Definition com_leituras (n : nat) (w : Mundo) : Mundo :=
  {| chat_manager := chat_manager w; filas := filas w; stdout := stdout w; banco := banco w;
     efeitos := efeitos w; relogio := relogio w; leituras := n;
     sqlite_falha := sqlite_falha w; acessos := acessos w |}.
Definition com_acessos (n : nat) (w : Mundo) : Mundo :=
  {| chat_manager := chat_manager w; filas := filas w; stdout := stdout w; banco := banco w;
     efeitos := efeitos w; relogio := relogio w; leituras := leituras w;
     sqlite_falha := sqlite_falha w; acessos := n |}.

(** [print(...)] *)
Definition print (l : Linha) : M unit :=
  λ w, (Retorno tt, com_stdout (stdout w ++ [l]) w).

(** [datetime.now()] *)
Definition datetime_now : M datetime :=
  λ w, (Retorno (relogio w (leituras w)), com_leituras (S (leituras w)) w).

(** [asyncio.Queue()] *)
Definition Queue_new : M Fila :=
  λ w, (Retorno (length (filas w)), com_filas (filas w ++ [[]]) w).

(** [await queue.put(e)]: the queue is unbounded, [put] never waits.  (On
    an address that names no queue nothing would change; registered queues
    always exist, see [filas_validas].) *)
Definition Queue_put (queue : Fila) (e : Evento.t) : M unit :=
  λ w, (Retorno tt,
        com_efeitos (efeitos w ++ [EfPut queue e])
          (com_filas (alter (λ pendentes, pendentes ++ [e]) queue (filas w)) w)).

(** [await queue.get()] with an event pending: the oldest one, removed.
    [None] stands for the empty queue, on which the call stays suspended
    and nothing changes. *)
Definition Queue_get (queue : Fila) : M (option Evento.t) :=
  λ w, match filas w !! queue with
       | Some (e :: pendentes) =>
           (Retorno (Some e),
            com_efeitos (efeitos w ++ [EfGet queue e])
              (com_filas (<[queue := pendentes]> (filas w)) w))
       | _ => (Retorno None, w)
       end.

(** Notes a write in the trace. *)
Definition registrar (e : Efeito) : M unit :=
  λ w, (Retorno tt, com_efeitos (efeitos w ++ [e]) w).

(** [for x in l: corpo(x)] *)
Fixpoint for_in {A} (l : list A) (corpo : A → M unit) : M unit :=
  match l with
  | [] => mret tt
  | x :: l' => corpo x;; for_in l' corpo
  end.

(** ** The connection registry: [util/chat_manager.py] *)

(** [self], the singleton [chat_manager]. *)
Definition self : M ChatManager := λ w, (Retorno (chat_manager w), w).
Definition self_set (f : ChatManager → ChatManager) : M unit :=
  λ w, (Retorno tt, com_manager (f (chat_manager w)) w).

(** [ChatManager()] *)
Definition ChatManager_init : ChatManager :=
  {| _connections := ∅; _active_connections := ∅ |}.

(** [ChatManager.connect] *)
Definition connect (usuario_id : Z) : M Fila :=
  queue ← Queue_new;
  self_set (λ s, {| _connections := <[usuario_id := queue]> (_connections s);
                    _active_connections := _active_connections s |});;
  self_set (λ s, {| _connections := _connections s;
                    _active_connections := {[usuario_id]} ∪ _active_connections s |});;
  s ← self;
  print (LinhaConectado usuario_id (size (_active_connections s)));;
  mret queue.

(** [ChatManager.disconnect] *)
Definition disconnect (usuario_id : Z) : M unit :=
  s ← self;
  (if decide (is_Some (_connections s !! usuario_id))
   then self_set (λ s, {| _connections := delete usuario_id (_connections s);
                          _active_connections := _active_connections s |})
   else mret tt);;
  s ← self;
  (if decide (usuario_id ∈ _active_connections s)
   then self_set (λ s, {| _connections := _connections s;
                          _active_connections := _active_connections s ∖ {[usuario_id]} |})
   else mret tt);;
  s ← self;
  print (LinhaDesconectado usuario_id (size (_active_connections s))).

(** The body of the [for] loop of [broadcast_para_sala]: the delivery to
    one user.  The source gives it no name and no result; the Boolean
    returned here is the value of its guard
    [usuario_id in self._connections]. *)
Definition entregar (usuario_id : Z) (mensagem_dict : Evento.t) : M bool :=
  s ← self;
  match _connections s !! usuario_id with
  | Some queue =>
      Queue_put queue mensagem_dict;;
      print (LinhaEnviada usuario_id);;
      mret true
  | None => mret false
  end.

(** [ChatManager.broadcast_para_sala] *)
Definition broadcast_para_sala (sala_id : string) (mensagem_dict : Evento.t) : M unit :=
  match extrair_ids sala_id with
  | PartesInvalidas => print (LinhaSalaInvalida sala_id)
  | PartesValueError => raise ValueError
  | PartesOk usuario1_id usuario2_id =>
      for_in [usuario1_id; usuario2_id]
        (λ usuario_id, _ ← entregar usuario_id mensagem_dict; mret tt)
  end.

(** [ChatManager.is_connected] *)
Definition is_connected (usuario_id : Z) : M bool :=
  s ← self; mret (bool_decide (usuario_id ∈ _active_connections s)).

(** ** The streaming session: [event_generator] of [routes/chat_routes.py] *)

(** [f"data: {json.dumps(evento)}\n\n"], kept as the event it frames. *)
Inductive SseData := DataJson (evento : Evento.t).

(** The generator up to its loop: [queue = await chat_manager.connect(usuario_id)]. *)
Definition event_generator_inicio (usuario_id : Z) : M Fila := connect usuario_id.

(** One turn of [while True] that finds an event; [None] when the queue is
    empty and the turn stays suspended in [queue.get()]. *)
Definition event_generator_passo (queue : Fila) : M (option SseData) :=
  evento ← Queue_get queue;
  mret (DataJson <$> evento).

(** Leaving the loop: the [except asyncio.CancelledError] clause when the
    client [cancelou], then [finally]. *)
Definition event_generator_fim (usuario_id : Z) (cancelou : bool) : M unit :=
  (if cancelou then print (LinhaCancelada usuario_id) else mret tt);;
  disconnect usuario_id.

(** ** The durable store: [util/database.py] and [repo/*.py] *)

(** [with get_connection() as conn: corpo]: the block commits the table
    state its body computed, or raises and leaves the tables as they were. *)
Definition get_connection {A} (corpo : Banco → M (A * Banco)) : M A :=
  λ w, let w1 := com_acessos (S (acessos w)) w in
       if sqlite_falha w (acessos w) then (Levanta SqliteError, w1)
       else match corpo (banco w1) w1 with
            | (Retorno (a, b), w2) => (Retorno a, com_banco b w2)
            | (Levanta e, w2) => (Levanta e, w2)
            end.

Module chat_participante_repo.

Definition da_sala_e_usuario (sala_id : string) (usuario_id : Z)
    (p : ChatParticipante.t) : bool :=
  bool_decide (ChatParticipante.sala_id p = sala_id)
  && bool_decide (ChatParticipante.usuario_id p = usuario_id).

(** [obter_por_sala_e_usuario]: the first row of the SELECT, if any. *)
Definition obter_por_sala_e_usuario (sala_id : string) (usuario_id : Z)
    : M (option ChatParticipante.t) :=
  get_connection (λ b,
    mret (head (filter (λ p, da_sala_e_usuario sala_id usuario_id p = true)
                       (chat_participante b)), b)).

End chat_participante_repo.

Module chat_sala_repo.

Definition tocar (sala_id : string) (agora : datetime) (s : ChatSala.t) : ChatSala.t :=
  if bool_decide (ChatSala.id s = sala_id)
  then {| ChatSala.id := ChatSala.id s;
          ChatSala.criada_em := ChatSala.criada_em s;
          ChatSala.ultima_atividade := agora |}
  else s.

(** [obter_por_id]: the row of the room, if any. *)
Definition obter_por_id (sala_id : string) : M (option ChatSala.t) :=
  get_connection (λ b,
    mret (head (filter (λ s, ChatSala.id s = sala_id) (chat_sala b)), b)).

(** The three INSERTs of [criar_ou_obter_sala].  [chat_sala.id] and
    [(sala_id, usuario_id)] of [chat_participante] are primary keys: an
    INSERT that repeats one raises and the block rolls back. *)
Definition inserir_sala (sala_id : string) (usuario1_id usuario2_id : Z)
    (agora : datetime) (b : Banco) : M (unit * Banco) :=
  let participante u :=
    {| ChatParticipante.sala_id := sala_id;
       ChatParticipante.usuario_id := u;
       ChatParticipante.ultima_leitura := None |} in
  let tem u (ps : list ChatParticipante.t) :=
    bool_decide (Exists (λ p, ChatParticipante.sala_id p = sala_id
                              ∧ ChatParticipante.usuario_id p = u) ps) in
  if bool_decide (Exists (λ s, ChatSala.id s = sala_id) (chat_sala b))
  then raise SqliteError
  else if tem usuario1_id (chat_participante b) then raise SqliteError
  else if tem usuario2_id (chat_participante b ++ [participante usuario1_id])
  then raise SqliteError
  else mret (tt,
             {| chat_sala := chat_sala b ++
                  [ {| ChatSala.id := sala_id;
                       ChatSala.criada_em := agora;
                       ChatSala.ultima_atividade := agora |} ];
                chat_mensagem := chat_mensagem b;
                chat_mensagem_seq := chat_mensagem_seq b;
                chat_participante := chat_participante b ++
                  [participante usuario1_id; participante usuario2_id] |}).

(** [criar_ou_obter_sala] *)
Definition criar_ou_obter_sala (usuario1_id usuario2_id : Z) : M ChatSala.t :=
  let sala_id := gerar_sala_id usuario1_id usuario2_id in
  sala_existente ← obter_por_id sala_id;
  match sala_existente with
  | Some sala => mret sala
  | None =>
      agora ← datetime_now;
      get_connection (inserir_sala sala_id usuario1_id usuario2_id agora);;
      mret {| ChatSala.id := sala_id;
              ChatSala.criada_em := agora;
              ChatSala.ultima_atividade := agora |}
  end.

(** [atualizar_ultima_atividade] *)
Definition atualizar_ultima_atividade (sala_id : string) : M unit :=
  agora ← get_connection (λ b,
    agora ← datetime_now;
    mret (agora,
          {| chat_sala := tocar sala_id agora <$> chat_sala b;
             chat_mensagem := chat_mensagem b;
             chat_mensagem_seq := chat_mensagem_seq b;
             chat_participante := chat_participante b |}));
  registrar (EfAtividade sala_id agora).

End chat_sala_repo.

Module chat_mensagem_repo.

(** [inserir]: the new row takes the next AUTOINCREMENT id
    ([cursor.lastrowid]). *)
Definition inserir (sala_id : string) (usuario_id : Z) (mensagem : string)
    : M ChatMensagem.t :=
  data_envio ← datetime_now;
  mensagem_id ← get_connection (λ b,
    let mensagem_id := chat_mensagem_seq b + 1 in
    mret (mensagem_id,
          {| chat_sala := chat_sala b;
             chat_mensagem := chat_mensagem b ++
               [ {| ChatMensagem.id := mensagem_id;
                    ChatMensagem.sala_id := sala_id;
                    ChatMensagem.usuario_id := usuario_id;
                    ChatMensagem.mensagem := mensagem;
                    ChatMensagem.data_envio := data_envio;
                    ChatMensagem.lida_em := None |} ];
             chat_mensagem_seq := mensagem_id;
             chat_participante := chat_participante b |}));
  let nova := {| ChatMensagem.id := mensagem_id;
                 ChatMensagem.sala_id := sala_id;
                 ChatMensagem.usuario_id := usuario_id;
                 ChatMensagem.mensagem := mensagem;
                 ChatMensagem.data_envio := data_envio;
                 ChatMensagem.lida_em := None |} in
  registrar (EfInserir nova);;
  mret nova.

(** [WHERE sala_id = ? AND usuario_id != ? AND lida_em IS NULL], the
    condition shared by [marcar_como_lidas] and [contar_nao_lidas_por_sala]. *)
Definition nao_lida_de_outro (sala_id : string) (usuario_id : Z)
    (m : ChatMensagem.t) : bool :=
  bool_decide (ChatMensagem.sala_id m = sala_id)
  && negb (bool_decide (ChatMensagem.usuario_id m = usuario_id))
  && bool_decide (ChatMensagem.lida_em m = None).

Definition marcar (sala_id : string) (usuario_id : Z) (agora : datetime)
    (m : ChatMensagem.t) : ChatMensagem.t :=
  if nao_lida_de_outro sala_id usuario_id m
  then {| ChatMensagem.id := ChatMensagem.id m;
          ChatMensagem.sala_id := ChatMensagem.sala_id m;
          ChatMensagem.usuario_id := ChatMensagem.usuario_id m;
          ChatMensagem.mensagem := ChatMensagem.mensagem m;
          ChatMensagem.data_envio := ChatMensagem.data_envio m;
          ChatMensagem.lida_em := Some agora |}
  else m.

(** The UPDATE of [marcar_como_lidas] on the table, with its
    [cursor.rowcount]. *)
Definition update_lidas (sala_id : string) (usuario_id : Z) (agora : datetime)
    (tabela : list ChatMensagem.t) : nat * list ChatMensagem.t :=
  (length (filter (λ m, nao_lida_de_outro sala_id usuario_id m = true) tabela),
   marcar sala_id usuario_id agora <$> tabela).

(** [marcar_como_lidas] *)
Definition marcar_como_lidas (sala_id : string) (usuario_id : Z) : M bool :=
  rowcount ← get_connection (λ b,
    agora ← datetime_now;
    let '(rowcount, tabela) := update_lidas sala_id usuario_id agora (chat_mensagem b) in
    mret (rowcount,
          {| chat_sala := chat_sala b;
             chat_mensagem := tabela;
             chat_mensagem_seq := chat_mensagem_seq b;
             chat_participante := chat_participante b |}));
  registrar (EfLidas sala_id usuario_id);;
  mret (bool_decide (0 < rowcount)%nat).

(** The SELECT COUNT of [contar_nao_lidas_por_sala] on the table. *)
Definition select_nao_lidas_por_sala (sala_id : string) (usuario_id : Z)
    (tabela : list ChatMensagem.t) : nat :=
  length (filter (λ m, nao_lida_de_outro sala_id usuario_id m = true) tabela).

(** [contar_nao_lidas_por_sala] *)
Definition contar_nao_lidas_por_sala (sala_id : string) (usuario_id : Z) : M nat :=
  get_connection (λ b,
    mret (select_nao_lidas_por_sala sala_id usuario_id (chat_mensagem b), b)).

(** The join of [contar_nao_lidas_por_usuario]: the pairs of a message
    [cm] and a membership [cp] with [cm.sala_id = cp.sala_id],
    [cp.usuario_id = ?], [cm.usuario_id != ?] and [cm.lida_em IS NULL]. *)
Definition select_nao_lidas_por_usuario (usuario_id : Z) (b : Banco) : nat :=
  length
    (filter (λ par : ChatMensagem.t * ChatParticipante.t,
               (bool_decide (ChatMensagem.sala_id par.1 = ChatParticipante.sala_id par.2)
                && bool_decide (ChatParticipante.usuario_id par.2 = usuario_id)
                && negb (bool_decide (ChatMensagem.usuario_id par.1 = usuario_id))
                && bool_decide (ChatMensagem.lida_em par.1 = None)) = true)
            (cm ← chat_mensagem b; cp ← chat_participante b; [(cm, cp)])).

(** [contar_nao_lidas_por_usuario] *)
Definition contar_nao_lidas_por_usuario (usuario_id : Z) : M nat :=
  get_connection (λ b, mret (select_nao_lidas_por_usuario usuario_id b, b)).

End chat_mensagem_repo.

(** The [usuario] table is written by the sign-up route alone.  The
    requests of the chat only read it: they are given its rows, in rowid
    order, as the argument [usuario]. *)
Module usuario_repo.

(** [obter_por_id]: the row of the user, if any. *)
Definition obter_por_id (usuario : list Usuario.t) (usuario_id : Z)
    : M (option Usuario.t) :=
  get_connection (λ b,
    mret (head (filter (λ u, Usuario.id u = usuario_id) usuario), b)).


End usuario_repo.

(** ** Request validation: [dtos/chat_dto.py] *)

Module CriarSalaDTO.

Record t := { outro_usuario_id : Z }.

(** The message of the [ValueError] of the validator:
    'ID do usuário deve ser um número positivo.' *)
Inductive Erro := IdNaoPositivo.

Definition validar_outro_usuario_id (v : Z) : Erro + Z :=
  if bool_decide (v ≤ 0) then inl IdNaoPositivo else inr v.

(** [CriarSalaDTO(outro_usuario_id=...)]: the dto, or the errors of the
    [ValidationError]. *)
Definition novo (outro_usuario_id : Z) : list Erro + t :=
  match validar_outro_usuario_id outro_usuario_id with
  | inr v => inr {| outro_usuario_id := v |}
  | inl e => inl [e]
  end.

End CriarSalaDTO.

Module EnviarMensagemDTO.

Record t := { sala_id : string; mensagem : string }.

(** The validators return the stripped value or the message of the
    [ValueError] they raise. *)
Definition validar_sala_id (v : string) : Validacao + string :=
  let v := Py.strip v in
  if bool_decide (v = EmptyString) then inl SalaIdObrigatorio else inr v.

Definition validar_mensagem (v : string) : Validacao + string :=
  let v := Py.strip v in
  if bool_decide (v = EmptyString) then inl MensagemVazia
  else if bool_decide (5000 < String.length v)%nat then inl MensagemMuitoLonga
  else inr v.

(** [EnviarMensagemDTO(sala_id=..., mensagem=...)]: every field is
    validated, the errors are collected in field order. *)
Definition novo (sala_id mensagem : string) : M t :=
  match validar_sala_id sala_id, validar_mensagem mensagem with
  | inr s, inr m => mret {| sala_id := s; mensagem := m |}
  | inl e1, inr _ => raise (ValidationError [e1])
  | inr _, inl e2 => raise (ValidationError [e2])
  | inl e1, inl e2 => raise (ValidationError [e1; e2])
  end.

End EnviarMensagemDTO.

(** ** The send endpoint: [routes/chat_routes.py] *)

Module chat_routes.

(** [s.zfill(n)] on a string of digits. *)
Definition zfill (n : nat) (s : string) : string :=
  string_of_list_ascii (replicate (n - String.length s) "0"%char) +:+ s.

(** [datetime.isoformat()] of a naive datetime. *)
Definition isoformat (d : datetime) : string :=
  zfill 4 (Py.str (year d)) +:+ "-" +:+ zfill 2 (Py.str (month d)) +:+ "-"
  +:+ zfill 2 (Py.str (day d)) +:+ "T" +:+ zfill 2 (Py.str (hour d)) +:+ ":"
  +:+ zfill 2 (Py.str (minute d)) +:+ ":" +:+ zfill 2 (Py.str (second d))
  +:+ (if microsecond d =? 0 then EmptyString
       else "." +:+ zfill 6 (Py.str (microsecond d))).

(** [formatar_data_iso] on [None] and on a [datetime]. *)
Definition formatar_data_iso (valor : option datetime) : option string :=
  isoformat <$> valor.

(** [JSONResponse(status_code=..., content={"sucesso": ..., "mensagem": ...})] *)
Record JSONResponse := {
  status_code : Z;
  sucesso : bool;
  mensagem : MensagemJson.t
}.

(** [mensagem_sse] of [enviar_mensagem] *)
Definition mensagem_sse (nova_mensagem : ChatMensagem.t) : Evento.t :=
  {| Evento.tipo := "nova_mensagem";
     Evento.sala_id := ChatMensagem.sala_id nova_mensagem;
     Evento.mensagem :=
       {| MensagemJson.id := ChatMensagem.id nova_mensagem;
          MensagemJson.sala_id := ChatMensagem.sala_id nova_mensagem;
          MensagemJson.usuario_id := ChatMensagem.usuario_id nova_mensagem;
          MensagemJson.mensagem := ChatMensagem.mensagem nova_mensagem;
          MensagemJson.data_envio :=
            formatar_data_iso (Some (ChatMensagem.data_envio nova_mensagem));
          MensagemJson.lida_em := None |} |}.

(** The [try] block of [enviar_mensagem]. *)
Definition enviar_mensagem_try (sala_id mensagem : string) (usuario_logado_id : Z)
    : M JSONResponse :=
  dto ← EnviarMensagemDTO.novo sala_id mensagem;
  let usuario_id := usuario_logado_id in
  participante ← chat_participante_repo.obter_por_sala_e_usuario
                   (EnviarMensagemDTO.sala_id dto) usuario_id;
  match participante with
  | None => raise (HTTPException 403 DetalheSemAcesso)
  | Some _ =>
      nova_mensagem ← chat_mensagem_repo.inserir
                        (EnviarMensagemDTO.sala_id dto) usuario_id
                        (EnviarMensagemDTO.mensagem dto);
      chat_sala_repo.atualizar_ultima_atividade (EnviarMensagemDTO.sala_id dto);;
      let mensagem_sse := mensagem_sse nova_mensagem in
      broadcast_para_sala (EnviarMensagemDTO.sala_id dto) mensagem_sse;;
      mret {| status_code := 200; sucesso := true;
              mensagem := Evento.mensagem mensagem_sse |}
  end.

(** Its [except ValidationError as e] clause, the only one. *)
Definition enviar_mensagem_except (e : Excecao) : option (M JSONResponse) :=
  match e with
  | ValidationError erros =>
      Some (raise (HTTPException 400
                     (match erros with
                      | v :: _ => DetalheValidacao v
                      | [] => DetalheDadosInvalidos
                      end)))
  | _ => None
  end.

(** [enviar_mensagem], entered with the authenticated user's id
    ([usuario_logado["id"]], injected by [requer_autenticacao]). *)
Definition enviar_mensagem (sala_id mensagem : string) (usuario_logado_id : Z)
    : M JSONResponse :=
  try_except (enviar_mensagem_try sala_id mensagem usuario_logado_id)
             enviar_mensagem_except.

(** [marcar_mensagens_lidas]; [true] is the 200 response
    [{"sucesso": True}]. *)
Definition marcar_mensagens_lidas (sala_id : string) (usuario_logado_id : Z)
    : M bool :=
  let usuario_id := usuario_logado_id in
  participante ← chat_participante_repo.obter_por_sala_e_usuario sala_id usuario_id;
  match participante with
  | None => raise (HTTPException 403 DetalheSemAcesso)
  | Some _ =>
      chat_mensagem_repo.marcar_como_lidas sala_id usuario_id;;
      mret true
  end.

(** The [detail] of the [HTTPException]s of [criar_ou_obter_sala]. *)
Inductive DetalheSala :=
  | DetalheIdInvalido (e : CriarSalaDTO.Erro)  (* e.errors()[0]["msg"] *)
  | DetalheSalaDadosInvalidos                  (* "Dados inválidos." *)
  | DetalheConsigoMesmo     (* "Não é possível criar sala de chat consigo mesmo." *)
  | DetalheUsuarioNaoEncontrado.               (* "Usuário não encontrado." *)

(** ["outro_usuario"] of the 200 response. *)
Record UsuarioJson := {
  usuario_json_id : Z;
  usuario_json_nome : string;
  usuario_json_email : string
}.

(** What the client of [criar_ou_obter_sala] receives: the 200 response,
    or the response FastAPI makes of the [HTTPException] the route raised. *)
Inductive RespostaSala :=
  | RespostaSala200 (sala_id : string) (outro_usuario : UsuarioJson)
  | RespostaSalaErro (status_code : Z) (detail : DetalheSala).

(** [criar_ou_obter_sala] of [routes/chat_routes.py], entered with the
    authenticated user's id.  Its [HTTPException]s end the request with
    their response; an exception of the store is not caught. *)
Definition criar_ou_obter_sala (usuario : list Usuario.t) (outro_usuario_id : Z)
    (usuario_logado_id : Z) : M RespostaSala :=
  match CriarSalaDTO.novo outro_usuario_id with
  | inl erros =>
      mret (RespostaSalaErro 400
              (match erros with
               | e :: _ => DetalheIdInvalido e
               | [] => DetalheSalaDadosInvalidos
               end))
  | inr dto =>
      let usuario_id := usuario_logado_id in
      if bool_decide (CriarSalaDTO.outro_usuario_id dto = usuario_id)
      then mret (RespostaSalaErro 400 DetalheConsigoMesmo)
      else
        outro_usuario ← usuario_repo.obter_por_id usuario
                          (CriarSalaDTO.outro_usuario_id dto);
        match outro_usuario with
        | None => mret (RespostaSalaErro 404 DetalheUsuarioNaoEncontrado)
        | Some outro_usuario =>
            sala ← chat_sala_repo.criar_ou_obter_sala usuario_id
                     (CriarSalaDTO.outro_usuario_id dto);
            mret (RespostaSala200 (ChatSala.id sala)
                    {| usuario_json_id := Usuario.id outro_usuario;
                       usuario_json_nome := Usuario.nome outro_usuario;
                       usuario_json_email := Usuario.email outro_usuario |})
        end
  end.


(** [contar_nao_lidas]: ["total"] of the 200 response. *)
Definition contar_nao_lidas (usuario_logado_id : Z) : M nat :=
  let usuario_id := usuario_logado_id in
  chat_mensagem_repo.contar_nao_lidas_por_usuario usuario_id.

End chat_routes.


(** ** The history of a room: [listar_por_sala] of
    [repo/chat_mensagem_repo.py], [listar_mensagens] of
    [routes/chat_routes.py] *)

Module historico.

(** [datetime.isoformat(sep)] of a naive datetime. *)
Definition isoformat_sep (sep : string) (d : datetime) : string :=
  chat_routes.zfill 4 (Py.str (year d)) +:+ "-"
  +:+ chat_routes.zfill 2 (Py.str (month d)) +:+ "-"
  +:+ chat_routes.zfill 2 (Py.str (day d)) +:+ sep
  +:+ chat_routes.zfill 2 (Py.str (hour d)) +:+ ":"
  +:+ chat_routes.zfill 2 (Py.str (minute d)) +:+ ":"
  +:+ chat_routes.zfill 2 (Py.str (second d))
  +:+ (if microsecond d =? 0 then EmptyString
       else "." +:+ chat_routes.zfill 6 (Py.str (microsecond d))).

(** The text [sqlite3] stores for a [datetime] parameter: its default
    adapter is [val.isoformat(" ")]. *)
Definition adapt_datetime (val : datetime) : string := isoformat_sep " " val.

(** A [ChatMensagem] made of a row: the connection declares no converter,
    the TIMESTAMP columns come back as the stored text. *)
Module Linha.
Record t := {
  id : Z;
  sala_id : string;
  usuario_id : Z;
  mensagem : string;
  data_envio : string;
  lida_em : option string
}.
End Linha.

Definition linha (m : ChatMensagem.t) : Linha.t :=
  {| Linha.id := ChatMensagem.id m;
     Linha.sala_id := ChatMensagem.sala_id m;
     Linha.usuario_id := ChatMensagem.usuario_id m;
     Linha.mensagem := ChatMensagem.mensagem m;
     Linha.data_envio := adapt_datetime (ChatMensagem.data_envio m);
     Linha.lida_em := adapt_datetime <$> ChatMensagem.lida_em m |}.

(** The order of [ORDER BY data_envio DESC] on two rows: the stored texts
    compared as bytes, the greater first. *)
Definition mais_recente_primeiro : relation ChatMensagem.t :=
  λ m1 m2, String.leb (adapt_datetime (ChatMensagem.data_envio m2))
                      (adapt_datetime (ChatMensagem.data_envio m1)) = true.

#[export] Instance mais_recente_primeiro_dec : RelDecision mais_recente_primeiro :=
  λ m1 m2, decide (String.leb (adapt_datetime (ChatMensagem.data_envio m2))
                              (adapt_datetime (ChatMensagem.data_envio m1)) = true).

(** SQL leaves open the order of rows of equal [data_envio]: [order_by]
    stands for the order SQLite gives to the selected rows, any function
    that obeys this contract. *)
Definition order_by_data_envio_desc
    (order_by : list ChatMensagem.t → list ChatMensagem.t) : Prop :=
  ∀ l, order_by l ≡ₚ l ∧ Sorted mais_recente_primeiro (order_by l).

(** [listar_por_sala] *)
Definition listar_por_sala (order_by : list ChatMensagem.t → list ChatMensagem.t)
    (sala_id : string) (limite offset : Z) : M (list Linha.t) :=
  get_connection (λ b,
    mret (linha <$>
            Sqlite.limit limite
              (Sqlite.offset offset
                 (order_by (filter (λ m, ChatMensagem.sala_id m = sala_id)
                                   (chat_mensagem b)))), b)).

(** [formatar_data_iso] on [None] and on a [str]. *)
Definition formatar_data_iso (valor : option string) : option string := valor.

(** An element of [mensagens_dict]. *)
Definition mensagem_dict (m : Linha.t) : MensagemJson.t :=
  {| MensagemJson.id := Linha.id m;
     MensagemJson.sala_id := Linha.sala_id m;
     MensagemJson.usuario_id := Linha.usuario_id m;
     MensagemJson.mensagem := Linha.mensagem m;
     MensagemJson.data_envio := formatar_data_iso (Some (Linha.data_envio m));
     MensagemJson.lida_em := formatar_data_iso (Linha.lida_em m) |}.

(** [listar_mensagens]: ["mensagens"] of the 200 response.  [limite] and
    [offset] have passed the checks of the framework. *)
Definition listar_mensagens (order_by : list ChatMensagem.t → list ChatMensagem.t)
    (sala_id : string) (limite offset : Z) (usuario_logado_id : Z)
    : M (list MensagemJson.t) :=
  let usuario_id := usuario_logado_id in
  participante ← chat_participante_repo.obter_por_sala_e_usuario sala_id usuario_id;
  match participante with
  | None => raise (HTTPException 403 DetalheSemAcesso)
  | Some _ =>
      mensagens ← listar_por_sala order_by sala_id limite offset;
      mret (mensagem_dict <$> mensagens)
  end.

(** An order that obeys the contract. *)
Definition ordenar_desc : list ChatMensagem.t → list ChatMensagem.t :=
  merge_sort mais_recente_primeiro.

End historico.

(** ** Sessions and flash messages: [util/auth_decorator.py],
    [util/flash_messages.py], [routes/auth_routes.py] *)

(** [request.session], the dict the session middleware keeps for a
    browser: its two keys, each absent ([None]) or present.  Under
    ["usuario_logado"] is the dict of [criar_sessao], under
    ["flash_messages"] a list of dicts [{"tipo": ..., "texto": ...}]. *)
Module Sessao.
Record UsuarioLogado := { id : Z; nome : string; email : string }.
Record Flash := { tipo : string; texto : string }.
Record t := {
  usuario_logado : option UsuarioLogado;
  flash_messages : option (list Flash)
}.
End Sessao.

(** What a page route returns. *)
Inductive RespostaHtml :=
  | RedirectResponse (url : string) (status_code : Z)
  | TemplateResponse (name : string) (redirect : option string)
      (mensagens : list Sessao.Flash).

Module auth_decorator.

(** [criar_sessao] *)
Definition criar_sessao (usuario : Sessao.UsuarioLogado) (s : Sessao.t) : Sessao.t :=
  {| Sessao.usuario_logado := Some usuario;
     Sessao.flash_messages := Sessao.flash_messages s |}.

(** [destruir_sessao]: [request.session.clear()] *)
Definition destruir_sessao (s : Sessao.t) : Sessao.t :=
  {| Sessao.usuario_logado := None; Sessao.flash_messages := None |}.

(** [obter_usuario_logado] *)
Definition obter_usuario_logado (s : Sessao.t) : option Sessao.UsuarioLogado :=
  Sessao.usuario_logado s.

(** [esta_logado] *)
Definition esta_logado (s : Sessao.t) : bool :=
  bool_decide (is_Some (Sessao.usuario_logado s)).

(** The [wrapper] of [requer_autenticacao()] around [func], for a request
    to [path]: the redirect to the login page, or what [func] returns when
    it is given the user of the session. *)
Definition requer_autenticacao {A} (func : Sessao.UsuarioLogado → Sessao.t → A * Sessao.t)
    (path : string) (s : Sessao.t) : (RespostaHtml + A) * Sessao.t :=
  match obter_usuario_logado s with
  | None => (inl (RedirectResponse ("/login?redirect=" +:+ path) 303), s)
  | Some usuario => let '(a, s') := func usuario s in (inr a, s')
  end.

End auth_decorator.

Module flash_messages.

(** [adicionar_mensagem] *)
Definition adicionar_mensagem (tipo texto : string) (s : Sessao.t) : Sessao.t :=
  let s :=
    match Sessao.flash_messages s with
    | None => {| Sessao.usuario_logado := Sessao.usuario_logado s;
                 Sessao.flash_messages := Some [] |}
    | Some _ => s
    end in
  {| Sessao.usuario_logado := Sessao.usuario_logado s;
     Sessao.flash_messages :=
       (λ l, l ++ [ {| Sessao.tipo := tipo; Sessao.texto := texto |} ])
       <$> Sessao.flash_messages s |}.

(** [informar_sucesso] *)
Definition informar_sucesso (texto : string) : Sessao.t → Sessao.t :=
  adicionar_mensagem "success" texto.

(** [informar_erro] *)
Definition informar_erro (texto : string) : Sessao.t → Sessao.t :=
  adicionar_mensagem "danger" texto.

(** [obter_mensagens] *)
Definition obter_mensagens (s : Sessao.t) : list Sessao.Flash * Sessao.t :=
  let mensagens := default [] (Sessao.flash_messages s) in
  (mensagens,
   {| Sessao.usuario_logado := Sessao.usuario_logado s;
      Sessao.flash_messages := Some [] |}).

End flash_messages.

Module auth_routes.

(** "Você saiu do sistema." *)
Definition texto_saiu : string :=
  "Voc" +:+ String (ascii_of_nat 234) " saiu do sistema.".

(** [get_login] *)
Definition get_login (redirect : string) (s : Sessao.t) : RespostaHtml * Sessao.t :=
  match auth_decorator.obter_usuario_logado s with
  | Some _ => (RedirectResponse redirect 303, s)
  | None =>
      let '(mensagens, s') := flash_messages.obter_mensagens s in
      (TemplateResponse "login.html" (Some redirect) mensagens, s')
  end.

(** [get_cadastrar] *)
Definition get_cadastrar (s : Sessao.t) : RespostaHtml * Sessao.t :=
  match auth_decorator.obter_usuario_logado s with
  | Some _ => (RedirectResponse "/home" 303, s)
  | None =>
      let '(mensagens, s') := flash_messages.obter_mensagens s in
      (TemplateResponse "cadastro.html" None mensagens, s')
  end.

(** [logout] *)
Definition logout (s : Sessao.t) : RespostaHtml * Sessao.t :=
  let s := auth_decorator.destruir_sessao s in
  let s := flash_messages.informar_sucesso texto_saiu s in
  (RedirectResponse "/login" 303, s).

End auth_routes.

(** ** Runs of the process *)

(** What the process is asked to do, one request or one turn of a session
    at a time. *)
Inductive Operacao :=
  | OpConnect (usuario_id : Z)
  | OpDisconnect (usuario_id : Z)
  | OpBroadcast (sala_id : string) (mensagem_dict : Evento.t)
  | OpPasso (queue : Fila)
  | OpFim (usuario_id : Z) (cancelou : bool)
  | OpCriarSala (usuario1_id usuario2_id : Z)
  | OpEnviar (sala_id mensagem : string) (usuario_logado_id : Z)
  | OpMarcarLidas (sala_id : string) (usuario_logado_id : Z).

(** The world after an operation; an exception ends the request, not the
    process. *)
Definition executar (op : Operacao) (w : Mundo) : Mundo :=
  match op with
  | OpConnect u => (connect u w).2
  | OpDisconnect u => (disconnect u w).2
  | OpBroadcast s e => (broadcast_para_sala s e w).2
  | OpPasso q => (event_generator_passo q w).2
  | OpFim u c => (event_generator_fim u c w).2
  | OpCriarSala u1 u2 => (chat_sala_repo.criar_ou_obter_sala u1 u2 w).2
  | OpEnviar s m u => (chat_routes.enviar_mensagem s m u w).2
  | OpMarcarLidas s u => (chat_routes.marcar_mensagens_lidas s u w).2
  end.

Definition executar_todas (ops : list Operacao) (w : Mundo) : Mundo :=
  foldl (λ w op, executar op w) w ops.

(** At boot the registry is [ChatManager()] and no queue exists; the
    tables, the clock and the faults are arbitrary. *)
Definition inicial (w : Mundo) : Prop :=
  chat_manager w = ChatManager_init ∧ filas w = [].

Inductive alcancavel : Mundo → Prop :=
  | alc_inicial w : inicial w → alcancavel w
  | alc_passo w op : alcancavel w → alcancavel (executar op w).

(** The events put on, and taken from, a queue according to a trace. *)
Definition postos (q : Fila) (t : list Efeito) : list Evento.t :=
  omap (λ ef, match ef with
              | EfPut q' e => if decide (q' = q) then Some e else None
              | _ => None
              end) t.
Definition retirados (q : Fila) (t : list Efeito) : list Evento.t :=
  omap (λ ef, match ef with
              | EfGet q' e => if decide (q' = q) then Some e else None
              | _ => None
              end) t.

(** The registry's two fields agree. *)
Definition membros_coerentes (w : Mundo) : Prop :=
  dom (_connections (chat_manager w)) = _active_connections (chat_manager w).

(** Every registered queue exists, and no queue is registered twice. *)
Definition filas_validas (w : Mundo) : Prop :=
  ∀ u q, _connections (chat_manager w) !! u = Some q → (q < length (filas w))%nat.
Definition filas_distintas (w : Mundo) : Prop :=
  ∀ u1 u2 q, _connections (chat_manager w) !! u1 = Some q →
             _connections (chat_manager w) !! u2 = Some q → u1 = u2.

(** The channels registered for a user: the values of the entries of
    [_connections] under that key. *)
Definition canais (usuario_id : Z) (w : Mundo) : list Fila :=
  (filter (λ kv, kv.1 = usuario_id)
          (map_to_list (_connections (chat_manager w)))).*2.

(** A user that is offline: the registry is new, or the user's session has
    just run [disconnect]. *)
Definition desligado (usuario_id : Z) (w : Mundo) : Prop :=
  inicial w ∨ ∃ w0, w = (disconnect usuario_id w0).2.

(** Every character of a string passes a test. *)
Fixpoint all_chars (P : ascii → bool) (s : string) : bool :=
  match s with
  | EmptyString => true
  | String c s' => P c && all_chars P s'
  end.

(** The characters of the decimal text of an integer. *)
Definition sinal_ou_digito (c : ascii) : bool :=
  Py.is_digit c || Ascii.eqb c "-".

(** Relations between the world before and after a request. *)

(** The registry and the number of queues are the same. *)
Definition mesmo_registo (w w' : Mundo) : Prop :=
  chat_manager w' = chat_manager w ∧ length (filas w') = length (filas w).

(** The trace grew, and every queue that existed still does and holds what
    it held, behind what was taken from it and before what was put on it. *)
Definition fifo (w w' : Mundo) : Prop :=
  ∃ novos, efeitos w' = efeitos w ++ novos
    ∧ ∀ q pend, filas w !! q = Some pend →
        ∃ pend', filas w' !! q = Some pend'
                 ∧ pend ++ postos q novos = retirados q novos ++ pend'.

Definition invariante (w : Mundo) : Prop :=
  membros_coerentes w ∧ filas_validas w ∧ filas_distintas w.

(** A concrete world: users 3 and 7 share the room ["3_7"], nobody is
    connected, SQLite never fails and the clock advances by one second at
    each reading. *)
Definition relogio_exemplo (n : nat) : datetime :=
  {| year := 2024; month := 1; day := 15;
     hour := 10; minute := 30; second := Z.of_nat n; microsecond := 0 |}.

Definition banco_exemplo : Banco :=
  {| chat_sala :=
       [ {| ChatSala.id := "3_7";
            ChatSala.criada_em := relogio_exemplo 0;
            ChatSala.ultima_atividade := relogio_exemplo 0 |} ];
     chat_mensagem := [];
     chat_mensagem_seq := 0;
     chat_participante :=
       [ {| ChatParticipante.sala_id := "3_7";
            ChatParticipante.usuario_id := 3;
            ChatParticipante.ultima_leitura := None |};
         {| ChatParticipante.sala_id := "3_7";
            ChatParticipante.usuario_id := 7;
            ChatParticipante.ultima_leitura := None |} ] |}.

Definition mundo_exemplo : Mundo :=
  {| chat_manager := ChatManager_init; filas := []; stdout := [];
     banco := banco_exemplo; efeitos := [];
     relogio := relogio_exemplo; leituras := 0;
     sqlite_falha := λ _, false; acessos := 0 |}.

Definition evento_exemplo (n : Z) : Evento.t :=
  {| Evento.tipo := "nova_mensagem"; Evento.sala_id := "3_7";
     Evento.mensagem :=
       {| MensagemJson.id := n; MensagemJson.sala_id := "3_7";
          MensagemJson.usuario_id := 3; MensagemJson.mensagem := "hi";
          MensagemJson.data_envio := Some "2024-01-15T10:30:00"%string;
          MensagemJson.lida_em := None |} |}.

(** How a send request can end, read off the trace: rejected with nothing
    written; the message stored and the request failed before any fan-out;
    or the message stored, then the room's activity updated, then the
    puts of the fan-out, each of that message's event. *)
Inductive desfecho (w w' : Mundo) (r : Resultado chat_routes.JSONResponse) : Prop :=
  | desfecho_rejeitado e :
      r = Levanta e →
      efeitos w' = efeitos w → banco w' = banco w → filas w' = filas w →
      desfecho w w' r
  | desfecho_sem_difusao m :
      r = Levanta SqliteError →
      efeitos w' = efeitos w ++ [EfInserir m] →
      chat_mensagem (banco w') = chat_mensagem (banco w) ++ [m] →
      filas w' = filas w →
      desfecho w w' r
  | desfecho_difundido m s d puts :
      (r = Levanta ValueError ∧ puts = []
       ∨ r = Retorno {| chat_routes.status_code := 200;
                        chat_routes.sucesso := true;
                        chat_routes.mensagem :=
                          Evento.mensagem (chat_routes.mensagem_sse m) |}) →
      efeitos w' = efeitos w ++ EfInserir m :: EfAtividade s d :: puts →
      chat_mensagem (banco w') = chat_mensagem (banco w) ++ [m] →
      Forall (λ ef, ∃ q, ef = EfPut q (chat_routes.mensagem_sse m)) puts →
      desfecho w w' r.

(** The caller has a membership row for the room. *)
Definition participa (sala_id : string) (usuario_id : Z) (b : Banco) : Prop :=
  ∃ p, p ∈ chat_participante b
       ∧ ChatParticipante.sala_id p = sala_id
       ∧ ChatParticipante.usuario_id p = usuario_id.

(** The tables are those of two-party rooms: every membership row is for
    one of the two users its room id was generated from, and every message
    was sent by a member of its room. *)
Definition banco_coerente (b : Banco) : Prop :=
  (∀ p, p ∈ chat_participante b →
        ∃ x y, ChatParticipante.sala_id p = gerar_sala_id x y
               ∧ (ChatParticipante.usuario_id p = x
                  ∨ ChatParticipante.usuario_id p = y))
  ∧ (∀ m, m ∈ chat_mensagem b →
          participa (ChatMensagem.sala_id m) (ChatMensagem.usuario_id m) b).

(** The tables [inicializar_banco] creates. *)
Definition banco_vazio : Banco :=
  {| chat_sala := []; chat_mensagem := []; chat_mensagem_seq := 0;
     chat_participante := [] |}.

(** Both fields of the form pass their validators. *)
Definition validos (sala_id mensagem : string) : Prop :=
  ∃ s m, EnviarMensagemDTO.validar_sala_id sala_id = inr s
         ∧ EnviarMensagemDTO.validar_mensagem mensagem = inr m.

(** A world in which the second use of SQLite fails, and one whose tables
    hold a room id that is not of the canonical form. *)
Definition mundo_falha_inserir : Mundo :=
  {| chat_manager := ChatManager_init; filas := []; stdout := [];
     banco := banco_exemplo; efeitos := [];
     relogio := relogio_exemplo; leituras := 0;
     sqlite_falha := λ n, (n =? 1)%nat; acessos := 0 |}.

Definition mundo_sala_a_b : Mundo :=
  {| chat_manager := ChatManager_init; filas := []; stdout := [];
     banco :=
       {| chat_sala := []; chat_mensagem := []; chat_mensagem_seq := 0;
          chat_participante :=
            [ {| ChatParticipante.sala_id := "a_b";
                 ChatParticipante.usuario_id := 3;
                 ChatParticipante.ultima_leitura := None |} ] |};
     efeitos := [];
     relogio := relogio_exemplo; leituras := 0;
     sqlite_falha := λ _, false; acessos := 0 |}.

(** The rows of the join that one message contributes. *)
Definition pares_nao_lidos (usuario_id : Z) (ps : list ChatParticipante.t)
    (cm : ChatMensagem.t) : list (ChatMensagem.t * ChatParticipante.t) :=
  filter (λ par : ChatMensagem.t * ChatParticipante.t,
            (bool_decide (ChatMensagem.sala_id par.1 = ChatParticipante.sala_id par.2)
             && bool_decide (ChatParticipante.usuario_id par.2 = usuario_id)
             && negb (bool_decide (ChatMensagem.usuario_id par.1 = usuario_id))
             && bool_decide (ChatMensagem.lida_em par.1 = None)) = true)
         (cp ← ps; [(cm, cp)]).

(** Tables with traffic: in room ["3_7"] an unread message of 3, an unread
    message of 7 and a read message of 3; in room ["3_9"] an unread
    message of 9. *)
Definition mensagem_exemplo (id : Z) (sala_id : string) (usuario_id : Z)
    (lida_em : option datetime) : ChatMensagem.t :=
  {| ChatMensagem.id := id; ChatMensagem.sala_id := sala_id;
     ChatMensagem.usuario_id := usuario_id; ChatMensagem.mensagem := "hi";
     ChatMensagem.data_envio := relogio_exemplo 0;
     ChatMensagem.lida_em := lida_em |}.

Definition mundo_com_mensagens : Mundo :=
  {| chat_manager := ChatManager_init; filas := []; stdout := [];
     banco :=
       {| chat_sala := chat_sala banco_exemplo;
          chat_mensagem :=
            [ mensagem_exemplo 1 "3_7" 3 None;
              mensagem_exemplo 2 "3_7" 7 None;
              mensagem_exemplo 3 "3_7" 3 (Some (relogio_exemplo 1));
              mensagem_exemplo 4 "3_9" 9 None ];
          chat_mensagem_seq := 4;
          chat_participante :=
            chat_participante banco_exemplo
            ++ [ {| ChatParticipante.sala_id := "3_9";
                    ChatParticipante.usuario_id := 3;
                    ChatParticipante.ultima_leitura := None |};
                 {| ChatParticipante.sala_id := "3_9";
                    ChatParticipante.usuario_id := 9;
                    ChatParticipante.ultima_leitura := None |} ] |};
     efeitos := [];
     relogio := relogio_exemplo; leituras := 5;
     sqlite_falha := λ _, false; acessos := 0 |}.

(** A request keeps a relation between the world before and after it. *)
Definition preserva (R : relation Mundo) {A} (m : M A) : Prop :=
  ∀ w, R w (m w).2.

(** ** The tables across requests *)

(** What one request can do to the tables: nothing; the room and the two
    membership rows of [criar_ou_obter_sala], none of which existed; the
    row of [chat_mensagem_repo.inserir], with or without the activity
    update that follows it in [enviar_mensagem]; the stamps of
    [marcar_como_lidas]. *)
Inductive passo_banco (b : Banco) : Banco → Prop :=
  | pb_nada : passo_banco b b
  | pb_sala (usuario1_id usuario2_id : Z) (agora : datetime) :
      ¬ (∃ s, s ∈ chat_sala b ∧ ChatSala.id s = gerar_sala_id usuario1_id usuario2_id) →
      ¬ participa (gerar_sala_id usuario1_id usuario2_id) usuario1_id b →
      ¬ participa (gerar_sala_id usuario1_id usuario2_id) usuario2_id b →
      usuario1_id ≠ usuario2_id →
      passo_banco b
        {| chat_sala := chat_sala b ++
             [ {| ChatSala.id := gerar_sala_id usuario1_id usuario2_id;
                  ChatSala.criada_em := agora;
                  ChatSala.ultima_atividade := agora |} ];
           chat_mensagem := chat_mensagem b;
           chat_mensagem_seq := chat_mensagem_seq b;
           chat_participante := chat_participante b ++
             [ {| ChatParticipante.sala_id := gerar_sala_id usuario1_id usuario2_id;
                  ChatParticipante.usuario_id := usuario1_id;
                  ChatParticipante.ultima_leitura := None |};
               {| ChatParticipante.sala_id := gerar_sala_id usuario1_id usuario2_id;
                  ChatParticipante.usuario_id := usuario2_id;
                  ChatParticipante.ultima_leitura := None |} ] |}
  | pb_mensagem (sala_id : string) (usuario_id : Z) (mensagem : string)
        (data_envio : datetime) (salas : list ChatSala.t) :
      participa sala_id usuario_id b →
      (salas = chat_sala b
       ∨ ∃ agora, salas = chat_sala_repo.tocar sala_id agora <$> chat_sala b) →
      passo_banco b
        {| chat_sala := salas;
           chat_mensagem := chat_mensagem b ++
             [ {| ChatMensagem.id := chat_mensagem_seq b + 1;
                  ChatMensagem.sala_id := sala_id;
                  ChatMensagem.usuario_id := usuario_id;
                  ChatMensagem.mensagem := mensagem;
                  ChatMensagem.data_envio := data_envio;
                  ChatMensagem.lida_em := None |} ];
           chat_mensagem_seq := chat_mensagem_seq b + 1;
           chat_participante := chat_participante b |}
  | pb_lidas (sala_id : string) (usuario_id : Z) (agora : datetime) :
      participa sala_id usuario_id b →
      passo_banco b
        {| chat_sala := chat_sala b;
           chat_mensagem :=
             chat_mensagem_repo.marcar sala_id usuario_id agora <$> chat_mensagem b;
           chat_mensagem_seq := chat_mensagem_seq b;
           chat_participante := chat_participante b |}.

(** The ids of the stored messages grow along the table, and none is above
    the AUTOINCREMENT counter. *)
Definition ids_em_ordem (b : Banco) : Prop :=
  (∀ i j mi mj, chat_mensagem b !! i = Some mi → chat_mensagem b !! j = Some mj →
                (i < j)%nat → ChatMensagem.id mi < ChatMensagem.id mj)
  ∧ (∀ m, m ∈ chat_mensagem b → ChatMensagem.id m ≤ chat_mensagem_seq b).

(** Every room is the room of two different users, who are its only
    members, and every membership row is for a room of the room table. *)
Definition salas_integras (b : Banco) : Prop :=
  (∀ s, s ∈ chat_sala b →
        ∃ x y, x ≠ y ∧ ChatSala.id s = gerar_sala_id x y
               ∧ ∀ u, participa (ChatSala.id s) u b ↔ u = x ∨ u = y)
  ∧ (∀ p, p ∈ chat_participante b →
          ∃ s, s ∈ chat_sala b ∧ ChatSala.id s = ChatParticipante.sala_id p).

(** A stored message is the same row but for its time of reading, which
    is kept once it is set. *)
Definition conserva (m m' : ChatMensagem.t) : Prop :=
  ChatMensagem.id m' = ChatMensagem.id m
  ∧ ChatMensagem.sala_id m' = ChatMensagem.sala_id m
  ∧ ChatMensagem.usuario_id m' = ChatMensagem.usuario_id m
  ∧ ChatMensagem.mensagem m' = ChatMensagem.mensagem m
  ∧ ChatMensagem.data_envio m' = ChatMensagem.data_envio m
  ∧ (∀ d, ChatMensagem.lida_em m = Some d → ChatMensagem.lida_em m' = Some d).

(** A world with the tables [inicializar_banco] creates, in which the
    store answers and the clock advances by one second at each reading. *)
Definition mundo_vazio : Mundo :=
  {| chat_manager := ChatManager_init; filas := []; stdout := [];
     banco := banco_vazio; efeitos := [];
     relogio := relogio_exemplo; leituras := 0;
     sqlite_falha := λ _, false; acessos := 0 |}.

(** The primary keys of the room table and of the membership table. *)
Definition chaves_unicas (b : Banco) : Prop :=
  NoDup (ChatSala.id <$> chat_sala b)
  ∧ NoDup ((λ p, (ChatParticipante.sala_id p, ChatParticipante.usuario_id p))
           <$> chat_participante b).


(** * Properties *)

(** ** Decimal text of an integer and its parsing *)

Section PyFacts.

Lemma all_chars_impl (P Q : ascii → bool) s :
  (∀ c, P c = true → Q c = true) →
  all_chars P s = true → all_chars Q s = true.
Proof.
  intros HPQ. induction s as [|c s IH]; simpl; [done|].
  intros [Hc Hs]%andb_prop. rewrite (HPQ _ Hc), IH; done.
Qed.

Lemma all_chars_app P s1 s2 :
  all_chars P (s1 +:+ s2) = all_chars P s1 && all_chars P s2.
Proof.
  induction s1 as [|c s1 IH]; simpl; [done|].
  by rewrite IH, andb_assoc.
Qed.

Lemma string_of_uint_digits d :
  all_chars Py.is_digit (NilEmpty.string_of_uint d) = true.
Proof. induction d; simpl; auto. Qed.

Lemma string_of_uint_cons d :
  d ≠ Nil →
  ∃ c r, NilEmpty.string_of_uint d = String c r ∧ Py.is_digit c = true.
Proof. destruct d; [done|..]; intros _; simpl; eauto. Qed.

Lemma str_chars z : all_chars sinal_ou_digito (Py.str z) = true.
Proof.
  assert (Hu : ∀ d, all_chars sinal_ou_digito (NilZero.string_of_uint d) = true).
  { intros d. destruct d; try done;
      apply (all_chars_impl Py.is_digit); try apply string_of_uint_digits;
      intros c Hc; unfold sinal_ou_digito; by rewrite Hc. }
  unfold Py.str. destruct (Z.to_int z); simpl; [apply Hu|].
  by rewrite Hu.
Qed.

Lemma lstrip_with_id sp c s :
  sp c = false → Py.lstrip_with sp (String c s) = String c s.
Proof. intros H. simpl. by rewrite H. Qed.

Lemma rstrip_with_id sp s :
  all_chars (λ c, negb (sp c)) s = true → Py.rstrip_with sp s = s.
Proof.
  induction s as [|c s IH]; simpl; [done|].
  intros [Hc Hs]%andb_prop. rewrite (IH Hs).
  destruct s; [|done]. by destruct (sp c).
Qed.

Lemma split_sem_sep sep s :
  all_chars (λ c, negb (Ascii.eqb c sep)) s = true → Py.split sep s = [s].
Proof.
  induction s as [|c s IH]; simpl; [done|].
  intros [Hc Hs]%andb_prop. rewrite (IH Hs).
  by destruct (Ascii.eqb c sep).
Qed.

Lemma split_app sep s1 s2 :
  all_chars (λ c, negb (Ascii.eqb c sep)) s1 = true →
  Py.split sep (s1 +:+ String sep s2) = s1 :: Py.split sep s2.
Proof.
  induction s1 as [|c s1 IH]; simpl.
  - intros _. by rewrite Ascii.eqb_refl.
  - intros [Hc Hs]%andb_prop. rewrite (IH Hs).
    by destruct (Ascii.eqb c sep).
Qed.

Lemma digits_string_of_uint d a :
  Py.digits false (Z.of_N (Unsigned.of_lu a)) (NilEmpty.string_of_uint d)
  = Some (Z.of_N (Unsigned.of_lu (revapp d a))).
Proof.
  revert a. induction d; intros a; simpl; [done|..];
    match goal with
    | |- Py.digits false ?v _ = Some (Z.of_N (Unsigned.of_lu (revapp _ ?a'))) =>
        replace v with (Z.of_N (Unsigned.of_lu a'))
          by (rewrite (Unsigned.of_lu_eqn a'); cbn [Unsigned.hd Unsigned.tl];
              match goal with
              | |- context [Py.digit_value ?c] =>
                  let n := eval vm_compute in (Py.digit_value c) in
                  change (Py.digit_value c) with n
              end; lia)
    end; apply IHd.
Qed.

Lemma digits_to_uint need p :
  Py.digits need 0 (NilEmpty.string_of_uint (Pos.to_uint p)) = Some (Zpos p).
Proof.
  pose proof (Unsigned.to_uint_nonnil p) as Hnil.
  pose proof (Unsigned.of_to p) as Hp.
  rewrite Unsigned.of_uint_alt in Hp. unfold Decimal.rev in Hp.
  pose proof (digits_string_of_uint (Pos.to_uint p) Nil) as Hd.
  rewrite Hp in Hd. simpl in Hd.
  destruct need; [|done].
  destruct (Pos.to_uint p); [done|..]; exact Hd.
Qed.

End PyFacts.

Section RoomIdentity.

Lemma digit_char c :
  Py.is_digit c = true →
  Py.is_int_space c = false ∧ Ascii.eqb c "-" = false
  ∧ Ascii.eqb c "+" = false ∧ Ascii.eqb c "_" = false.
Proof.
  destruct c as [[] [] [] [] [] [] [] []]; vm_compute; intros H;
    first [discriminate H | done].
Qed.

Lemma sinal_ou_digito_char c :
  sinal_ou_digito c = true →
  Py.is_int_space c = false ∧ Ascii.eqb c "_" = false.
Proof.
  destruct c as [[] [] [] [] [] [] [] []]; vm_compute; intros H;
    first [discriminate H | done].
Qed.

Lemma str_sem_espaco z :
  all_chars (λ c, negb (Py.is_int_space c)) (Py.str z) = true.
Proof.
  apply (all_chars_impl sinal_ou_digito); [|apply str_chars].
  intros c [-> _]%sinal_ou_digito_char. done.
Qed.

Lemma str_sem_separador z :
  all_chars (λ c, negb (Ascii.eqb c "_")) (Py.str z) = true.
Proof.
  apply (all_chars_impl sinal_ou_digito); [|apply str_chars].
  intros c [_ ->]%sinal_ou_digito_char. done.
Qed.

(** [int(str(z)) == z] *)
Lemma int_str z : Py.int (Py.str z) = Some z.
Proof.
  pose proof (str_sem_espaco z) as Hsp.
  unfold Py.int. destruct z as [|p|p]; [done|..].
  - revert Hsp. unfold Py.str. simpl.
    pose proof (Unsigned.to_uint_nonnil p) as Hnil.
    replace (NilZero.string_of_uint (Pos.to_uint p))
      with (NilEmpty.string_of_uint (Pos.to_uint p))
      by (by destruct (Pos.to_uint p)).
    pose proof (digits_to_uint true p) as Hd.
    destruct (string_of_uint_cons _ Hnil) as (c & r & Hs & Hc).
    rewrite Hs in *. intros Hsp.
    destruct (digit_char c Hc) as (Hc1 & Hc2 & Hc3 & _).
    rewrite lstrip_with_id, rstrip_with_id by done.
    by rewrite Hc2, Hc3.
  - revert Hsp. unfold Py.str.
    change (NilZero.string_of_int (Z.to_int (Z.neg p)))
      with (String "-" (NilZero.string_of_uint (Pos.to_uint p))).
    pose proof (Unsigned.to_uint_nonnil p) as Hnil.
    replace (NilZero.string_of_uint (Pos.to_uint p))
      with (NilEmpty.string_of_uint (Pos.to_uint p))
      by (by destruct (Pos.to_uint p)).
    intros Hsp. rewrite lstrip_with_id, rstrip_with_id by done.
    rewrite Ascii.eqb_refl. by rewrite digits_to_uint.
Qed.

(** The parsing of the fan-out reads back the two identifiers of any
    generated room id. *)
Lemma split_gerar_sala_id a b :
  Py.split "_" (gerar_sala_id a b)
  = [Py.str (Py.sorted2 a b).1; Py.str (Py.sorted2 a b).2].
Proof.
  unfold gerar_sala_id. cbv zeta.
  change ("_" +:+ ?s) with (String "_" s).
  rewrite split_app by apply str_sem_separador.
  by rewrite split_sem_sep by apply str_sem_separador.
Qed.

Lemma extrair_ids_gerar_sala_id a b :
  extrair_ids (gerar_sala_id a b)
  = PartesOk (Py.sorted2 a b).1 (Py.sorted2 a b).2.
Proof.
  unfold extrair_ids. rewrite split_gerar_sala_id. by rewrite !int_str.
Qed.

Lemma sorted2_min_max a b : Py.sorted2 a b = (Z.min a b, Z.max a b).
Proof. unfold Py.sorted2. destruct (Z.leb_spec a b); f_equal; lia. Qed.

End RoomIdentity.

(** C4.  For positive [a ≠ b] the room id does not depend on the order of
    its arguments, it is the decimal text of the smaller id, an underscore
    and the decimal text of the larger id, and splitting it on the
    underscore and converting both parts with [int] gives back the two
    ids, which are [a] and [b] in one order or the other. *)
Theorem gerar_sala_id_canonico (a b : Z) :
  0 < a → 0 < b → a ≠ b →
  gerar_sala_id a b = gerar_sala_id b a
  ∧ gerar_sala_id a b = Py.str (Z.min a b) +:+ "_" +:+ Py.str (Z.max a b)
  ∧ (∃ p0 p1, Py.split "_" (gerar_sala_id a b) = [p0; p1]
              ∧ Py.int p0 = Some (Z.min a b) ∧ Py.int p1 = Some (Z.max a b))
  ∧ (Z.min a b = a ∧ Z.max a b = b ∨ Z.min a b = b ∧ Z.max a b = a).
Proof.
  intros Ha Hb Hab.
  assert (Hg : ∀ x y, gerar_sala_id x y
                      = Py.str (Z.min x y) +:+ "_" +:+ Py.str (Z.max x y)).
  { intros x y. unfold gerar_sala_id. by rewrite sorted2_min_max. }
  split; [by rewrite !Hg, Z.min_comm, Z.max_comm|].
  split; [apply Hg|]. split; [|lia].
  eexists _, _. rewrite split_gerar_sala_id, sorted2_min_max. simpl.
  by rewrite !int_str.
Qed.

Lemma gerar_sala_id_canonico_witness :
  gerar_sala_id 7 3 = gerar_sala_id 3 7
  ∧ gerar_sala_id 7 3 = Py.str (Z.min 7 3) +:+ "_" +:+ Py.str (Z.max 7 3)
  ∧ (∃ p0 p1, Py.split "_" (gerar_sala_id 7 3) = [p0; p1]
              ∧ Py.int p0 = Some (Z.min 7 3) ∧ Py.int p1 = Some (Z.max 7 3))
  ∧ (Z.min 7 3 = 7 ∧ Z.max 7 3 = 3 ∨ Z.min 7 3 = 3 ∧ Z.max 7 3 = 7).
Proof. apply (gerar_sala_id_canonico 7 3); lia. Defined.

(** ** Reasoning about requests *)

Ltac desdobrar :=
  unfold mbind, M_bind, mret, M_ret, raise, self, self_set, print, registrar,
    datetime_now, Queue_new, Queue_put, Queue_get in *.

(** Reads the fields of an updated world. *)
Ltac campos :=
  cbn [chat_manager filas stdout banco efeitos relogio leituras sqlite_falha
       acessos com_manager com_filas com_stdout com_banco com_efeitos
       com_leituras com_acessos _connections _active_connections
       chat_sala chat_mensagem chat_mensagem_seq chat_participante
       EnviarMensagemDTO.sala_id EnviarMensagemDTO.mensagem fst snd].

Section Preserva.

(** A relation between the world before and after, closed under
    sequencing, passes from the primitive actions to whole requests. *)
Context (R : relation Mundo) `{!PreOrder R}.

Lemma preserva_ret {A} (a : A) : preserva R (mret a).
Proof. intros w. reflexivity. Qed.

Lemma preserva_raise {A} e : preserva R (@raise A e).
Proof. intros w. reflexivity. Qed.

Lemma preserva_bind {A B} (m : M A) (k : A → M B) :
  preserva R m → (∀ a, preserva R (k a)) → preserva R (m ≫= k).
Proof.
  intros Hm Hk w. unfold mbind, M_bind.
  specialize (Hm w). destruct (m w) as [[a|e] w1]; simpl in *; [|done].
  etrans; [exact Hm|apply Hk].
Qed.

Lemma preserva_try_except {A} (m : M A) h :
  preserva R m → (∀ e k, h e = Some k → preserva R k) →
  preserva R (try_except m h).
Proof.
  intros Hm Hh w. unfold try_except.
  specialize (Hm w). destruct (m w) as [[a|e] w1]; simpl in *; [done|].
  destruct (h e) as [k|] eqn:He; [|done].
  etrans; [exact Hm|by apply (Hh e)].
Qed.

Lemma preserva_for_in {A} (l : list A) corpo :
  (∀ x, preserva R (corpo x)) → preserva R (for_in l corpo).
Proof.
  intros Hc. induction l as [|x l IH]; simpl.
  - apply preserva_ret.
  - apply preserva_bind; [apply Hc|done].
Qed.

Lemma preserva_if {A} (b : bool) (m1 m2 : M A) :
  preserva R m1 → preserva R m2 → preserva R (if b then m1 else m2).
Proof. by destruct b. Qed.

Lemma preserva_get_connection {A} (corpo : Banco → M (A * Banco)) :
  (∀ w n, R w (com_acessos n w)) → (∀ w b, R w (com_banco b w)) →
  (∀ b, preserva R (corpo b)) → preserva R (get_connection corpo).
Proof.
  intros Ha Hb Hc w. unfold get_connection.
  destruct (sqlite_falha w (acessos w)); simpl; [apply Ha|].
  specialize (Hc (banco w) (com_acessos (S (acessos w)) w)).
  simpl in Hc.
  destruct (corpo _ _) as [[[a b]|e] w2]; simpl in *.
  - etrans; [apply Ha|]. etrans; [exact Hc|apply Hb].
  - etrans; [apply Ha|exact Hc].
Qed.

End Preserva.

(** The requests are built from the same few blocks: a relation that holds
    across the primitive actions other than the registry update, the queue
    operations and the creation of a queue holds across all of the store,
    the validation and the read-only parts. *)
Section Blocos.

Context (R : relation Mundo) `{!PreOrder R}.
Context (R_acessos : ∀ w n, R w (com_acessos n w)).
Context (R_banco : ∀ w b, R w (com_banco b w)).
Context (R_leituras : ∀ w n, R w (com_leituras n w)).
Context (R_stdout : ∀ w o, R w (com_stdout o w)).
Context (R_registo : ∀ w e,
            match e with EfPut _ _ | EfGet _ _ => True
                    | _ => R w (com_efeitos (efeitos w ++ [e]) w) end).
Context (R_put : ∀ q e, preserva R (Queue_put q e)).
Context (R_get : ∀ q, preserva R (Queue_get q)).

Lemma preserva_print l : preserva R (print l).
Proof. intros w. apply R_stdout. Qed.

Lemma preserva_now : preserva R datetime_now.
Proof. intros w. apply R_leituras. Qed.

Lemma preserva_self : preserva R self.
Proof. intros w. reflexivity. Qed.

Lemma preserva_entregar u e : preserva R (entregar u e).
Proof.
  unfold entregar. apply preserva_bind; [done|apply preserva_self|].
  intros s. destruct (_ !! _) as [q|]; [|by apply preserva_ret].
  apply preserva_bind; [done|apply R_put|]. intros [].
  apply preserva_bind; [done|apply preserva_print|]. intros [].
  by apply preserva_ret.
Qed.

Lemma preserva_broadcast s e : preserva R (broadcast_para_sala s e).
Proof.
  unfold broadcast_para_sala. destruct (extrair_ids s).
  - apply preserva_print.
  - by apply preserva_raise.
  - apply preserva_for_in; [done|]. intros u.
    apply preserva_bind; [done|apply preserva_entregar|].
    intros ?. by apply preserva_ret.
Qed.

Lemma preserva_passo q : preserva R (event_generator_passo q).
Proof.
  unfold event_generator_passo. apply preserva_bind; [done|apply R_get|].
  intros ?. by apply preserva_ret.
Qed.

Lemma preserva_obter s u :
  preserva R (chat_participante_repo.obter_por_sala_e_usuario s u).
Proof.
  apply preserva_get_connection; [done..|]. intros b. by apply preserva_ret.
Qed.

Lemma preserva_inserir s u m : preserva R (chat_mensagem_repo.inserir s u m).
Proof.
  unfold chat_mensagem_repo.inserir.
  apply preserva_bind; [done|apply preserva_now|]. intros d.
  apply preserva_bind; [done|..].
  { apply preserva_get_connection; [done..|]. intros b. by apply preserva_ret. }
  intros i. apply preserva_bind; [done|..].
  - intros w. apply (R_registo w (EfInserir _)).
  - intros ?. by apply preserva_ret.
Qed.

Lemma preserva_atualizar s :
  preserva R (chat_sala_repo.atualizar_ultima_atividade s).
Proof.
  unfold chat_sala_repo.atualizar_ultima_atividade.
  apply preserva_bind; [done|..].
  { apply preserva_get_connection; [done..|]. intros b.
    apply preserva_bind; [done|apply preserva_now|].
    intros ?. by apply preserva_ret. }
  intros d w. apply (R_registo w (EfAtividade _ _)).
Qed.

Lemma preserva_criar u1 u2 :
  preserva R (chat_sala_repo.criar_ou_obter_sala u1 u2).
Proof.
  unfold chat_sala_repo.criar_ou_obter_sala, chat_sala_repo.obter_por_id.
  apply preserva_bind; [done|..].
  { apply preserva_get_connection; [done..|]. intros b. by apply preserva_ret. }
  intros [sala|]; [by apply preserva_ret|].
  apply preserva_bind; [done|apply preserva_now|]. intros agora.
  apply preserva_bind; [done|..]; [|intros ?; by apply preserva_ret].
  apply preserva_get_connection; [done..|]. intros b.
  unfold chat_sala_repo.inserir_sala.
  repeat case_bool_decide; by (apply preserva_ret || apply preserva_raise).
Qed.

Lemma preserva_marcar s u :
  preserva R (chat_mensagem_repo.marcar_como_lidas s u).
Proof.
  unfold chat_mensagem_repo.marcar_como_lidas.
  apply preserva_bind; [done|..].
  { apply preserva_get_connection; [done..|]. intros b.
    apply preserva_bind; [done|apply preserva_now|].
    intros ?. destruct (chat_mensagem_repo.update_lidas _ _ _ _).
    by apply preserva_ret. }
  intros n. apply preserva_bind; [done|..].
  - intros w. apply (R_registo w (EfLidas _ _)).
  - intros ?. by apply preserva_ret.
Qed.

Lemma preserva_enviar s m u :
  preserva R (chat_routes.enviar_mensagem s m u).
Proof.
  unfold chat_routes.enviar_mensagem. apply preserva_try_except; [done|..].
  - unfold chat_routes.enviar_mensagem_try. apply preserva_bind; [done|..].
    { unfold EnviarMensagemDTO.novo.
      repeat case_match; by (apply preserva_ret || apply preserva_raise). }
    intros dto. apply preserva_bind; [done|apply preserva_obter|].
    intros [p|]; [|by apply preserva_raise].
    apply preserva_bind; [done|apply preserva_inserir|]. intros nova.
    apply preserva_bind; [done|apply preserva_atualizar|]. intros [].
    apply preserva_bind; [done|apply preserva_broadcast|]. intros [].
    by apply preserva_ret.
  - intros e k Hk. destruct e; try discriminate Hk.
    injection Hk as <-. by apply preserva_raise.
Qed.

Lemma preserva_marcar_mensagens_lidas s u :
  preserva R (chat_routes.marcar_mensagens_lidas s u).
Proof.
  unfold chat_routes.marcar_mensagens_lidas.
  apply preserva_bind; [done|apply preserva_obter|].
  intros [p|]; [|by apply preserva_raise].
  apply preserva_bind; [done|apply preserva_marcar|].
  intros ?. by apply preserva_ret.
Qed.

End Blocos.

(** ** The registry invariant *)

#[local] Instance mesmo_registo_po : PreOrder mesmo_registo.
Proof.
  split.
  - by intros w.
  - intros w1 w2 w3 [H1 H2] [H3 H4]. split; congruence.
Qed.

Section Invariante.

Lemma mesmo_registo_put q e : preserva mesmo_registo (Queue_put q e).
Proof. intros w. split; simpl; [done|]. by rewrite length_alter. Qed.

Lemma mesmo_registo_get q : preserva mesmo_registo (Queue_get q).
Proof.
  intros w. unfold Queue_get.
  destruct (filas w !! q) as [[|e l]|]; split; simpl; try done.
  by rewrite length_insert.
Qed.

Lemma mesmo_registo_invariante w w' :
  mesmo_registo w w' → invariante w → invariante w'.
Proof.
  intros [Hm Hl] (H1 & H2 & H3).
  unfold invariante, membros_coerentes, filas_validas, filas_distintas.
  rewrite Hm, Hl. done.
Qed.

Lemma connect_invariante u w : invariante w → invariante (connect u w).2.
Proof.
  intros (H1 & H2 & H3). unfold connect. desdobrar. simpl.
  unfold invariante, membros_coerentes, filas_validas, filas_distintas in *.
  simpl. split_and!.
  - rewrite dom_insert_L. by rewrite H1.
  - intros u' q. rewrite length_app. simpl.
    rewrite lookup_insert. case_decide.
    + intros [= <-]. lia.
    + intros Hq%H2. lia.
  - intros u1 u2 q. rewrite !lookup_insert.
    repeat case_decide; subst; try done.
    + intros [= <-] Hq%H2. lia.
    + intros Hq%H2 [= <-]. lia.
    + apply H3.
Qed.

Lemma disconnect_invariante u w : invariante w → invariante (disconnect u w).2.
Proof.
  intros (H1 & H2 & H3). unfold disconnect. desdobrar. simpl.
  unfold invariante, membros_coerentes, filas_validas, filas_distintas in *.
  assert (Hdom : u ∈ _active_connections (chat_manager w)
                 ↔ is_Some (_connections (chat_manager w) !! u)).
  { rewrite <-H1. apply elem_of_dom. }
  destruct (decide (is_Some (_connections (chat_manager w) !! u))) as [Hs|Hs];
    simpl;
    (destruct (decide (u ∈ _active_connections (chat_manager w))) as [Ha|Ha];
     simpl; [|]); try (by apply Hdom in Hs); try (by apply Hdom in Ha);
    try done.
  split_and!.
  - rewrite dom_delete_L. by rewrite H1.
  - intros u' q [_ Hq]%lookup_delete_Some. by eapply H2.
  - intros u1 u2 q [_ Hq1]%lookup_delete_Some [_ Hq2]%lookup_delete_Some.
    by eapply H3.
Qed.

Lemma stdout_invariante o w : invariante w → invariante (com_stdout o w).
Proof. done. Qed.

Lemma executar_invariante op w : invariante w → invariante (executar op w).
Proof.
  assert (Hreg : ∀ A (m : M A), preserva mesmo_registo m →
                 invariante w → invariante (m w).2).
  { intros A m Hm. apply mesmo_registo_invariante, Hm. }
  destruct op; simpl.
  - apply connect_invariante.
  - apply disconnect_invariante.
  - apply Hreg, preserva_broadcast;
      auto using mesmo_registo_put with typeclass_instances; by intros.
  - apply Hreg, preserva_passo;
      auto using mesmo_registo_get with typeclass_instances.
  - intros Hw. unfold event_generator_fim. desdobrar.
    destruct cancelou; simpl;
      by apply disconnect_invariante.
  - apply Hreg, preserva_criar;
      auto with typeclass_instances; by intros.
  - apply Hreg, preserva_enviar;
      auto using mesmo_registo_put with typeclass_instances;
      try (by intros); by intros ? [].
  - apply Hreg, preserva_marcar_mensagens_lidas;
      auto using mesmo_registo_put with typeclass_instances;
      try (by intros); by intros ? [].
Qed.

Lemma inicial_invariante w : inicial w → invariante w.
Proof.
  intros [Hm Hf].
  unfold invariante, membros_coerentes, filas_validas, filas_distintas.
  rewrite Hm. simpl. split_and!.
  - set_solver.
  - intros u q Hq. by rewrite lookup_empty in Hq.
  - intros u1 u2 q Hq. by rewrite lookup_empty in Hq.
Qed.

Lemma alcancavel_invariante w : alcancavel w → invariante w.
Proof.
  induction 1 as [w Hw|w op _ IH];
    [by apply inicial_invariante|by apply executar_invariante].
Qed.

End Invariante.

(** ** The connection registry *)

Section Registo.

Lemma executar_membros op w :
  membros_coerentes w → membros_coerentes (executar op w).
Proof.
  assert (Hreg : ∀ A (m : M A), preserva mesmo_registo m →
                 membros_coerentes w → membros_coerentes (m w).2).
  { intros A m Hm. unfold membros_coerentes. by destruct (Hm w) as [-> _]. }
  assert (Hdis : ∀ u w, membros_coerentes w →
                 membros_coerentes (disconnect u w).2).
  { clear. intros u w H1. unfold disconnect. desdobrar. simpl.
    unfold membros_coerentes in *.
    assert (Hdom : u ∈ _active_connections (chat_manager w)
                   ↔ is_Some (_connections (chat_manager w) !! u)).
    { rewrite <-H1. apply elem_of_dom. }
    destruct (decide (is_Some (_connections (chat_manager w) !! u))) as [Hs|Hs];
      simpl;
      (destruct (decide (u ∈ _active_connections (chat_manager w))) as [Ha|Ha];
       simpl; [|]); try (by apply Hdom in Hs); try (by apply Hdom in Ha);
      try done.
    rewrite dom_delete_L. by rewrite H1. }
  destruct op; simpl.
  - intros H1. unfold connect, membros_coerentes in *. desdobrar. simpl.
    rewrite dom_insert_L. by rewrite H1.
  - apply Hdis.
  - apply Hreg, preserva_broadcast;
      auto using mesmo_registo_put with typeclass_instances; by intros.
  - apply Hreg, preserva_passo;
      auto using mesmo_registo_get with typeclass_instances.
  - intros Hw. unfold event_generator_fim. desdobrar.
    destruct cancelou; simpl; by apply Hdis.
  - apply Hreg, preserva_criar;
      auto with typeclass_instances; by intros.
  - apply Hreg, preserva_enviar;
      auto using mesmo_registo_put with typeclass_instances;
      try (by intros); by intros ? [].
  - apply Hreg, preserva_marcar_mensagens_lidas;
      auto using mesmo_registo_put with typeclass_instances;
      try (by intros); by intros ? [].
Qed.

Lemma canais_lookup u w :
  canais u w = match _connections (chat_manager w) !! u with
               | Some q => [q]
               | None => []
               end.
Proof.
  unfold canais. set (m := _connections (chat_manager w)).
  set (l := filter _ _).
  assert (Hin : ∀ kv, kv ∈ l ↔ kv.1 = u ∧ m !! kv.1 = Some kv.2).
  { intros [k v]. unfold l. rewrite list_elem_of_filter, elem_of_map_to_list.
    done. }
  assert (Hnd : NoDup l) by apply NoDup_filter, NoDup_map_to_list.
  destruct (m !! u) as [q|] eqn:Hq.
  - assert (Hq' : (u, q) ∈ l) by by apply Hin.
    destruct l as [|[k v] l']; [by apply elem_of_nil in Hq'|].
    destruct (Hin (k, v)) as [[Hk Hv] _]; [left|]. simpl in *. subst k.
    assert (v = q) as -> by congruence.
    destruct l' as [|[k' v'] l'']; [done|].
    destruct (Hin (k', v')) as [[Hk' Hv'] _]; [right; left|]. simpl in *.
    subst k'. assert (v' = q) as -> by congruence.
    apply NoDup_cons in Hnd as [Hnd _]. exfalso. apply Hnd. left.
  - destruct l as [|[k v] l']; [done|].
    destruct (Hin (k, v)) as [[Hk Hv] _]; [left|]. simpl in *. congruence.
Qed.

Lemma desligado_sem_canal u w :
  desligado u w → _connections (chat_manager w) !! u = None.
Proof.
  intros [[-> _]|[w0 ->]]; [done|].
  unfold disconnect. desdobrar. simpl.
  destruct (decide (is_Some (_connections (chat_manager w0) !! u))) as [Hs|Hs];
    simpl;
    (destruct (decide (u ∈ _active_connections (chat_manager w0))); simpl);
    try apply lookup_delete_eq; by apply eq_None_not_Some.
Qed.

Lemma executar_sem_canal op u w :
  op ≠ OpConnect u →
  _connections (chat_manager w) !! u = None →
  _connections (chat_manager (executar op w)) !! u = None.
Proof.
  intros Hop Hu.
  assert (Hreg : ∀ A (m : M A), preserva mesmo_registo m →
                 _connections (chat_manager (m w).2) !! u = None).
  { intros A m Hm. by destruct (Hm w) as [-> _]. }
  assert (Hdis : ∀ u' w, _connections (chat_manager w) !! u = None →
             _connections (chat_manager (disconnect u' w).2) !! u = None).
  { clear. intros u' w Hu. unfold disconnect. desdobrar. simpl.
    destruct (decide (is_Some (_connections (chat_manager w) !! u')));
      simpl;
      (destruct (decide (u' ∈ _active_connections (chat_manager w))); simpl);
      try done; rewrite lookup_delete; by case_decide. }
  destruct op; simpl.
  - unfold connect. desdobrar. simpl.
    rewrite lookup_insert_ne; [done|congruence].
  - by apply Hdis.
  - apply Hreg, preserva_broadcast;
      auto using mesmo_registo_put with typeclass_instances; by intros.
  - apply Hreg, preserva_passo;
      auto using mesmo_registo_get with typeclass_instances.
  - unfold event_generator_fim. desdobrar.
    destruct cancelou; simpl; by apply Hdis.
  - apply Hreg, preserva_criar;
      auto with typeclass_instances; by intros.
  - apply Hreg, preserva_enviar;
      auto using mesmo_registo_put with typeclass_instances;
      try (by intros); by intros ? [].
  - apply Hreg, preserva_marcar_mensagens_lidas;
      auto using mesmo_registo_put with typeclass_instances;
      try (by intros); by intros ? [].
Qed.

End Registo.

(** C10.  Every operation keeps [_active_connections] equal to the key set
    of [_connections]; and in every reachable state the two agree, so that
    [is_connected(u)] answers [True] exactly when a queue is registered for
    [u] (and changes nothing). *)
Theorem membros_coerentes_sempre (w : Mundo) (op : Operacao) (u : Z) :
  (membros_coerentes w → membros_coerentes (executar op w))
  ∧ (alcancavel w →
     membros_coerentes w
     ∧ ∃ b, is_connected u w = (Retorno b, w)
            ∧ (b = true ↔ is_Some (_connections (chat_manager w) !! u))).
Proof.
  split; [apply executar_membros|].
  intros (Hm & _ & _)%alcancavel_invariante. split; [done|].
  eexists. split; [reflexivity|].
  rewrite bool_decide_eq_true. unfold membros_coerentes in Hm.
  rewrite <-Hm. apply elem_of_dom.
Qed.

Lemma membros_coerentes_sempre_witness :
  membros_coerentes (executar (OpDisconnect 3) (executar (OpConnect 3) mundo_exemplo))
  ∧ membros_coerentes (executar (OpConnect 3) mundo_exemplo)
  ∧ ∃ b, is_connected 3 (executar (OpConnect 3) mundo_exemplo)
         = (Retorno b, executar (OpConnect 3) mundo_exemplo)
         ∧ (b = true ↔ is_Some (_connections
                (chat_manager (executar (OpConnect 3) mundo_exemplo)) !! 3)).
Proof.
  destruct (membros_coerentes_sempre
              (executar (OpConnect 3) mundo_exemplo) (OpDisconnect 3) 3)
    as [H1 H2].
  split.
  - apply H1. vm_compute. reflexivity.
  - apply H2. apply alc_passo, alc_inicial. split; reflexivity.
Defined.

(** C8.  In a reachable state where [u] has no registered queue,
    [disconnect(u)] returns normally and changes nothing but the output (it
    prints its line); and after any [disconnect(u)] a second one returns
    normally and again changes nothing but the output: the registry, the
    queues and the store are as the first call left them. *)
Theorem disconnect_idempotente (w : Mundo) (u : Z) :
  (alcancavel w → _connections (chat_manager w) !! u = None →
   disconnect u w
   = (Retorno tt,
      com_stdout (stdout w ++ [LinhaDesconectado u
                                 (size (_active_connections (chat_manager w)))]) w))
  ∧ (disconnect u w).1 = Retorno tt
  ∧ disconnect u (disconnect u w).2
    = (Retorno tt,
       com_stdout (stdout (disconnect u w).2
                   ++ [LinhaDesconectado u
                         (size (_active_connections
                                  (chat_manager (disconnect u w).2)))])
                  (disconnect u w).2).
Proof.
  split_and!.
  - intros (Hm & _ & _)%alcancavel_invariante Hu.
    assert (Ha : u ∉ _active_connections (chat_manager w)).
    { unfold membros_coerentes in Hm. rewrite <-Hm.
      by apply not_elem_of_dom. }
    unfold disconnect. desdobrar. simpl.
    destruct (decide (is_Some _)) as [Hs|_];
      [rewrite Hu in Hs; by destruct Hs|]. simpl.
    by destruct (decide (u ∈ _)).
  - unfold disconnect. desdobrar. simpl.
    destruct (decide (is_Some _)); simpl; by destruct (decide (u ∈ _)).
  - set (w1 := (disconnect u w).2).
    assert (Hc : _connections (chat_manager w1) !! u = None).
    { apply desligado_sem_canal. right. by exists w. }
    assert (Ha : u ∉ _active_connections (chat_manager w1)).
    { unfold w1, disconnect. desdobrar. simpl.
      destruct (decide (is_Some _)); simpl;
        (destruct (decide (u ∈ _)) as [Hin|Hin]; simpl);
        first [exact Hin | apply not_elem_of_difference; right; set_solver]. }
    unfold disconnect at 1. desdobrar. simpl.
    destruct (decide (is_Some _)) as [Hs|_];
      [rewrite Hc in Hs; by destruct Hs|]. simpl.
    by destruct (decide (u ∈ _)).
Qed.

Lemma disconnect_idempotente_witness :
  disconnect 3 (executar (OpConnect 7) mundo_exemplo)
  = (Retorno tt,
     com_stdout (stdout (executar (OpConnect 7) mundo_exemplo)
                 ++ [LinhaDesconectado 3 1])
                (executar (OpConnect 7) mundo_exemplo)).
Proof.
  apply (disconnect_idempotente (executar (OpConnect 7) mundo_exemplo) 3).
  - apply alc_passo, alc_inicial. split; reflexivity.
  - vm_compute. reflexivity.
Defined.

(** C6.  For a user who never connected (the run starts from the new
    registry) or who has disconnected (the run starts right after the
    user's [disconnect]), and who has not connected since, the delivery
    step answers [False] and leaves the whole world as it was: no queue is
    created, nothing is enqueued, nothing is printed. *)
Theorem entregar_desligado (u : Z) (e : Evento.t) (ops : list Operacao) (w0 : Mundo) :
  desligado u w0 →
  Forall (λ op, op ≠ OpConnect u) ops →
  entregar u e (executar_todas ops w0) = (Retorno false, executar_todas ops w0).
Proof.
  intros Hd%desligado_sem_canal Hops.
  assert (Hu : _connections (chat_manager (executar_todas ops w0)) !! u = None).
  { revert w0 Hd. induction Hops as [|op ops Hop _ IH]; intros w0 Hd; [done|].
    simpl. apply IH. by apply executar_sem_canal. }
  unfold entregar. desdobrar. simpl. by rewrite Hu.
Qed.

Lemma entregar_desligado_witness :
  entregar 3 (evento_exemplo 1)
    (executar_todas [OpConnect 7; OpBroadcast "3_7" (evento_exemplo 1)]
       (disconnect 3 (executar (OpConnect 3) mundo_exemplo)).2)
  = (Retorno false,
     executar_todas [OpConnect 7; OpBroadcast "3_7" (evento_exemplo 1)]
       (disconnect 3 (executar (OpConnect 3) mundo_exemplo)).2).
Proof.
  apply entregar_desligado.
  - right. eexists. reflexivity.
  - repeat constructor; discriminate.
Defined.

(** C2.  After any sequence of operations at most one queue is registered
    for a user.  Two [connect(u)] in a row return two different queues, the
    second alone stays registered, and a delivery for [u] then puts its
    event on the second queue only: the first queue and every other queue
    hold what they held. *)
Theorem connect_substitui (ops : list Operacao) (w0 : Mundo) (u : Z) (e : Evento.t) :
  (length (canais u (executar_todas ops w0)) ≤ 1)%nat
  ∧ ∃ q1 q2 w1 w2 w3,
      connect u (executar_todas ops w0) = (Retorno q1, w1)
      ∧ connect u w1 = (Retorno q2, w2)
      ∧ q1 ≠ q2
      ∧ canais u w1 = [q1]
      ∧ canais u w2 = [q2]
      ∧ entregar u e w2 = (Retorno true, w3)
      ∧ filas w2 !! q1 = Some [] ∧ filas w2 !! q2 = Some []
      ∧ filas w3 !! q1 = Some [] ∧ filas w3 !! q2 = Some [e]
      ∧ ∀ q, q ≠ q2 → filas w3 !! q = filas w2 !! q.
Proof.
  set (w := executar_todas ops w0). split.
  { rewrite canais_lookup. destruct (_ !! _); simpl; lia. }
  eexists _, _, _, _, _. split; [reflexivity|]. split; [reflexivity|].
  split; [simpl; rewrite length_app; simpl; lia|].
  split; [rewrite canais_lookup; simpl; by rewrite lookup_insert_eq|].
  split; [rewrite canais_lookup; simpl; by rewrite lookup_insert_eq|].
  split.
  { unfold entregar. desdobrar. simpl. rewrite lookup_insert_eq. reflexivity. }
  simpl. rewrite !length_app. simpl.
  assert (Hl : ∀ A (l : list A) x y,
             (l ++ [x]) ++ [y] = l ++ [x; y]) by (intros; by rewrite <-app_assoc).
  rewrite Hl. split_and!.
  - rewrite lookup_app_r by lia. by rewrite Nat.sub_diag.
  - rewrite lookup_app_r by lia.
    by replace (length (filas w) + 1 - length (filas w))%nat with 1%nat by lia.
  - rewrite list_lookup_alter_ne by lia.
    rewrite lookup_app_r by lia. by rewrite Nat.sub_diag.
  - rewrite list_lookup_alter_eq.
    rewrite lookup_app_r by lia.
    by replace (length (filas w) + 1 - length (filas w))%nat with 1%nat by lia.
  - intros q Hq. by rewrite list_lookup_alter_ne.
Qed.

Lemma connect_substitui_witness :
  (length (canais 5 (executar_todas [OpConnect 5; OpDisconnect 5] mundo_exemplo))
   ≤ 1)%nat
  ∧ ∃ q1 q2 w2 w3,
      q1 ≠ q2
      ∧ canais 5 w2 = [q2]
      ∧ entregar 5 (evento_exemplo 1) w2 = (Retorno true, w3)
      ∧ filas w3 !! q1 = Some []
      ∧ filas w3 !! q2 = Some [evento_exemplo 1]
      ∧ filas w3 !! 0%nat = filas w2 !! 0%nat.
Proof.
  destruct (connect_substitui [OpConnect 5; OpDisconnect 5] mundo_exemplo 5
              (evento_exemplo 1))
    as (H1 & q1 & q2 & w1 & w2 & w3 & Hc1 & Hc2 & Hne & _ & Hk & He & _ & _
        & Hq1 & Hq2 & Houtras).
  split; [exact H1|]. exists q1, q2, w2, w3.
  split; [exact Hne|]. split; [exact Hk|]. split; [exact He|].
  split; [exact Hq1|]. split; [exact Hq2|].
  apply Houtras. injection Hc1 as <- <-. injection Hc2 as <- _. discriminate.
Defined.

(** ** Order of delivery *)

Lemma fifo_mesmo w w' :
  efeitos w' = efeitos w → filas w' = filas w → fifo w w'.
Proof.
  intros He Hf. exists []. rewrite He, Hf, app_nil_r. split; [done|].
  intros q pend Hq. exists pend. by rewrite !app_nil_r.
Qed.

Lemma fifo_estende w w' l :
  efeitos w' = efeitos w → filas w' = filas w ++ l → fifo w w'.
Proof.
  intros He Hf. exists []. rewrite He, Hf, app_nil_r. split; [done|].
  intros q pend Hq. exists pend. rewrite !app_nil_r.
  split; [|done]. by apply lookup_app_l_Some.
Qed.

#[local] Instance fifo_po : PreOrder fifo.
Proof.
  split.
  - intros w. by apply fifo_mesmo.
  - intros w1 w2 w3 (n1 & He1 & H1) (n2 & He2 & H2).
    exists (n1 ++ n2). split; [by rewrite He2, He1, app_assoc|].
    intros q pend Hq.
    destruct (H1 q pend Hq) as (pend1 & Hq1 & E1).
    destruct (H2 q pend1 Hq1) as (pend2 & Hq2 & E2).
    exists pend2. split; [done|].
    unfold postos, retirados in *. rewrite !omap_app.
    rewrite app_assoc, E1, <-!app_assoc. by rewrite E2.
Qed.

Lemma fifo_put q e : preserva fifo (Queue_put q e).
Proof.
  intros w. exists [EfPut q e]. split; [done|].
  intros q' pend Hq'. unfold postos, retirados. simpl. case_decide as Hq.
  - subst q'. exists (pend ++ [e]). split; [|done].
    by rewrite list_lookup_alter_eq, Hq'.
  - exists pend. rewrite app_nil_r. split; [|done].
    by rewrite list_lookup_alter_ne.
Qed.

Lemma fifo_get q : preserva fifo (Queue_get q).
Proof.
  intros w. unfold Queue_get.
  destruct (filas w !! q) as [[|e l]|] eqn:Hq; simpl; try reflexivity.
  exists [EfGet q e]. split; [done|].
  intros q' pend Hq'. unfold postos, retirados. simpl. case_decide as Hqq.
  - subst q'. exists l. rewrite app_nil_r. split.
    + apply list_lookup_insert_eq. by eapply lookup_lt_Some.
    + simpl. congruence.
  - exists pend. rewrite app_nil_r. split; [|done].
    by rewrite list_lookup_insert_ne.
Qed.

Lemma fifo_registo w e :
  match e with
  | EfPut _ _ | EfGet _ _ => True
  | _ => fifo w (com_efeitos (efeitos w ++ [e]) w)
  end.
Proof.
  destruct e as [m|s d|s u|q e|q e]; try done;
    (eexists [_]; split; [done|]);
    intros q pend Hq; exists pend; by rewrite !app_nil_r.
Qed.

Lemma executar_fifo op w : fifo w (executar op w).
Proof.
  assert (Hdis : ∀ u w, fifo w (disconnect u w).2).
  { clear. intros u w. apply fifo_mesmo; unfold disconnect; desdobrar; simpl;
      destruct (decide (is_Some _)); simpl; by destruct (decide (u ∈ _)). }
  destruct op; simpl.
  - by apply (fifo_estende _ _ [[]]).
  - apply Hdis.
  - apply (preserva_broadcast fifo);
      first [apply fifo_put | intros; by apply fifo_mesmo].
  - apply (preserva_passo fifo), fifo_get.
  - unfold event_generator_fim. desdobrar. destruct cancelou; simpl.
    + etrans; [|apply Hdis]. by apply fifo_mesmo.
    + apply Hdis.
  - apply (preserva_criar fifo); intros; by apply fifo_mesmo.
  - apply (preserva_enviar fifo);
      first [apply fifo_put | apply fifo_registo | intros; by apply fifo_mesmo].
  - apply (preserva_marcar_mensagens_lidas fifo);
      first [apply fifo_put | apply fifo_registo | intros; by apply fifo_mesmo].
Qed.

Lemma executar_todas_fifo ops w : fifo w (executar_todas ops w).
Proof.
  revert w. induction ops as [|op ops IH]; intros w; simpl; [reflexivity|].
  etrans; [apply executar_fifo|apply IH].
Qed.

Lemma lookup_fim {A} (l : list A) x : (l ++ [x]) !! length l = Some x.
Proof. by rewrite list_lookup_middle. Qed.

Lemma alter_fim {A} (f : A → A) (l : list A) x :
  alter f (length l) (l ++ [x]) = l ++ [f x].
Proof.
  rewrite alter_app_r_alt by lia. by rewrite Nat.sub_diag.
Qed.

Lemma insert_fim {A} (l : list A) x y :
  <[length l := y]> (l ++ [x]) = l ++ [y].
Proof.
  rewrite insert_app_r_alt by lia. by rewrite Nat.sub_diag.
Qed.

(** C5.  A session that connects and is then delivered [e1] and [e2] takes
    [e1] at its first turn and [e2] at its second, and finds the queue
    empty at the third.  In general, whatever the process does, in any
    interleaving: a delivery to a user registered with queue [q] puts its
    event on [q]; and for every queue, what it held followed by the events
    put on it, in the order of the puts, is what was taken from it, in the
    order of the takes, followed by what it still holds. *)
Theorem ordem_de_entrega (u : Z) (e1 e2 e : Evento.t) (ops : list Operacao) (w : Mundo) :
  (∃ q w1 w2 w3 w4 w5,
     event_generator_inicio u w = (Retorno q, w1)
     ∧ entregar u e1 w1 = (Retorno true, w2)
     ∧ entregar u e2 w2 = (Retorno true, w3)
     ∧ event_generator_passo q w3 = (Retorno (Some (DataJson e1)), w4)
     ∧ event_generator_passo q w4 = (Retorno (Some (DataJson e2)), w5)
     ∧ event_generator_passo q w5 = (Retorno None, w5))
  ∧ (∀ q, _connections (chat_manager w) !! u = Some q →
          (entregar u e w).1 = Retorno true
          ∧ efeitos (entregar u e w).2 = efeitos w ++ [EfPut q e])
  ∧ ∃ novos, efeitos (executar_todas ops w) = efeitos w ++ novos
      ∧ ∀ q pend, filas w !! q = Some pend →
          ∃ pend', filas (executar_todas ops w) !! q = Some pend'
                   ∧ pend ++ postos q novos = retirados q novos ++ pend'.
Proof.
  split_and!.
  - eexists _, _, _, _, _, _.
    split; [unfold event_generator_inicio, connect; desdobrar; campos;
            reflexivity|].
    split.
    { unfold entregar. desdobrar. campos. rewrite lookup_insert_eq. campos.
      rewrite alter_fim. reflexivity. }
    split.
    { unfold entregar. desdobrar. campos. rewrite lookup_insert_eq. campos.
      rewrite alter_fim. reflexivity. }
    split.
    { unfold event_generator_passo. desdobrar. campos. rewrite lookup_fim.
      simpl. campos. rewrite insert_fim. reflexivity. }
    split.
    { unfold event_generator_passo. desdobrar. campos. rewrite lookup_fim.
      simpl. campos. rewrite insert_fim. reflexivity. }
    unfold event_generator_passo. desdobrar. campos. rewrite lookup_fim.
    reflexivity.
  - intros q Hq. unfold entregar. desdobrar. simpl. by rewrite Hq.
  - apply executar_todas_fifo.
Qed.

Lemma ordem_de_entrega_witness :
  ((entregar 5 (evento_exemplo 1) (executar (OpConnect 5) mundo_exemplo)).1
   = Retorno true
   ∧ efeitos (entregar 5 (evento_exemplo 1) (executar (OpConnect 5) mundo_exemplo)).2
     = efeitos (executar (OpConnect 5) mundo_exemplo)
       ++ [EfPut 0%nat (evento_exemplo 1)])
  ∧ ∃ novos,
      efeitos (executar_todas
                 [OpBroadcast "3_5" (evento_exemplo 1); OpConnect 3;
                  OpBroadcast "3_5" (evento_exemplo 2); OpPasso 0%nat]
                 (executar (OpConnect 5) mundo_exemplo))
      = efeitos (executar (OpConnect 5) mundo_exemplo) ++ novos
      ∧ ∃ pend', filas (executar_todas
                 [OpBroadcast "3_5" (evento_exemplo 1); OpConnect 3;
                  OpBroadcast "3_5" (evento_exemplo 2); OpPasso 0%nat]
                 (executar (OpConnect 5) mundo_exemplo)) !! 0%nat = Some pend'
                 ∧ [] ++ postos 0%nat novos = retirados 0%nat novos ++ pend'.
Proof.
  destruct (ordem_de_entrega 5 (evento_exemplo 1) (evento_exemplo 2)
              (evento_exemplo 1)
              [OpBroadcast "3_5" (evento_exemplo 1); OpConnect 3;
               OpBroadcast "3_5" (evento_exemplo 2); OpPasso 0%nat]
              (executar (OpConnect 5) mundo_exemplo))
    as (_ & H2 & novos & H3 & H4).
  split.
  - apply H2. vm_compute. reflexivity.
  - exists novos. split; [exact H3|]. apply H4. vm_compute. reflexivity.
Defined.

(** ** Fan-out and the send request *)

(** C1.  The room ids ["a_b"], ["3_x"] and ["_"] split into two parts,
    pass the length test, and [int] raises on a part: the fan-out raises
    [ValueError] instead of printing and returning.  Nothing has been
    changed when it raises.  [enviar_mensagem] has no clause for that
    exception: with such a room id in the tables the message is stored and
    the request then fails with the [ValueError]. *)
Theorem broadcast_para_sala_value_error (mensagem_dict : Evento.t) (w : Mundo) :
  broadcast_para_sala "a_b" mensagem_dict w = (Levanta ValueError, w)
  ∧ broadcast_para_sala "3_x" mensagem_dict w = (Levanta ValueError, w)
  ∧ broadcast_para_sala "_" mensagem_dict w = (Levanta ValueError, w)
  ∧ (chat_routes.enviar_mensagem "a_b" "hi" 3 mundo_sala_a_b).1 = Levanta ValueError
  ∧ length (chat_mensagem
              (banco (chat_routes.enviar_mensagem "a_b" "hi" 3 mundo_sala_a_b).2))
    = 1%nat.
Proof. split_and!; reflexivity. Qed.

(** The guard of the fan-out covers the ids that do not split into two
    parts: those are reported and nothing else happens. *)
Lemma broadcast_para_sala_invalido sala_id mensagem_dict w :
  length (Py.split "_" sala_id) ≠ 2%nat →
  broadcast_para_sala sala_id mensagem_dict w
  = (Retorno tt, com_stdout (stdout w ++ [LinhaSalaInvalida sala_id]) w).
Proof.
  intros Hl. unfold broadcast_para_sala, extrair_ids.
  destruct (Py.split "_" sala_id) as [|p0 [|p1 [|p2 ps]]]; done.
Qed.

Lemma broadcast_puts s e w :
  ∃ puts, efeitos (broadcast_para_sala s e w).2 = efeitos w ++ puts
    ∧ Forall (λ ef, ∃ q, ef = EfPut q e) puts
    ∧ banco (broadcast_para_sala s e w).2 = banco w
    ∧ ((broadcast_para_sala s e w).1 = Retorno tt
       ∨ (broadcast_para_sala s e w).1 = Levanta ValueError ∧ puts = []).
Proof.
  unfold broadcast_para_sala. destruct (extrair_ids s) as [| |u1 u2].
  - exists []. desdobrar. campos. rewrite app_nil_r. split_and!; auto.
  - exists []. desdobrar. campos. rewrite app_nil_r. split_and!; auto.
  - unfold for_in, entregar. desdobrar. campos.
    destruct (_connections (chat_manager w) !! u1) as [q1|]; campos;
      (destruct (_connections (chat_manager w) !! u2) as [q2|]; campos).
    + exists [EfPut q1 e; EfPut q2 e]. rewrite <-app_assoc.
      split_and!; [done|repeat constructor; eauto|done|by left].
    + exists [EfPut q1 e].
      split_and!; [done|repeat constructor; eauto|done|by left].
    + exists [EfPut q2 e].
      split_and!; [done|repeat constructor; eauto|done|by left].
    + exists []. rewrite app_nil_r.
      split_and!; [done|constructor|done|by left].
Qed.

Lemma da_sala_e_usuario_true s u p :
  chat_participante_repo.da_sala_e_usuario s u p = true
  ↔ ChatParticipante.sala_id p = s ∧ ChatParticipante.usuario_id p = u.
Proof.
  unfold chat_participante_repo.da_sala_e_usuario.
  by rewrite andb_true_iff, !bool_decide_eq_true.
Qed.

Lemma head_participa s u b :
  participa s u b ↔
  is_Some (head (filter (λ p, chat_participante_repo.da_sala_e_usuario s u p = true)
                        (chat_participante b))).
Proof.
  unfold participa. rewrite head_is_Some. split.
  - intros (p & Hp & Hs & Hu) Hnil.
    assert (Hin : p ∈ filter
              (λ p, chat_participante_repo.da_sala_e_usuario s u p = true)
              (chat_participante b)).
    { apply list_elem_of_filter. by rewrite da_sala_e_usuario_true. }
    rewrite Hnil in Hin. by apply elem_of_nil in Hin.
  - intros Hne. destruct (filter _ _) as [|p l] eqn:Hf; [done|].
    assert (Hin : p ∈ filter
              (λ p, chat_participante_repo.da_sala_e_usuario s u p = true)
              (chat_participante b)) by (rewrite Hf; left).
    apply list_elem_of_filter in Hin as [Hp Hin].
    apply da_sala_e_usuario_true in Hp as [Hs Hu]. by exists p.
Qed.

Lemma validar_sala_id_inr sala_id s :
  EnviarMensagemDTO.validar_sala_id sala_id = inr s → s = Py.strip sala_id.
Proof.
  unfold EnviarMensagemDTO.validar_sala_id. case_bool_decide; congruence.
Qed.

Lemma enviar_try_desfecho s m u w :
  desfecho w (chat_routes.enviar_mensagem_try s m u w).2
             (chat_routes.enviar_mensagem_try s m u w).1
  ∧ ∀ erros, (chat_routes.enviar_mensagem_try s m u w).1
             = Levanta (ValidationError erros) →
             (chat_routes.enviar_mensagem_try s m u w).2 = w.
Proof.
  unfold chat_routes.enviar_mensagem_try, EnviarMensagemDTO.novo.
  destruct (EnviarMensagemDTO.validar_sala_id s) as [e1|s'];
    destruct (EnviarMensagemDTO.validar_mensagem m) as [e2|m'];
    try (split; [by eapply desfecho_rejeitado|done]).
  unfold chat_participante_repo.obter_por_sala_e_usuario, get_connection.
  desdobrar. campos.
  destruct (sqlite_falha w (acessos w)); campos;
    [split; [by eapply desfecho_rejeitado|done]|].
  destruct (head _) as [p|]; campos;
    [|split; [by eapply desfecho_rejeitado|done]].
  unfold chat_mensagem_repo.inserir, get_connection. desdobrar. campos.
  destruct (sqlite_falha w (S (acessos w))); campos;
    [split; [by eapply desfecho_rejeitado|done]|].
  unfold chat_sala_repo.atualizar_ultima_atividade, get_connection.
  desdobrar. campos.
  destruct (sqlite_falha w (S (S (acessos w)))); campos;
    [split; [by eapply desfecho_sem_difusao|done]|].
  match goal with
  | |- context [broadcast_para_sala ?s ?e ?w0] =>
      destruct (broadcast_puts s e w0) as (puts & He & Hf & Hb & Hr);
      destruct (broadcast_para_sala s e w0) as [r w']
  end.
  simpl in He, Hb, Hr. revert He Hb. campos. intros He Hb.
  rewrite <-!app_assoc in He. simpl in He.
  destruct Hr as [->|[-> ->]]; campos.
  - split; [|done]. eapply desfecho_difundido; [by right|exact He| |exact Hf].
    by rewrite Hb.
  - split; [|done]. eapply desfecho_difundido; [by left|exact He| |done].
    by rewrite Hb.
Qed.

(** C7.  Whatever the request and the world: the writes of
    [enviar_mensagem] are nothing at all (the request then fails and the
    tables and queues are untouched), or the INSERT alone (the request
    failed on the activity update, no queue was touched), or the INSERT,
    then the activity UPDATE, then the puts of the fan-out, every one of
    them of the event of the row just stored.  A caller who is not a
    participant is refused with nothing written, by the 403 when the form
    is valid and the lookup succeeds.  When the INSERT fails the request
    fails with the store's exception and nothing is written or put. *)
Theorem enviar_mensagem_ordem (sala_id mensagem : string) (u : Z) (w : Mundo) :
  desfecho w (chat_routes.enviar_mensagem sala_id mensagem u w).2
             (chat_routes.enviar_mensagem sala_id mensagem u w).1
  ∧ (¬ participa (Py.strip sala_id) u (banco w) →
     (∃ e, (chat_routes.enviar_mensagem sala_id mensagem u w).1 = Levanta e)
     ∧ banco (chat_routes.enviar_mensagem sala_id mensagem u w).2 = banco w
     ∧ efeitos (chat_routes.enviar_mensagem sala_id mensagem u w).2 = efeitos w
     ∧ filas (chat_routes.enviar_mensagem sala_id mensagem u w).2 = filas w
     ∧ (validos sala_id mensagem → sqlite_falha w (acessos w) = false →
        (chat_routes.enviar_mensagem sala_id mensagem u w).1
        = Levanta (HTTPException 403 DetalheSemAcesso)))
  ∧ (validos sala_id mensagem → sqlite_falha w (acessos w) = false →
     participa (Py.strip sala_id) u (banco w) →
     sqlite_falha w (S (acessos w)) = true →
     (chat_routes.enviar_mensagem sala_id mensagem u w).1 = Levanta SqliteError
     ∧ banco (chat_routes.enviar_mensagem sala_id mensagem u w).2 = banco w
     ∧ efeitos (chat_routes.enviar_mensagem sala_id mensagem u w).2 = efeitos w
     ∧ filas (chat_routes.enviar_mensagem sala_id mensagem u w).2 = filas w).
Proof.
  split_and!.
  - destruct (enviar_try_desfecho sala_id mensagem u w) as [Hd Hv].
    unfold chat_routes.enviar_mensagem, try_except.
    destruct (chat_routes.enviar_mensagem_try sala_id mensagem u w) as [[a|e] w'];
      simpl in *; [done|].
    destruct e as [|erros| |]; simpl; try done.
    rewrite (Hv erros eq_refl). by eapply desfecho_rejeitado.
  - intros Hnp.
    unfold chat_routes.enviar_mensagem, try_except,
      chat_routes.enviar_mensagem_try, EnviarMensagemDTO.novo, validos.
    destruct (EnviarMensagemDTO.validar_sala_id sala_id) as [e1|s'] eqn:Hs;
      destruct (EnviarMensagemDTO.validar_mensagem mensagem) as [e2|m'] eqn:Hm;
      try (desdobrar; campos; split_and!; eauto;
           intros (? & ? & ? & ?); congruence).
    apply validar_sala_id_inr in Hs as ->.
    unfold chat_participante_repo.obter_por_sala_e_usuario, get_connection.
    desdobrar. campos.
    destruct (sqlite_falha w (acessos w)); campos;
      [split_and!; eauto; done|].
    apply (not_iff_compat (head_participa _ _ _)) in Hnp.
    apply eq_None_not_Some in Hnp. rewrite Hnp. campos.
    split_and!; eauto.
  - intros (s' & m' & Hs & Hm) Hf1 Hp Hf2.
    unfold chat_routes.enviar_mensagem, try_except,
      chat_routes.enviar_mensagem_try, EnviarMensagemDTO.novo.
    rewrite Hs, Hm. apply validar_sala_id_inr in Hs as ->.
    unfold chat_participante_repo.obter_por_sala_e_usuario, get_connection.
    desdobrar. campos. rewrite Hf1. campos.
    apply head_participa in Hp as [p Hp]. rewrite Hp. campos.
    unfold chat_mensagem_repo.inserir, get_connection. desdobrar. campos.
    rewrite Hf2. campos. done.
Qed.

Lemma enviar_mensagem_ordem_witness :
  ((∃ e, (chat_routes.enviar_mensagem "3_7" "hi" 9 mundo_exemplo).1 = Levanta e)
   ∧ banco (chat_routes.enviar_mensagem "3_7" "hi" 9 mundo_exemplo).2
     = banco mundo_exemplo
   ∧ efeitos (chat_routes.enviar_mensagem "3_7" "hi" 9 mundo_exemplo).2
     = efeitos mundo_exemplo
   ∧ filas (chat_routes.enviar_mensagem "3_7" "hi" 9 mundo_exemplo).2
     = filas mundo_exemplo
   ∧ (chat_routes.enviar_mensagem "3_7" "hi" 9 mundo_exemplo).1
     = Levanta (HTTPException 403 DetalheSemAcesso))
  ∧ (chat_routes.enviar_mensagem "3_7" "hi" 3 mundo_falha_inserir).1
    = Levanta SqliteError
  ∧ banco (chat_routes.enviar_mensagem "3_7" "hi" 3 mundo_falha_inserir).2
    = banco mundo_falha_inserir
  ∧ efeitos (chat_routes.enviar_mensagem "3_7" "hi" 3 mundo_falha_inserir).2
    = efeitos mundo_falha_inserir
  ∧ filas (chat_routes.enviar_mensagem "3_7" "hi" 3 mundo_falha_inserir).2
    = filas mundo_falha_inserir.
Proof.
  split.
  - destruct (enviar_mensagem_ordem "3_7" "hi" 9 mundo_exemplo)
      as (_ & H & _).
    destruct H as (H1 & H2 & H3 & H4 & H5).
    + intros (p & Hp & Hs & Hu). vm_compute in Hp.
      repeat (apply elem_of_cons in Hp as [->|Hp]; [discriminate Hu|]).
      by apply elem_of_nil in Hp.
    + split_and!; [exact H1|exact H2|exact H3|exact H4|].
      apply H5; [|reflexivity]. eexists _, _. split; reflexivity.
  - destruct (enviar_mensagem_ordem "3_7" "hi" 3 mundo_falha_inserir)
      as (_ & _ & H).
    apply H.
    + eexists _, _. split; reflexivity.
    + reflexivity.
    + eexists. split; [left|]. split; reflexivity.
    + reflexivity.
Defined.

(** C3.  Users 3 and 7 both hold a registered queue, 3 is a participant of
    ["3_7"] and the store answers.  Then [enviar_mensagem("3_7", "hi")] by
    user 3 returns 200 with the stored message, and both queues, the
    sender's included, hold one more event: the same ["nova_mensagem"]
    event for room ["3_7"] carrying the message with its new id,
    [usuario_id] 3, text ["hi"], the ISO text of its timestamp and
    [lida_em] null.  No other queue changes. *)
Theorem enviar_mensagem_eco (w : Mundo) (q3 q7 : nat) :
  alcancavel w →
  _connections (chat_manager w) !! 3 = Some q3 →
  _connections (chat_manager w) !! 7 = Some q7 →
  participa "3_7" 3 (banco w) →
  sqlite_falha w (acessos w) = false →
  sqlite_falha w (S (acessos w)) = false →
  sqlite_falha w (S (S (acessos w))) = false →
  let mensagem :=
    {| MensagemJson.id := chat_mensagem_seq (banco w) + 1;
       MensagemJson.sala_id := "3_7";
       MensagemJson.usuario_id := 3;
       MensagemJson.mensagem := "hi";
       MensagemJson.data_envio :=
         Some (chat_routes.isoformat (relogio w (leituras w)));
       MensagemJson.lida_em := None |} in
  let evento :=
    {| Evento.tipo := "nova_mensagem"; Evento.sala_id := "3_7";
       Evento.mensagem := mensagem |} in
  ∃ w' pend3 pend7,
    chat_routes.enviar_mensagem "3_7" "hi" 3 w
    = (Retorno {| chat_routes.status_code := 200;
                  chat_routes.sucesso := true;
                  chat_routes.mensagem := mensagem |}, w')
    ∧ q3 ≠ q7
    ∧ filas w !! q3 = Some pend3 ∧ filas w !! q7 = Some pend7
    ∧ filas w' !! q3 = Some (pend3 ++ [evento])
    ∧ filas w' !! q7 = Some (pend7 ++ [evento])
    ∧ ∀ q, q ≠ q3 → q ≠ q7 → filas w' !! q = filas w !! q.
Proof.
  intros (_ & Hval & Hdis)%alcancavel_invariante H3 H7 Hp Hf1 Hf2 Hf3.
  intros mensagem evento.
  assert (Hne : q3 ≠ q7).
  { intros ->. by specialize (Hdis 3 7 q7 H3 H7). }
  destruct (lookup_lt_is_Some_2 (filas w) q3 (Hval _ _ H3)) as [pend3 Hq3].
  destruct (lookup_lt_is_Some_2 (filas w) q7 (Hval _ _ H7)) as [pend7 Hq7].
  apply head_participa in Hp as [p Hp].
  assert (Hdto : EnviarMensagemDTO.novo "3_7" "hi"
                 = mret {| EnviarMensagemDTO.sala_id := "3_7";
                           EnviarMensagemDTO.mensagem := "hi" |})
    by reflexivity.
  assert (Hids : extrair_ids "3_7" = PartesOk 3 7) by reflexivity.
  eexists _, pend3, pend7. split.
  { unfold chat_routes.enviar_mensagem, try_except,
      chat_routes.enviar_mensagem_try.
    rewrite Hdto.
    unfold chat_participante_repo.obter_por_sala_e_usuario, get_connection.
    desdobrar. campos. rewrite Hf1. campos. rewrite Hp. campos.
    unfold chat_mensagem_repo.inserir, get_connection. desdobrar. campos.
    rewrite Hf2. campos.
    unfold chat_sala_repo.atualizar_ultima_atividade, get_connection.
    desdobrar. campos. rewrite Hf3. campos.
    unfold broadcast_para_sala. rewrite Hids.
    unfold for_in, entregar. desdobrar. campos. rewrite H3. campos.
    rewrite H7. campos. reflexivity. }
  campos. split; [done|]. split; [done|]. split; [done|]. split_and!.
  - rewrite list_lookup_alter_ne by done.
    by rewrite list_lookup_alter_eq, Hq3.
  - by rewrite list_lookup_alter_eq, list_lookup_alter_ne, Hq7.
  - intros q Hq3' Hq7'. by rewrite !list_lookup_alter_ne.
Qed.

Lemma enviar_mensagem_eco_witness :
  ∃ w' pend3 pend7,
    chat_routes.enviar_mensagem "3_7" "hi" 3
      (executar (OpConnect 7) (executar (OpConnect 3) mundo_exemplo))
    = (Retorno {| chat_routes.status_code := 200;
                  chat_routes.sucesso := true;
                  chat_routes.mensagem :=
                    {| MensagemJson.id := 1;
                       MensagemJson.sala_id := "3_7";
                       MensagemJson.usuario_id := 3;
                       MensagemJson.mensagem := "hi";
                       MensagemJson.data_envio :=
                         Some (chat_routes.isoformat (relogio_exemplo 0));
                       MensagemJson.lida_em := None |} |}, w')
    ∧ 0%nat ≠ 1%nat
    ∧ filas (executar (OpConnect 7) (executar (OpConnect 3) mundo_exemplo))
        !! 0%nat = Some pend3
    ∧ filas (executar (OpConnect 7) (executar (OpConnect 3) mundo_exemplo))
        !! 1%nat = Some pend7
    ∧ filas w' !! 0%nat
      = Some (pend3 ++ [ {| Evento.tipo := "nova_mensagem";
                            Evento.sala_id := "3_7";
                            Evento.mensagem :=
                              {| MensagemJson.id := 1;
                                 MensagemJson.sala_id := "3_7";
                                 MensagemJson.usuario_id := 3;
                                 MensagemJson.mensagem := "hi";
                                 MensagemJson.data_envio :=
                                   Some (chat_routes.isoformat (relogio_exemplo 0));
                                 MensagemJson.lida_em := None |} |} ])
    ∧ filas w' !! 1%nat
      = Some (pend7 ++ [ {| Evento.tipo := "nova_mensagem";
                            Evento.sala_id := "3_7";
                            Evento.mensagem :=
                              {| MensagemJson.id := 1;
                                 MensagemJson.sala_id := "3_7";
                                 MensagemJson.usuario_id := 3;
                                 MensagemJson.mensagem := "hi";
                                 MensagemJson.data_envio :=
                                   Some (chat_routes.isoformat (relogio_exemplo 0));
                                 MensagemJson.lida_em := None |} |} ])
    ∧ ∀ q, q ≠ 0%nat → q ≠ 1%nat →
           filas w' !! q
           = filas (executar (OpConnect 7) (executar (OpConnect 3) mundo_exemplo)) !! q.
Proof.
  apply (enviar_mensagem_eco
           (executar (OpConnect 7) (executar (OpConnect 3) mundo_exemplo))
           0%nat 1%nat).
  - apply alc_passo, alc_passo, alc_inicial. split; reflexivity.
  - vm_compute. reflexivity.
  - vm_compute. reflexivity.
  - eexists. split; [left|]. split; reflexivity.
  - reflexivity.
  - reflexivity.
  - reflexivity.
Defined.

(** ** Read markers and unread counts *)

Section Lidas.

Import chat_mensagem_repo.

Lemma nao_lida_de_outro_true s u m :
  nao_lida_de_outro s u m = true
  ↔ ChatMensagem.sala_id m = s ∧ ChatMensagem.usuario_id m ≠ u
    ∧ ChatMensagem.lida_em m = None.
Proof.
  unfold nao_lida_de_outro.
  rewrite !andb_true_iff, negb_true_iff, !bool_decide_eq_true,
    bool_decide_eq_false. tauto.
Qed.

Lemma nao_lida_de_outro_proprio s m :
  nao_lida_de_outro s (ChatMensagem.usuario_id m) m = false.
Proof.
  apply not_true_iff_false. rewrite nao_lida_de_outro_true. tauto.
Qed.

(** A marked row is not counted for its sender, before or after. *)
Lemma marcar_remetente s leitor agora s' m :
  nao_lida_de_outro s' (ChatMensagem.usuario_id m) (marcar s leitor agora m)
  = false.
Proof.
  unfold marcar. destruct (nao_lida_de_outro s leitor m).
  - apply not_true_iff_false. rewrite nao_lida_de_outro_true. simpl. tauto.
  - apply nao_lida_de_outro_proprio.
Qed.

Lemma select_por_sala_sem_proprias s u tabela :
  select_nao_lidas_por_sala s u tabela
  = select_nao_lidas_por_sala s u
      (filter (λ m, ChatMensagem.usuario_id m ≠ u) tabela).
Proof.
  unfold select_nao_lidas_por_sala.
  rewrite list_filter_filter_l; [done|].
  intros m [_ [Hu _]]%nao_lida_de_outro_true. done.
Qed.

Lemma select_por_usuario_soma u b :
  select_nao_lidas_por_usuario u b
  = length (chat_mensagem b ≫= pares_nao_lidos u (chat_participante b)).
Proof.
  unfold select_nao_lidas_por_usuario, pares_nao_lidos. f_equal.
  induction (chat_mensagem b) as [|cm l IH]; [done|].
  rewrite !bind_cons, filter_app. by rewrite IH.
Qed.

Lemma pares_nao_lidos_proprio ps cm :
  pares_nao_lidos (ChatMensagem.usuario_id cm) ps cm = [].
Proof.
  unfold pares_nao_lidos. induction ps as [|cp ps IH]; [done|].
  rewrite bind_cons. simpl. rewrite filter_cons_False; [apply IH|].
  simpl. rewrite (bool_decide_eq_true_2
                    (ChatMensagem.usuario_id cm = ChatMensagem.usuario_id cm))
    by done.
  simpl. by rewrite andb_false_r.
Qed.

Lemma pares_nao_lidos_length_marcar u ps s leitor agora cm :
  (nao_lida_de_outro s leitor cm = true → ChatMensagem.usuario_id cm = u) →
  pares_nao_lidos u ps (marcar s leitor agora cm) = pares_nao_lidos u ps cm.
Proof.
  intros Hm. unfold marcar.
  destruct (nao_lida_de_outro s leitor cm); [|done].
  specialize (Hm eq_refl). subst u.
  rewrite pares_nao_lidos_proprio.
  change (ChatMensagem.usuario_id cm)
    with (ChatMensagem.usuario_id
            {| ChatMensagem.id := ChatMensagem.id cm;
               ChatMensagem.sala_id := ChatMensagem.sala_id cm;
               ChatMensagem.usuario_id := ChatMensagem.usuario_id cm;
               ChatMensagem.mensagem := ChatMensagem.mensagem cm;
               ChatMensagem.data_envio := ChatMensagem.data_envio cm;
               ChatMensagem.lida_em := Some agora |}) at 1.
  apply pares_nao_lidos_proprio.
Qed.

Lemma select_por_usuario_sem_proprias u b :
  select_nao_lidas_por_usuario u b
  = select_nao_lidas_por_usuario u
      {| chat_sala := chat_sala b;
         chat_mensagem :=
           filter (λ m, ChatMensagem.usuario_id m ≠ u) (chat_mensagem b);
         chat_mensagem_seq := chat_mensagem_seq b;
         chat_participante := chat_participante b |}.
Proof.
  rewrite !select_por_usuario_soma. simpl. f_equal.
  induction (chat_mensagem b) as [|cm l IH]; [done|].
  rewrite bind_cons, filter_cons.
  destruct (decide (ChatMensagem.usuario_id cm ≠ u)) as [Hu|Hu].
  - by rewrite bind_cons, IH.
  - apply dec_stable in Hu. subst u. by rewrite pares_nao_lidos_proprio.
Qed.

Lemma bind_fmap_local {A B} (f : A → list B) (g : A → A) (l : list A) :
  (∀ x, x ∈ l → f (g x) = f x) → (g <$> l) ≫= f = l ≫= f.
Proof.
  induction l as [|x l IH]; intros Hl; [done|].
  rewrite fmap_cons, !bind_cons, Hl by left.
  rewrite IH; [done|]. intros y Hy. apply Hl. by right.
Qed.

Lemma filter_fmap_local {A} (P : A → Prop) `{!∀ x, Decision (P x)}
    (g : A → A) (l : list A) :
  (∀ x, x ∈ l → ¬ P x ∧ ¬ P (g x) ∨ g x = x) →
  length (filter P (g <$> l)) = length (filter P l).
Proof.
  induction l as [|x l IH]; intros Hl; [done|].
  rewrite fmap_cons. specialize (IH (λ y Hy, Hl y (list_elem_of_further _ _ _ Hy))).
  destruct (Hl x) as [[H1 H2]|Hx]; [left|..].
  - by rewrite !filter_cons_False.
  - rewrite Hx, !filter_cons. case_decide; simpl; by rewrite IH.
Qed.

End Lidas.

(** ** Two-party rooms *)

Section DuasPartes.

Lemma gerar_sala_id_inj x y x' y' :
  gerar_sala_id x y = gerar_sala_id x' y' →
  (x = x' ∧ y = y') ∨ (x = y' ∧ y = x').
Proof.
  intros Hg. pose proof (extrair_ids_gerar_sala_id x y) as H1.
  rewrite Hg, extrair_ids_gerar_sala_id in H1.
  injection H1 as H1 H2. revert H1 H2. unfold Py.sorted2.
  destruct (Z.leb_spec x y), (Z.leb_spec x' y'); simpl; lia.
Qed.

Lemma participa_ext s u b b' :
  (∀ p, p ∈ chat_participante b → p ∈ chat_participante b') →
  participa s u b → participa s u b'.
Proof. intros Hsub (p & Hp & Hs & Hu). exists p. auto. Qed.

Lemma banco_coerente_passo b b' :
  banco_coerente b →
  (∀ p, p ∈ chat_participante b' →
        p ∈ chat_participante b
        ∨ ∃ x y, ChatParticipante.sala_id p = gerar_sala_id x y
                 ∧ (ChatParticipante.usuario_id p = x
                    ∨ ChatParticipante.usuario_id p = y)) →
  (∀ p, p ∈ chat_participante b → p ∈ chat_participante b') →
  (∀ m, m ∈ chat_mensagem b' →
        (∃ m0, m0 ∈ chat_mensagem b
               ∧ ChatMensagem.sala_id m = ChatMensagem.sala_id m0
               ∧ ChatMensagem.usuario_id m = ChatMensagem.usuario_id m0)
        ∨ participa (ChatMensagem.sala_id m) (ChatMensagem.usuario_id m) b) →
  banco_coerente b'.
Proof.
  intros [J1 J2] Hp Hsub Hm. split.
  - intros p [Hin|Hnew]%Hp; [by apply J1|done].
  - intros m [(m0 & Hm0 & -> & ->)|Hpart]%Hm;
      eapply participa_ext; eauto.
Qed.

Lemma banco_vazio_coerente : banco_coerente banco_vazio.
Proof. split; intros ? []%elem_of_nil. Qed.

Lemma try_except_mundo s m u w :
  (chat_routes.enviar_mensagem s m u w).2
  = (chat_routes.enviar_mensagem_try s m u w).2.
Proof.
  unfold chat_routes.enviar_mensagem, try_except.
  destruct (chat_routes.enviar_mensagem_try s m u w) as [[a|e] w']; [done|].
  by destruct e.
Qed.

Lemma enviar_try_banco s m u w :
  banco (chat_routes.enviar_mensagem_try s m u w).2 = banco w
  ∨ ∃ nova,
      participa (ChatMensagem.sala_id nova) (ChatMensagem.usuario_id nova) (banco w)
      ∧ chat_participante (banco (chat_routes.enviar_mensagem_try s m u w).2)
        = chat_participante (banco w)
      ∧ chat_mensagem (banco (chat_routes.enviar_mensagem_try s m u w).2)
        = chat_mensagem (banco w) ++ [nova].
Proof.
  unfold chat_routes.enviar_mensagem_try, EnviarMensagemDTO.novo.
  destruct (EnviarMensagemDTO.validar_sala_id s) as [e1|s'];
    destruct (EnviarMensagemDTO.validar_mensagem m) as [e2|m'];
    try (by left).
  unfold chat_participante_repo.obter_por_sala_e_usuario, get_connection.
  desdobrar. campos.
  destruct (sqlite_falha w (acessos w)); campos; [by left|].
  destruct (head _) as [p|] eqn:Hp; campos; [|by left].
  assert (Hpart : participa s' u (banco w)).
  { apply head_participa. by rewrite Hp. }
  unfold chat_mensagem_repo.inserir, get_connection. desdobrar. campos.
  destruct (sqlite_falha w (S (acessos w))); campos; [by left|].
  right. eexists {| ChatMensagem.sala_id := s'; ChatMensagem.usuario_id := u |}.
  split; [exact Hpart|].
  unfold chat_sala_repo.atualizar_ultima_atividade, get_connection.
  desdobrar. campos.
  destruct (sqlite_falha w (S (S (acessos w)))); campos; [done|].
  match goal with
  | |- context [broadcast_para_sala ?s ?e ?w0] =>
      destruct (broadcast_puts s e w0) as (puts & _ & _ & Hb & _);
      destruct (broadcast_para_sala s e w0) as [[[]|e'] w']
  end; simpl in Hb; campos; rewrite Hb; done.
Qed.

(** Every operation keeps the tables those of two-party rooms. *)
Lemma executar_banco_coerente op w :
  banco_coerente (banco w) → banco_coerente (banco (executar op w)).
Proof.
  intros Hb. destruct op; simpl.
  - done.
  - unfold disconnect. desdobrar. campos.
    destruct (decide (is_Some _)); campos; by destruct (decide (_ ∈ _)).
  - destruct (broadcast_puts sala_id mensagem_dict w) as (_ & _ & _ & -> & _).
    done.
  - unfold event_generator_passo. desdobrar. campos.
    by destruct (filas w !! queue) as [[|e l]|].
  - unfold event_generator_fim, disconnect. desdobrar.
    destruct cancelou; campos;
      (destruct (decide (is_Some _)); campos; by destruct (decide (_ ∈ _))).
  - unfold chat_sala_repo.criar_ou_obter_sala, chat_sala_repo.obter_por_id,
      get_connection. desdobrar. campos.
    destruct (sqlite_falha w (acessos w)); campos; [done|].
    destruct (head _); campos; [done|].
    destruct (sqlite_falha w (S (acessos w))); campos; [done|].
    unfold chat_sala_repo.inserir_sala. desdobrar.
    repeat (case_bool_decide; campos; [done|]).
    eapply banco_coerente_passo; [exact Hb|..]; campos.
    + intros p [Hp|Hp]%elem_of_app; [by left|right].
      exists usuario1_id, usuario2_id.
      apply elem_of_cons in Hp as [->|Hp]; [simpl; auto|].
      apply elem_of_cons in Hp as [->|Hp]; [simpl; auto|].
      by apply elem_of_nil in Hp.
    + intros p Hp. apply elem_of_app. by left.
    + intros m Hm. left. by exists m.
  - rewrite try_except_mundo.
    destruct (enviar_try_banco sala_id mensagem usuario_logado_id w)
      as [->|(nova & Hp & Hps & Hms)]; [done|].
    eapply banco_coerente_passo; [exact Hb|..].
    + intros p. rewrite Hps. by left.
    + intros p. by rewrite Hps.
    + intros m. rewrite Hms. intros [Hm|Hm]%elem_of_app.
      * left. by exists m.
      * right. apply list_elem_of_singleton in Hm as ->. done.
  - unfold chat_routes.marcar_mensagens_lidas,
      chat_participante_repo.obter_por_sala_e_usuario,
      chat_mensagem_repo.marcar_como_lidas, chat_mensagem_repo.update_lidas,
      get_connection.
    desdobrar. campos.
    destruct (sqlite_falha w (acessos w)); campos; [done|].
    destruct (head _); campos; [|done].
    destruct (sqlite_falha w (S (acessos w))); campos; [done|].
    eapply banco_coerente_passo; [exact Hb|..]; campos.
    + intros p. by left.
    + done.
    + intros m (m0 & -> & Hm0)%list_elem_of_fmap. left. exists m0.
      split; [done|]. unfold chat_mensagem_repo.marcar.
      by destruct (chat_mensagem_repo.nao_lida_de_outro _ _ _).
Qed.

(** In such tables the messages of the room of two users that were not
    sent by the one were sent by the other. *)
Lemma banco_coerente_remetente b leitor remetente m :
  banco_coerente b → m ∈ chat_mensagem b →
  ChatMensagem.sala_id m = gerar_sala_id leitor remetente →
  ChatMensagem.usuario_id m ≠ leitor →
  ChatMensagem.usuario_id m = remetente.
Proof.
  intros [J1 J2] Hm Hs Hu.
  destruct (J2 m Hm) as (p & Hp & Hps & Hpu).
  destruct (J1 p Hp) as (x & y & Hg & Hxy).
  rewrite Hps, Hs in Hg. apply gerar_sala_id_inj in Hg.
  rewrite Hpu in Hxy. destruct Hg as [[-> ->]|[-> ->]], Hxy; congruence.
Qed.

End DuasPartes.

Lemma marcar_contagens_remetente sala_id leitor remetente agora b :
  (∀ m, m ∈ chat_mensagem b →
        ChatMensagem.sala_id m = sala_id → ChatMensagem.usuario_id m ≠ leitor →
        ChatMensagem.lida_em m = None →
        ChatMensagem.usuario_id m = remetente) →
  chat_mensagem_repo.select_nao_lidas_por_sala sala_id remetente
    (chat_mensagem_repo.marcar sala_id leitor agora <$> chat_mensagem b)
  = chat_mensagem_repo.select_nao_lidas_por_sala sala_id remetente
      (chat_mensagem b)
  ∧ chat_mensagem_repo.select_nao_lidas_por_usuario remetente
      {| chat_sala := chat_sala b;
         chat_mensagem :=
           chat_mensagem_repo.marcar sala_id leitor agora <$> chat_mensagem b;
         chat_mensagem_seq := chat_mensagem_seq b;
         chat_participante := chat_participante b |}
    = chat_mensagem_repo.select_nao_lidas_por_usuario remetente b.
Proof.
  intros Hrem. split.
  - unfold chat_mensagem_repo.select_nao_lidas_por_sala.
    apply filter_fmap_local. intros m Hm.
    unfold chat_mensagem_repo.marcar.
    destruct (chat_mensagem_repo.nao_lida_de_outro sala_id leitor m) eqn:Hn;
      [left|by right].
    apply nao_lida_de_outro_true in Hn as (Hs & Hu & Hl).
    rewrite <-(Hrem m Hm Hs Hu Hl).
    split; rewrite nao_lida_de_outro_true; simpl; tauto.
  - rewrite !select_por_usuario_soma. campos. f_equal.
    apply bind_fmap_local. intros m Hm.
    apply pares_nao_lidos_length_marcar.
    intros (Hs & Hu & Hl)%nao_lida_de_outro_true. by apply Hrem.
Qed.

(** C9.  When the store answers, [marcar_como_lidas(sala, leitor)] stamps
    with the current time every row of the room that was sent by another
    user and had no read time, and leaves every other row, and the number
    of rows, as it was.  Neither count ever includes the user's own
    messages: it is the count over the rows sent by others.  Hence the
    sender's unread count for the room, and the sender's total, are the
    same before and after the marking: whenever the rows being marked are
    all of that sender, and so, in tables of two-party rooms, in the room
    of the reader and the sender.  The two [contar] functions return these
    counts.  The empty tables are tables of two-party rooms, and every
    operation keeps them so. *)
Theorem marcar_como_lidas_exato (sala_id : string) (leitor remetente : Z) (w : Mundo) :
  sqlite_falha w (acessos w) = false →
  (∀ i m, chat_mensagem (banco w) !! i = Some m →
     (ChatMensagem.sala_id m = sala_id ∧ ChatMensagem.usuario_id m ≠ leitor
      ∧ ChatMensagem.lida_em m = None →
      chat_mensagem (banco (chat_mensagem_repo.marcar_como_lidas sala_id leitor w).2) !! i
      = Some {| ChatMensagem.id := ChatMensagem.id m;
                ChatMensagem.sala_id := ChatMensagem.sala_id m;
                ChatMensagem.usuario_id := ChatMensagem.usuario_id m;
                ChatMensagem.mensagem := ChatMensagem.mensagem m;
                ChatMensagem.data_envio := ChatMensagem.data_envio m;
                ChatMensagem.lida_em := Some (relogio w (leituras w)) |})
     ∧ (¬ (ChatMensagem.sala_id m = sala_id ∧ ChatMensagem.usuario_id m ≠ leitor
           ∧ ChatMensagem.lida_em m = None) →
        chat_mensagem (banco (chat_mensagem_repo.marcar_como_lidas sala_id leitor w).2) !! i
        = Some m))
  ∧ length (chat_mensagem (banco (chat_mensagem_repo.marcar_como_lidas sala_id leitor w).2))
    = length (chat_mensagem (banco w))
  ∧ (∀ s u tabela,
       chat_mensagem_repo.select_nao_lidas_por_sala s u tabela
       = chat_mensagem_repo.select_nao_lidas_por_sala s u
           (filter (λ m, ChatMensagem.usuario_id m ≠ u) tabela))
  ∧ (∀ u b,
       chat_mensagem_repo.select_nao_lidas_por_usuario u b
       = chat_mensagem_repo.select_nao_lidas_por_usuario u
           {| chat_sala := chat_sala b;
              chat_mensagem :=
                filter (λ m, ChatMensagem.usuario_id m ≠ u) (chat_mensagem b);
              chat_mensagem_seq := chat_mensagem_seq b;
              chat_participante := chat_participante b |})
  ∧ ((∀ m, m ∈ chat_mensagem (banco w) →
           ChatMensagem.sala_id m = sala_id → ChatMensagem.usuario_id m ≠ leitor →
           ChatMensagem.lida_em m = None →
           ChatMensagem.usuario_id m = remetente) →
     chat_mensagem_repo.select_nao_lidas_por_sala sala_id remetente
       (chat_mensagem (banco (chat_mensagem_repo.marcar_como_lidas sala_id leitor w).2))
     = chat_mensagem_repo.select_nao_lidas_por_sala sala_id remetente
         (chat_mensagem (banco w))
     ∧ chat_mensagem_repo.select_nao_lidas_por_usuario remetente
         (banco (chat_mensagem_repo.marcar_como_lidas sala_id leitor w).2)
       = chat_mensagem_repo.select_nao_lidas_por_usuario remetente (banco w))
  ∧ (banco_coerente (banco w) → sala_id = gerar_sala_id leitor remetente →
     chat_mensagem_repo.select_nao_lidas_por_sala sala_id remetente
       (chat_mensagem (banco (chat_mensagem_repo.marcar_como_lidas sala_id leitor w).2))
     = chat_mensagem_repo.select_nao_lidas_por_sala sala_id remetente
         (chat_mensagem (banco w))
     ∧ chat_mensagem_repo.select_nao_lidas_por_usuario remetente
         (banco (chat_mensagem_repo.marcar_como_lidas sala_id leitor w).2)
       = chat_mensagem_repo.select_nao_lidas_por_usuario remetente (banco w))
  ∧ (∀ s u w0, sqlite_falha w0 (acessos w0) = false →
       (chat_mensagem_repo.contar_nao_lidas_por_sala s u w0).1
       = Retorno (chat_mensagem_repo.select_nao_lidas_por_sala s u
                    (chat_mensagem (banco w0)))
       ∧ (chat_mensagem_repo.contar_nao_lidas_por_usuario u w0).1
         = Retorno (chat_mensagem_repo.select_nao_lidas_por_usuario u (banco w0)))
  ∧ banco_coerente banco_vazio
  ∧ (∀ op w0, banco_coerente (banco w0) → banco_coerente (banco (executar op w0))).
Proof.
  intros Hf.
  assert (Hb : banco (chat_mensagem_repo.marcar_como_lidas sala_id leitor w).2
               = {| chat_sala := chat_sala (banco w);
                    chat_mensagem :=
                      chat_mensagem_repo.marcar sala_id leitor
                        (relogio w (leituras w)) <$> chat_mensagem (banco w);
                    chat_mensagem_seq := chat_mensagem_seq (banco w);
                    chat_participante := chat_participante (banco w) |}).
  { unfold chat_mensagem_repo.marcar_como_lidas, get_connection,
      chat_mensagem_repo.update_lidas.
    desdobrar. campos. rewrite Hf. reflexivity. }
  rewrite Hb. campos. split_and!.
  - intros i m Hi. rewrite list_lookup_fmap, Hi. simpl.
    unfold chat_mensagem_repo.marcar.
    destruct (chat_mensagem_repo.nao_lida_de_outro sala_id leitor m) eqn:Hn.
    + split; [done|]. intros Hnot. by apply nao_lida_de_outro_true in Hn.
    + split; [|done]. intros Hyes%nao_lida_de_outro_true. congruence.
  - apply length_fmap.
  - apply select_por_sala_sem_proprias.
  - apply select_por_usuario_sem_proprias.
  - apply marcar_contagens_remetente.
  - intros Hcoer ->. apply marcar_contagens_remetente.
    intros m Hm Hs Hu _. by eapply banco_coerente_remetente.
  - intros s u w0 Hf0.
    unfold chat_mensagem_repo.contar_nao_lidas_por_sala,
      chat_mensagem_repo.contar_nao_lidas_por_usuario, get_connection.
    desdobrar. campos. by rewrite Hf0.
  - apply banco_vazio_coerente.
  - apply executar_banco_coerente.
Qed.

Lemma marcar_como_lidas_exato_witness :
  chat_mensagem
    (banco (chat_mensagem_repo.marcar_como_lidas "3_7" 7 mundo_com_mensagens).2)
    !! 0%nat
  = Some (mensagem_exemplo 1 "3_7" 3 (Some (relogio_exemplo 5)))
  ∧ chat_mensagem
      (banco (chat_mensagem_repo.marcar_como_lidas "3_7" 7 mundo_com_mensagens).2)
      !! 1%nat
    = Some (mensagem_exemplo 2 "3_7" 7 None)
  ∧ (chat_mensagem_repo.select_nao_lidas_por_sala "3_7" 3
       (chat_mensagem
          (banco (chat_mensagem_repo.marcar_como_lidas "3_7" 7 mundo_com_mensagens).2))
     = chat_mensagem_repo.select_nao_lidas_por_sala "3_7" 3
         (chat_mensagem (banco mundo_com_mensagens))
     ∧ chat_mensagem_repo.select_nao_lidas_por_usuario 3
         (banco (chat_mensagem_repo.marcar_como_lidas "3_7" 7 mundo_com_mensagens).2)
       = chat_mensagem_repo.select_nao_lidas_por_usuario 3 (banco mundo_com_mensagens))
  ∧ (chat_mensagem_repo.select_nao_lidas_por_sala "3_7" 3
       (chat_mensagem
          (banco (chat_mensagem_repo.marcar_como_lidas "3_7" 7 mundo_com_mensagens).2))
     = chat_mensagem_repo.select_nao_lidas_por_sala "3_7" 3
         (chat_mensagem (banco mundo_com_mensagens))
     ∧ chat_mensagem_repo.select_nao_lidas_por_usuario 3
         (banco (chat_mensagem_repo.marcar_como_lidas "3_7" 7 mundo_com_mensagens).2)
       = chat_mensagem_repo.select_nao_lidas_por_usuario 3 (banco mundo_com_mensagens))
  ∧ (chat_mensagem_repo.contar_nao_lidas_por_sala "3_7" 7 mundo_com_mensagens).1
    = Retorno 1%nat
  ∧ banco_coerente
      (banco (executar (OpCriarSala 3 7)
                (com_banco banco_vazio mundo_exemplo))).
Proof.
  destruct (marcar_como_lidas_exato "3_7" 7 3 mundo_com_mensagens eq_refl)
    as (H1 & _ & _ & _ & H5 & H6 & H7 & H8 & H9).
  split.
  { apply (H1 0%nat (mensagem_exemplo 1 "3_7" 3 None) eq_refl).
    split; [reflexivity|]. split; [discriminate|reflexivity]. }
  split.
  { apply (H1 1%nat (mensagem_exemplo 2 "3_7" 7 None) eq_refl).
    intros (_ & Hu & _). by apply Hu. }
  split.
  { apply H5. intros m Hm Hs Hu Hl. vm_compute in Hm.
    repeat (apply elem_of_cons in Hm as [->|Hm];
            [first [reflexivity | by destruct Hu | discriminate Hl
                    | discriminate Hs]|]).
    by apply elem_of_nil in Hm. }
  split.
  { apply H6; [|reflexivity]. split.
    - intros p Hp. vm_compute in Hp.
      apply elem_of_cons in Hp as [->|Hp]; [exists 3, 7; by split; [|left]|].
      apply elem_of_cons in Hp as [->|Hp]; [exists 3, 7; by split; [|right]|].
      apply elem_of_cons in Hp as [->|Hp]; [exists 3, 9; by split; [|left]|].
      apply elem_of_cons in Hp as [->|Hp]; [exists 3, 9; by split; [|right]|].
      by apply elem_of_nil in Hp.
    - intros m Hm. vm_compute in Hm.
      apply elem_of_cons in Hm as [->|Hm];
        [eexists; split; [left|]; split; reflexivity|].
      apply elem_of_cons in Hm as [->|Hm];
        [eexists; split; [right; left|]; split; reflexivity|].
      apply elem_of_cons in Hm as [->|Hm];
        [eexists; split; [left|]; split; reflexivity|].
      apply elem_of_cons in Hm as [->|Hm];
        [eexists; split; [do 3 right; left|]; split; reflexivity|].
      by apply elem_of_nil in Hm. }
  split.
  { exact (proj1 (H7 "3_7"%string 7 mundo_com_mensagens eq_refl)). }
  apply H9. exact H8.
Defined.

(** * Further properties of the code *)

(** ** The registry and the sessions *)

(** X1.  In every reachable state each registered queue exists, and no
    queue is registered for two users: what is delivered to one user is
    never read by another user's session. *)
Theorem canais_exclusivos (w : Mundo) :
  alcancavel w →
  (∀ u q, _connections (chat_manager w) !! u = Some q →
          ∃ pend, filas w !! q = Some pend)
  ∧ (∀ u1 u2 q, _connections (chat_manager w) !! u1 = Some q →
                _connections (chat_manager w) !! u2 = Some q → u1 = u2).
Proof.
  intros (_ & Hval & Hdis)%alcancavel_invariante. split; [|exact Hdis].
  intros u q Hq. by apply lookup_lt_is_Some_2, (Hval u).
Qed.

Lemma canais_exclusivos_witness :
  (∀ u q, _connections (chat_manager
            (executar (OpConnect 7) (executar (OpConnect 3) mundo_exemplo))) !! u
          = Some q →
          ∃ pend, filas (executar (OpConnect 7)
                           (executar (OpConnect 3) mundo_exemplo)) !! q
                  = Some pend)
  ∧ (∀ u1 u2 q,
       _connections (chat_manager
         (executar (OpConnect 7) (executar (OpConnect 3) mundo_exemplo))) !! u1
       = Some q →
       _connections (chat_manager
         (executar (OpConnect 7) (executar (OpConnect 3) mundo_exemplo))) !! u2
       = Some q → u1 = u2).
Proof.
  apply (canais_exclusivos
           (executar (OpConnect 7) (executar (OpConnect 3) mundo_exemplo))).
  apply alc_passo, alc_passo, alc_inicial. split; reflexivity.
Defined.

(** X2.  The cleanup of a session unregisters the user, not the session's
    own queue.  When a user opens a second session and the first one then
    ends, the user is left unregistered although the second session is
    still waiting on its queue: [is_connected] answers [False], a delivery
    finds nobody, and the second session's queue stays empty. *)
Theorem fim_da_sessao_antiga (u : Z) (cancelou : bool) (e : Evento.t) (w : Mundo) :
  ∃ q1 q2 w1 w2 w3,
    event_generator_inicio u w = (Retorno q1, w1)
    ∧ event_generator_inicio u w1 = (Retorno q2, w2)
    ∧ event_generator_fim u cancelou w2 = (Retorno tt, w3)
    ∧ q1 ≠ q2
    ∧ _connections (chat_manager w2) !! u = Some q2
    ∧ _connections (chat_manager w3) !! u = None
    ∧ is_connected u w3 = (Retorno false, w3)
    ∧ entregar u e w3 = (Retorno false, w3)
    ∧ filas w3 !! q2 = Some []
    ∧ event_generator_passo q2 w3 = (Retorno None, w3).
Proof.
  assert (Hc : ∀ w0 : Mundo,
            _connections (chat_manager (connect u w0).2) !! u
            = Some (length (filas w0))).
  { intros w0. unfold connect. desdobrar. campos. apply lookup_insert_eq. }
  assert (Hfim : ∀ w0 q, _connections (chat_manager w0) !! u = Some q →
            ∃ linhas,
              event_generator_fim u cancelou w0
              = (Retorno tt,
                 com_stdout (stdout w0 ++ linhas)
                   (com_manager
                      {| _connections := delete u (_connections (chat_manager w0));
                         _active_connections :=
                           _active_connections
                             (if decide (u ∈ _active_connections (chat_manager w0))
                              then {| _connections := ∅;
                                      _active_connections :=
                                        _active_connections (chat_manager w0) ∖ {[u]} |}
                              else chat_manager w0) |} w0))).
  { intros w0 q Hq. unfold event_generator_fim, disconnect. desdobrar.
    destruct cancelou; campos; rewrite Hq;
      (destruct (decide (is_Some (Some q))) as [_|Hn];
       [|by destruct Hn; eexists]); campos;
      (destruct (decide (u ∈ _active_connections (chat_manager w0))); campos);
      rewrite <-?app_assoc; eexists; reflexivity. }
  set (w1 := (event_generator_inicio u w).2).
  set (w2 := (event_generator_inicio u w1).2).
  destruct (Hfim w2 (length (filas w1)) (Hc w1)) as [linhas Hf].
  exists (length (filas w)), (length (filas w1)), w1, w2.
  eexists. split; [reflexivity|]. split; [reflexivity|].
  split; [exact Hf|].
  assert (Hl1 : length (filas w1) = S (length (filas w))).
  { unfold w1, event_generator_inicio, connect. desdobrar. campos.
    rewrite length_app. simpl. lia. }
  assert (Hf2 : filas w2 = filas w1 ++ [[]]) by reflexivity.
  assert (Ha : u ∉ _active_connections
                 (if decide (u ∈ _active_connections (chat_manager w2))
                  then {| _connections := ∅;
                          _active_connections :=
                            _active_connections (chat_manager w2) ∖ {[u]} |}
                  else chat_manager w2)).
  { destruct (decide (u ∈ _active_connections (chat_manager w2))); simpl;
      [|done].
    apply not_elem_of_difference. right. by apply elem_of_singleton. }
  split_and!.
  - change (length (filas w) ≠ length (filas w1)). lia.
  - apply Hc.
  - campos. apply lookup_delete_eq.
  - unfold is_connected. desdobrar. campos. by rewrite bool_decide_eq_false_2.
  - unfold entregar. desdobrar. campos. by rewrite lookup_delete_eq.
  - campos. rewrite Hf2. apply lookup_fim.
  - unfold event_generator_passo. desdobrar. campos. rewrite Hf2, lookup_fim.
    reflexivity.
Qed.

(** ** The fan-out on the rooms the application creates *)

Lemma difusao_dois (u1 u2 : Z) (e : Evento.t) (w : Mundo) :
  filas_distintas w → u1 ≠ u2 →
  ∃ w', for_in [u1; u2] (λ usuario_id, _ ← entregar usuario_id e; mret tt) w
        = (Retorno tt, w')
    ∧ chat_manager w' = chat_manager w
    ∧ banco w' = banco w
    ∧ length (filas w') = length (filas w)
    ∧ ∀ q pend, filas w !! q = Some pend →
        filas w' !! q
        = Some (if bool_decide (_connections (chat_manager w) !! u1 = Some q
                                ∨ _connections (chat_manager w) !! u2 = Some q)
                then pend ++ [e] else pend).
Proof.
  intros Hdis Hne. unfold for_in, entregar. desdobrar. campos.
  destruct (_connections (chat_manager w) !! u1) as [q1|] eqn:H1; campos;
    (destruct (_connections (chat_manager w) !! u2) as [q2|] eqn:H2; campos);
    eexists; (split; [reflexivity|]); campos;
    (split; [done|]); (split; [done|]);
    (split; [by rewrite ?length_alter|]); intros q pend Hq.
  - assert (q1 ≠ q2) by (intros ->; by apply Hne, (Hdis u1 u2 q2)).
    case_bool_decide as Hc.
    + destruct Hc as [[= ->]|[= ->]].
      * rewrite list_lookup_alter_ne by done.
        by rewrite list_lookup_alter_eq, Hq.
      * by rewrite list_lookup_alter_eq, list_lookup_alter_ne, Hq.
    + rewrite !list_lookup_alter_ne; [done|..]; intros ->; apply Hc; auto.
  - case_bool_decide as Hc.
    + destruct Hc as [[= ->]|[=]]. by rewrite list_lookup_alter_eq, Hq.
    + rewrite list_lookup_alter_ne; [done|]. intros ->. apply Hc; auto.
  - case_bool_decide as Hc.
    + destruct Hc as [[=]|[= ->]]. by rewrite list_lookup_alter_eq, Hq.
    + rewrite list_lookup_alter_ne; [done|]. intros ->. apply Hc; auto.
  - case_bool_decide as Hc; [|done]. by destruct Hc.
Qed.

(** The same for the two users of a generated room id. *)
Lemma difusao_sala_gerada (a b : Z) (e : Evento.t) (w : Mundo) :
  filas_distintas w → a ≠ b →
  ∃ w', broadcast_para_sala (gerar_sala_id a b) e w = (Retorno tt, w')
    ∧ chat_manager w' = chat_manager w
    ∧ banco w' = banco w
    ∧ length (filas w') = length (filas w)
    ∧ ∀ q pend, filas w !! q = Some pend →
        filas w' !! q
        = Some (if bool_decide (_connections (chat_manager w) !! a = Some q
                                ∨ _connections (chat_manager w) !! b = Some q)
                then pend ++ [e] else pend).
Proof.
  intros Hdis Hab.
  unfold broadcast_para_sala. rewrite extrair_ids_gerar_sala_id.
  unfold Py.sorted2. destruct (a <=? b); simpl.
  - by apply difusao_dois.
  - destruct (difusao_dois b a e w Hdis (not_eq_sym Hab))
      as (w' & Hr & Hm & Hb & Hl & Hq).
    exists w'. split_and!; try done.
    intros q pend Hpend. rewrite (Hq q pend Hpend). f_equal.
    by rewrite (bool_decide_ext _ _ (or_comm _ _)).
Qed.

(** X3.  On the id generated for two different users the fan-out never
    raises: in a reachable state it appends the event to the queue of each
    of the two users that is registered, once, and leaves every other
    queue, the registry and the tables as they were. *)
Theorem broadcast_sala_gerada (a b : Z) (e : Evento.t) (w : Mundo) :
  alcancavel w → a ≠ b →
  ∃ w', broadcast_para_sala (gerar_sala_id a b) e w = (Retorno tt, w')
    ∧ chat_manager w' = chat_manager w
    ∧ banco w' = banco w
    ∧ length (filas w') = length (filas w)
    ∧ ∀ q pend, filas w !! q = Some pend →
        filas w' !! q
        = Some (if bool_decide (_connections (chat_manager w) !! a = Some q
                                ∨ _connections (chat_manager w) !! b = Some q)
                then pend ++ [e] else pend).
Proof.
  intros (_ & _ & Hdis)%alcancavel_invariante. by apply difusao_sala_gerada.
Qed.

Lemma broadcast_sala_gerada_witness :
  ∃ w', broadcast_para_sala (gerar_sala_id 7 3) (evento_exemplo 1)
          (executar (OpConnect 3) mundo_exemplo)
        = (Retorno tt, w')
    ∧ filas w' !! 0%nat = Some [evento_exemplo 1].
Proof.
  destruct (broadcast_sala_gerada 7 3 (evento_exemplo 1)
              (executar (OpConnect 3) mundo_exemplo))
    as (w' & Hr & _ & _ & _ & Hq).
  - apply alc_passo, alc_inicial. split; reflexivity.
  - lia.
  - exists w'. split; [exact Hr|]. exact (Hq 0%nat [] eq_refl).
Defined.




(** ** Room identity *)

Lemma gerar_sala_id_mesmo_par_aux (a b c d : Z) :
  (a = c ∧ b = d) ∨ (a = d ∧ b = c) → gerar_sala_id a b = gerar_sala_id c d.
Proof.
  intros [[-> ->]|[-> ->]]; [done|].
  unfold gerar_sala_id. rewrite !sorted2_min_max. simpl.
  by rewrite Z.min_comm, Z.max_comm.
Qed.

(** X5.  Two pairs of users have the same room id exactly when they are
    the same pair, in one order or the other.  This holds for all
    integers, zero and the negative ones included. *)
Theorem gerar_sala_id_mesmo_par (a b c d : Z) :
  gerar_sala_id a b = gerar_sala_id c d
  ↔ (a = c ∧ b = d) ∨ (a = d ∧ b = c).
Proof.
  split; [apply gerar_sala_id_inj|apply gerar_sala_id_mesmo_par_aux].
Qed.

Lemma gerar_sala_id_mesmo_par_witness :
  (-7 = 3 ∧ 3 = -7) ∨ (-7 = -7 ∧ 3 = 3).
Proof.
  apply (gerar_sala_id_mesmo_par (-7) 3 3 (-7)). reflexivity.
Defined.

(** ** The validation of a send request *)

Lemma rstrip_with_cons sp c s :
  sp c = false → ∃ r, Py.rstrip_with sp (String c s) = String c r.
Proof.
  intros Hc. simpl. destruct (Py.rstrip_with sp s); [|by eexists].
  rewrite Hc. by eexists.
Qed.

Lemma rstrip_with_idemp sp s :
  Py.rstrip_with sp (Py.rstrip_with sp s) = Py.rstrip_with sp s.
Proof.
  induction s as [|c s IH]; [done|]. simpl.
  destruct (Py.rstrip_with sp s) as [|d r] eqn:Hr.
  - destruct (sp c) eqn:Hc; [done|]. simpl. by rewrite Hc.
  - change (Py.rstrip_with sp (String c (String d r)))
      with (match Py.rstrip_with sp (String d r) with
            | EmptyString => if sp c then EmptyString else String c EmptyString
            | r' => String c r'
            end).
    by rewrite IH.
Qed.

Lemma lstrip_with_head sp s :
  Py.lstrip_with sp s = EmptyString
  ∨ ∃ c r, Py.lstrip_with sp s = String c r ∧ sp c = false.
Proof.
  induction s as [|c s IH]; [by left|]. simpl.
  destruct (sp c) eqn:Hc; [done|]. right. eauto.
Qed.

Lemma strip_idemp s : Py.strip (Py.strip s) = Py.strip s.
Proof.
  unfold Py.strip.
  destruct (lstrip_with_head Py.is_space s) as [->|(c & r & -> & Hc)]; [done|].
  destruct (rstrip_with_cons Py.is_space c r Hc) as [r' Hr]. rewrite Hr.
  rewrite lstrip_with_id by done. by rewrite <-Hr, rstrip_with_idemp.
Qed.

Lemma strip_sem_espaco s :
  all_chars (λ c, negb (Py.is_space c)) s = true → Py.strip s = s.
Proof.
  intros Hs. unfold Py.strip. destruct s as [|c s]; [done|].
  pose proof Hs as [Hc%negb_true_iff _]%andb_prop.
  rewrite lstrip_with_id by done. by apply rstrip_with_id.
Qed.

Lemma validar_mensagem_casos (v m : string) :
  EnviarMensagemDTO.validar_mensagem v = inr m
  ↔ m = Py.strip v ∧ Py.strip v ≠ EmptyString
    ∧ ¬ (5000 < String.length (Py.strip v))%nat.
Proof.
  unfold EnviarMensagemDTO.validar_mensagem. generalize 5000%nat. intros n.
  case_bool_decide as He; [split; [intros [=]|by intros (_ & ? & _)]|].
  case_bool_decide as Hl; [split; [intros [=]|by intros (_ & _ & ?)]|].
  split; [by intros [= <-]|by intros (-> & _)].
Qed.

Lemma validar_mensagem_estavel_limites (v m : string) :
  EnviarMensagemDTO.validar_mensagem v = inr m →
  m = Py.strip v ∧ (1 ≤ String.length (Py.strip v) ≤ 5000)%nat
  ∧ Py.strip v ≠ EmptyString.
Proof.
  intros (-> & He & Hl)%validar_mensagem_casos.
  split; [reflexivity|]. split; [|exact He].
  split; [|by apply Nat.nlt_ge].
  destruct (Py.strip v); [by destruct He|]. simpl. apply le_n_S, Nat.le_0_l.
Qed.

(** X6.  A message text that passes the validator is the text without the
    white space at its ends, has between 1 and 5000 characters, and passes
    the validator again unchanged. *)
Theorem validar_mensagem_estavel (v m : string) :
  EnviarMensagemDTO.validar_mensagem v = inr m →
  m = Py.strip v
  ∧ (1 ≤ String.length m ≤ 5000)%nat
  ∧ EnviarMensagemDTO.validar_mensagem m = inr m.
Proof.
  intros (-> & He & Hl)%validar_mensagem_casos.
  split; [reflexivity|]. split.
  - split; [|by apply Nat.nlt_ge].
    destruct (Py.strip v); [by destruct He|]. simpl. apply le_n_S, Nat.le_0_l.
  - apply validar_mensagem_casos. rewrite strip_idemp. exact (conj eq_refl (conj He Hl)).
Qed.

Lemma validar_mensagem_estavel_witness :
  "hi"%string = Py.strip "  hi "
  ∧ (1 ≤ String.length "hi" ≤ 5000)%nat
  ∧ EnviarMensagemDTO.validar_mensagem "hi" = inr "hi"%string.
Proof. apply (validar_mensagem_estavel "  hi " "hi"). reflexivity. Defined.

(** X7.  A send request whose form does not pass the validators is
    answered with 400 and the message of the first failed field, the room
    id before the text, and nothing at all has happened: no table, no
    queue, no output and not even an access to the store. *)
Theorem enviar_mensagem_invalida (sala_id mensagem : string) (u : Z) (w : Mundo) :
  ¬ validos sala_id mensagem →
  ∃ v, chat_routes.enviar_mensagem sala_id mensagem u w
       = (Levanta (HTTPException 400 (DetalheValidacao v)), w)
    ∧ (Py.strip sala_id = EmptyString → v = SalaIdObrigatorio)
    ∧ (Py.strip sala_id ≠ EmptyString →
       v = if bool_decide (Py.strip mensagem = EmptyString)
           then MensagemVazia else MensagemMuitoLonga).
Proof.
  intros Hn.
  unfold chat_routes.enviar_mensagem, try_except,
    chat_routes.enviar_mensagem_try, EnviarMensagemDTO.novo.
  unfold validos in Hn. revert Hn.
  unfold EnviarMensagemDTO.validar_sala_id, EnviarMensagemDTO.validar_mensagem.
  generalize 5000%nat. intros n.
  case_bool_decide as Hs;
    (case_bool_decide as Hm; [|case_bool_decide as Hl]);
    intros Hn; desdobrar; campos;
    try (eexists; split; [reflexivity|];
         split; intros Hs'; first [reflexivity | by destruct Hs | by destruct Hs']).
  destruct Hn. eexists _, _. split; reflexivity.
Qed.

Lemma enviar_mensagem_invalida_witness :
  ∃ v, chat_routes.enviar_mensagem "  " "" 3 mundo_exemplo
       = (Levanta (HTTPException 400 (DetalheValidacao v)), mundo_exemplo)
    ∧ v = SalaIdObrigatorio.
Proof.
  destruct (enviar_mensagem_invalida "  " "" 3 mundo_exemplo)
    as (v & Hr & Hv & _).
  - intros (s & m & Hs & _). vm_compute in Hs. discriminate Hs.
  - exists v. split; [exact Hr|]. apply Hv. reflexivity.
Defined.

(** What an answered send request has done to the tables. *)
Lemma enviar_sucesso_banco (sala_id mensagem : string) (u : Z)
    (w w' : Mundo) (r : chat_routes.JSONResponse) :
  chat_routes.enviar_mensagem sala_id mensagem u w = (Retorno r, w') →
  let m := {| ChatMensagem.id := chat_mensagem_seq (banco w) + 1;
              ChatMensagem.sala_id := Py.strip sala_id;
              ChatMensagem.usuario_id := u;
              ChatMensagem.mensagem := Py.strip mensagem;
              ChatMensagem.data_envio := relogio w (leituras w);
              ChatMensagem.lida_em := None |} in
  participa (Py.strip sala_id) u (banco w)
  ∧ EnviarMensagemDTO.validar_mensagem mensagem = inr (Py.strip mensagem)
  ∧ r = {| chat_routes.status_code := 200; chat_routes.sucesso := true;
           chat_routes.mensagem := Evento.mensagem (chat_routes.mensagem_sse m) |}
  ∧ banco w'
    = {| chat_sala :=
           chat_sala_repo.tocar (Py.strip sala_id) (relogio w (S (leituras w)))
           <$> chat_sala (banco w);
         chat_mensagem := chat_mensagem (banco w) ++ [m];
         chat_mensagem_seq := chat_mensagem_seq (banco w) + 1;
         chat_participante := chat_participante (banco w) |}.
Proof.
  unfold chat_routes.enviar_mensagem, try_except.
  destruct (chat_routes.enviar_mensagem_try sala_id mensagem u w)
    as [[r0|ex] w0] eqn:Ht;
    [|destruct ex as [|erros| |]; simpl; try discriminate;
      unfold raise; discriminate].
  intros [= -> ->]. revert Ht.
  unfold chat_routes.enviar_mensagem_try, EnviarMensagemDTO.novo.
  destruct (EnviarMensagemDTO.validar_sala_id sala_id) as [e1|s'] eqn:Hs;
    destruct (EnviarMensagemDTO.validar_mensagem mensagem) as [e2|m'] eqn:Hm;
    try (unfold raise; discriminate).
  apply validar_sala_id_inr in Hs as ->.
  pose proof (proj1 (validar_mensagem_casos _ _) Hm) as (-> & _ & _).
  unfold chat_participante_repo.obter_por_sala_e_usuario, get_connection.
  desdobrar. campos.
  destruct (sqlite_falha w (acessos w)); campos; [discriminate|].
  destruct (head _) as [p|] eqn:Hp; campos; [|discriminate].
  unfold chat_mensagem_repo.inserir, get_connection. desdobrar. campos.
  destruct (sqlite_falha w (S (acessos w))); campos; [discriminate|].
  unfold chat_sala_repo.atualizar_ultima_atividade, get_connection.
  desdobrar. campos.
  destruct (sqlite_falha w (S (S (acessos w)))); campos; [discriminate|].
  match goal with
  | |- context [broadcast_para_sala ?s ?e ?w0] =>
      destruct (broadcast_puts s e w0) as (puts & _ & _ & Hb & _);
      destruct (broadcast_para_sala s e w0) as [[[]|ex] w1]
  end; [|discriminate].
  simpl in Hb. revert Hb. campos. intros Hb [= <- <-]. rewrite Hb.
  split; [apply head_participa; by rewrite Hp|].
  split; [reflexivity|]. split; reflexivity.
Qed.

(** X8.  A send request that is answered (with 200) was made by a
    participant of the room, and has appended exactly one row to the
    message table: the next id, the room id and the text without the white
    space at their ends, the caller as sender, the clock reading as time
    of sending and no time of reading.  The answer carries that row; the
    membership table is as it was and the room's activity is the next
    clock reading. *)
Theorem enviar_mensagem_sucesso (sala_id mensagem : string) (u : Z)
    (w w' : Mundo) (r : chat_routes.JSONResponse) :
  chat_routes.enviar_mensagem sala_id mensagem u w = (Retorno r, w') →
  let m := {| ChatMensagem.id := chat_mensagem_seq (banco w) + 1;
              ChatMensagem.sala_id := Py.strip sala_id;
              ChatMensagem.usuario_id := u;
              ChatMensagem.mensagem := Py.strip mensagem;
              ChatMensagem.data_envio := relogio w (leituras w);
              ChatMensagem.lida_em := None |} in
  participa (Py.strip sala_id) u (banco w)
  ∧ (1 ≤ String.length (Py.strip mensagem) ≤ 5000)%nat
  ∧ r = {| chat_routes.status_code := 200; chat_routes.sucesso := true;
           chat_routes.mensagem := Evento.mensagem (chat_routes.mensagem_sse m) |}
  ∧ chat_mensagem (banco w') = chat_mensagem (banco w) ++ [m]
  ∧ chat_mensagem_seq (banco w') = chat_mensagem_seq (banco w) + 1
  ∧ chat_participante (banco w') = chat_participante (banco w)
  ∧ chat_sala (banco w')
    = chat_sala_repo.tocar (Py.strip sala_id) (relogio w (S (leituras w)))
      <$> chat_sala (banco w).
Proof.
  intros Hr m.
  destruct (enviar_sucesso_banco _ _ _ _ _ _ Hr) as (Hp & Hv & -> & ->).
  split; [exact Hp|].
  split; [exact (proj1 (proj2 (validar_mensagem_estavel_limites _ _ Hv)))|].
  split; [reflexivity|]. split; [reflexivity|]. split; [reflexivity|].
  split; reflexivity.
Qed.

Lemma enviar_mensagem_sucesso_witness :
  participa (Py.strip " 3_7") 3 (banco mundo_exemplo)
  ∧ chat_mensagem
      (banco (chat_routes.enviar_mensagem " 3_7" "hi " 3 mundo_exemplo).2)
    = [ {| ChatMensagem.id := 1; ChatMensagem.sala_id := "3_7";
           ChatMensagem.usuario_id := 3; ChatMensagem.mensagem := "hi";
           ChatMensagem.data_envio := relogio_exemplo 0;
           ChatMensagem.lida_em := None |} ].
Proof.
  destruct (enviar_mensagem_sucesso " 3_7" "hi " 3 mundo_exemplo
              (chat_routes.enviar_mensagem " 3_7" "hi " 3 mundo_exemplo).2
              {| chat_routes.status_code := 200; chat_routes.sucesso := true;
                 chat_routes.mensagem :=
                   {| MensagemJson.id := 1; MensagemJson.sala_id := "3_7";
                      MensagemJson.usuario_id := 3;
                      MensagemJson.mensagem := "hi";
                      MensagemJson.data_envio :=
                        Some "2024-01-15T10:30:00"%string;
                      MensagemJson.lida_em := None |} |})
    as (Hp & _ & _ & Hm & _).
  - vm_compute. reflexivity.
  - split; [exact Hp|exact Hm].
Defined.

(** ** The tables across requests *)

Lemma tem_participa sala_id u (ps : list ChatParticipante.t) b :
  chat_participante b = ps →
  Exists (λ p, ChatParticipante.sala_id p = sala_id
               ∧ ChatParticipante.usuario_id p = u) ps
  ↔ participa sala_id u b.
Proof.
  intros <-. unfold participa. rewrite Exists_exists. done.
Qed.

(** Every operation is one step of the tables. *)
Lemma executar_passo_banco op w : passo_banco (banco w) (banco (executar op w)).
Proof.
  destruct op; simpl.
  - constructor.
  - unfold disconnect. desdobrar. campos.
    destruct (decide (is_Some _)); campos; destruct (decide (_ ∈ _));
      constructor.
  - destruct (broadcast_puts sala_id mensagem_dict w) as (_ & _ & _ & -> & _).
    constructor.
  - unfold event_generator_passo. desdobrar. campos.
    destruct (filas w !! queue) as [[|e l]|]; constructor.
  - unfold event_generator_fim, disconnect. desdobrar.
    destruct cancelou; campos;
      (destruct (decide (is_Some _)); campos; destruct (decide (_ ∈ _));
       constructor).
  - unfold chat_sala_repo.criar_ou_obter_sala, chat_sala_repo.obter_por_id,
      get_connection. desdobrar. campos.
    destruct (sqlite_falha w (acessos w)); campos; [constructor|].
    destruct (head _); campos; [constructor|].
    destruct (sqlite_falha w (S (acessos w))); campos; [constructor|].
    unfold chat_sala_repo.inserir_sala. desdobrar.
    case_bool_decide as H1; campos; [constructor|].
    case_bool_decide as H2; campos; [constructor|].
    case_bool_decide as H3; campos; [constructor|].
    apply pb_sala.
    + intros (s & Hs & Hid). apply H1, Exists_exists. eauto.
    + intros Hp. by apply H2, (tem_participa _ _ _ (banco w)).
    + intros (p & Hp & Hps & Hpu). apply H3, Exists_exists.
      exists p. split; [|done]. apply elem_of_app. by left.
    + intros ->. apply H3, Exists_exists. eexists.
      split; [apply elem_of_app; right; left|done].
  - rewrite try_except_mundo.
    unfold chat_routes.enviar_mensagem_try, EnviarMensagemDTO.novo.
    destruct (EnviarMensagemDTO.validar_sala_id sala_id) as [e1|s'];
      destruct (EnviarMensagemDTO.validar_mensagem mensagem) as [e2|m'];
      try constructor.
    unfold chat_participante_repo.obter_por_sala_e_usuario, get_connection.
    desdobrar. campos.
    destruct (sqlite_falha w (acessos w)); campos; [constructor|].
    destruct (head _) as [p|] eqn:Hp; campos; [|constructor].
    assert (Hpart : participa s' usuario_logado_id (banco w)).
    { apply head_participa. by rewrite Hp. }
    unfold chat_mensagem_repo.inserir, get_connection. desdobrar. campos.
    destruct (sqlite_falha w (S (acessos w))); campos; [constructor|].
    unfold chat_sala_repo.atualizar_ultima_atividade, get_connection.
    desdobrar. campos.
    destruct (sqlite_falha w (S (S (acessos w)))); campos;
      [apply pb_mensagem; auto|].
    match goal with
    | |- context [broadcast_para_sala ?s ?e ?w0] =>
        destruct (broadcast_puts s e w0) as (puts & _ & _ & Hb & _);
        destruct (broadcast_para_sala s e w0) as [[[]|e'] w']
    end; simpl in Hb; campos; rewrite Hb; campos;
      (apply pb_mensagem; [done|right; eauto]).
  - unfold chat_routes.marcar_mensagens_lidas,
      chat_participante_repo.obter_por_sala_e_usuario,
      chat_mensagem_repo.marcar_como_lidas, chat_mensagem_repo.update_lidas,
      get_connection.
    desdobrar. campos.
    destruct (sqlite_falha w (acessos w)); campos; [constructor|].
    destruct (head _) as [p|] eqn:Hp; campos; [|constructor].
    destruct (sqlite_falha w (S (acessos w))); campos; [constructor|].
    apply pb_lidas. apply head_participa. by rewrite Hp.
Qed.

Lemma conserva_refl m : conserva m m.
Proof. by repeat split. Qed.

Lemma conserva_trans m1 m2 m3 : conserva m1 m2 → conserva m2 m3 → conserva m1 m3.
Proof.
  intros (A1 & A2 & A3 & A4 & A5 & A6) (B1 & B2 & B3 & B4 & B5 & B6).
  repeat split; try congruence. intros d Hd. by apply B6, A6.
Qed.

Lemma conserva_marcar s u agora m :
  conserva m (chat_mensagem_repo.marcar s u agora m).
Proof.
  unfold chat_mensagem_repo.marcar.
  destruct (chat_mensagem_repo.nao_lida_de_outro s u m) eqn:Hn;
    [|apply conserva_refl].
  apply nao_lida_de_outro_true in Hn as (_ & _ & Hl).
  repeat split; simpl. intros d. by rewrite Hl.
Qed.

(** A step keeps the rows of the message table in place and appends at
    most one, which takes the next id. *)
Lemma passo_mensagens b b' :
  passo_banco b b' →
  ∃ f novas,
    chat_mensagem b' = (f <$> chat_mensagem b) ++ novas
    ∧ (∀ m, conserva m (f m))
    ∧ (novas = [] ∧ chat_mensagem_seq b' = chat_mensagem_seq b
       ∨ ∃ m, novas = [m] ∧ ChatMensagem.id m = chat_mensagem_seq b + 1
              ∧ chat_mensagem_seq b' = chat_mensagem_seq b + 1).
Proof.
  intros [| | |s u agora Hp].
  - exists id, []. rewrite list_fmap_id, app_nil_r.
    split; [done|]. split; [apply conserva_refl|by left].
  - exists id, []. simpl. rewrite list_fmap_id, app_nil_r.
    split; [done|]. split; [apply conserva_refl|by left].
  - exists id. eexists [_]. simpl. rewrite list_fmap_id.
    split; [done|]. split; [apply conserva_refl|right; eauto].
  - exists (chat_mensagem_repo.marcar s u agora), []. simpl.
    rewrite app_nil_r. split; [done|]. split; [apply conserva_marcar|by left].
Qed.

Lemma passo_ids b b' : passo_banco b b' → ids_em_ordem b → ids_em_ordem b'.
Proof.
  intros (f & novas & Hm & Hf & Hn)%passo_mensagens [Hord Hmax].
  assert (Hid : ∀ m, ChatMensagem.id (f m) = ChatMensagem.id m)
    by (intros m; apply Hf).
  assert (Hant : ∀ i m', (f <$> chat_mensagem b) !! i = Some m' →
            ∃ m, chat_mensagem b !! i = Some m
                 ∧ ChatMensagem.id m' = ChatMensagem.id m).
  { intros i m'. rewrite list_lookup_fmap.
    destruct (chat_mensagem b !! i) as [m|]; [|done].
    intros [= <-]. eauto. }
  destruct Hn as [[-> Hs]|(m & -> & Hmid & Hs)].
  - rewrite app_nil_r in Hm. split.
    + intros i j mi mj. rewrite Hm.
      intros (mi0 & Hi & ->)%Hant (mj0 & Hj & ->)%Hant. by apply Hord.
    + intros m'. rewrite Hm, Hs.
      intros (m0 & -> & Hm0)%list_elem_of_fmap. rewrite Hid. by apply Hmax.
  - assert (Hvelhas : ∀ i m', (f <$> chat_mensagem b) !! i = Some m' →
              ChatMensagem.id m' ≤ chat_mensagem_seq b).
    { intros i m' (m0 & Hi & ->)%Hant.
      by apply Hmax, (list_elem_of_lookup_2 _ i). }
    split.
    + intros i j mi mj. rewrite Hm.
      intros Hi Hj Hij.
      apply lookup_app_Some in Hi as [Hi|[Hli Hi]];
        apply lookup_app_Some in Hj as [Hj|[Hlj Hj]].
      * destruct (Hant _ _ Hi) as (mi0 & Hi0 & ->).
        destruct (Hant _ _ Hj) as (mj0 & Hj0 & ->). by eapply Hord.
      * apply list_lookup_singleton_Some in Hj as [_ <-].
        rewrite Hmid. specialize (Hvelhas _ _ Hi). lia.
      * apply lookup_lt_Some in Hj. lia.
      * apply list_lookup_singleton_Some in Hi as [Hi _].
        apply list_lookup_singleton_Some in Hj as [Hj _]. lia.
    + intros m'. rewrite Hm, Hs. intros [Hin|Hin]%elem_of_app.
      * apply list_elem_of_lookup in Hin as [i Hi].
        specialize (Hvelhas _ _ Hi). lia.
      * apply list_elem_of_singleton in Hin as ->. lia.
Qed.

Lemma ids_em_ordem_NoDup b :
  ids_em_ordem b → NoDup (ChatMensagem.id <$> chat_mensagem b).
Proof.
  intros [Hord _]. apply NoDup_alt. intros i j x.
  rewrite !list_lookup_fmap.
  destruct (chat_mensagem b !! i) as [mi|] eqn:Hi; [|done].
  destruct (chat_mensagem b !! j) as [mj|] eqn:Hj; [|done].
  simpl. intros [= <-] [= Heq].
  destruct (Nat.lt_trichotomy i j) as [Hlt|[->|Hlt]]; [|done|].
  - specialize (Hord _ _ _ _ Hi Hj Hlt). lia.
  - specialize (Hord _ _ _ _ Hj Hi Hlt). lia.
Qed.

Lemma executar_todas_cons op ops w :
  executar_todas (op :: ops) w = executar_todas ops (executar op w).
Proof. reflexivity. Qed.

(** X9.  Message ids are never reused.  When the ids of the stored messages
    grow along the table and do not exceed the AUTOINCREMENT counter, as in
    the empty tables, they still do after any sequence of operations: no
    two stored messages have the same id. *)
Theorem ids_nunca_repetidos (ops : list Operacao) (w : Mundo) :
  ids_em_ordem (banco w) →
  ids_em_ordem (banco (executar_todas ops w))
  ∧ NoDup (ChatMensagem.id <$> chat_mensagem (banco (executar_todas ops w))).
Proof.
  intros Hw.
  assert (Hf : ids_em_ordem (banco (executar_todas ops w))).
  { revert w Hw. induction ops as [|op ops IH]; intros w Hw; [done|].
    rewrite executar_todas_cons. apply IH.
    by apply (passo_ids _ _ (executar_passo_banco op w)). }
  split; [exact Hf|by apply ids_em_ordem_NoDup].
Qed.

Lemma ids_nunca_repetidos_witness :
  ids_em_ordem
    (banco (executar_todas [OpEnviar "3_7" "hi" 3; OpEnviar "3_7" "ola" 7]
                           mundo_exemplo))
  ∧ NoDup (ChatMensagem.id <$>
             chat_mensagem
               (banco (executar_todas
                         [OpEnviar "3_7" "hi" 3; OpEnviar "3_7" "ola" 7]
                         mundo_exemplo))).
Proof.
  apply (ids_nunca_repetidos [OpEnviar "3_7" "hi" 3; OpEnviar "3_7" "ola" 7]
                             mundo_exemplo).
  split.
  - intros i j mi mj Hi. destruct i; simpl in Hi; discriminate Hi.
  - intros m Hm. simpl in Hm. by apply elem_of_nil in Hm.
Defined.

(** X10.  The history is permanent.  Whatever operations follow, a stored
    message stays at its place in the table with its id, room, sender,
    text and time of sending; only its time of reading can change, and
    only from unset to set. *)
Theorem historico_permanente (ops : list Operacao) (w : Mundo) (i : nat)
    (m : ChatMensagem.t) :
  chat_mensagem (banco w) !! i = Some m →
  ∃ m', chat_mensagem (banco (executar_todas ops w)) !! i = Some m'
        ∧ conserva m m'.
Proof.
  revert w m. induction ops as [|op ops IH]; intros w m Hi.
  - exists m. split; [done|apply conserva_refl].
  - rewrite executar_todas_cons.
    destruct (passo_mensagens _ _ (executar_passo_banco op w))
      as (f & novas & Hm & Hf & _).
    destruct (IH (executar op w) (f m)) as (m' & Hi' & Hc).
    { rewrite Hm. apply lookup_app_l_Some. by rewrite list_lookup_fmap, Hi. }
    exists m'. split; [done|]. by eapply conserva_trans.
Qed.

Lemma historico_permanente_witness :
  ∃ m', chat_mensagem
          (banco (executar_todas [OpMarcarLidas "3_7" 7; OpEnviar "3_7" "hi" 3]
                                 mundo_com_mensagens)) !! 0%nat
        = Some m'
        ∧ conserva (mensagem_exemplo 1 "3_7" 3 None) m'.
Proof.
  apply (historico_permanente [OpMarcarLidas "3_7" 7; OpEnviar "3_7" "hi" 3]
                              mundo_com_mensagens 0).
  reflexivity.
Defined.

(** ** Rooms and their members *)

Lemma participa_mesmos s u b b' :
  chat_participante b' = chat_participante b →
  participa s u b' ↔ participa s u b.
Proof. intros Hp. unfold participa. by rewrite Hp. Qed.

Lemma tocar_id s agora sala :
  ChatSala.id (chat_sala_repo.tocar s agora sala) = ChatSala.id sala.
Proof. unfold chat_sala_repo.tocar. by case_bool_decide. Qed.

Lemma passo_salas b b' : passo_banco b b' → salas_integras b → salas_integras b'.
Proof.
  intros [|u1 u2 agora H1 H2 H3 Hne|s u txt d salas Hp Hsalas|s u agora Hp]
    [Hs Hps]; [done|..].
  - assert (Hsem : ∀ p, p ∈ chat_participante b →
              ChatParticipante.sala_id p ≠ gerar_sala_id u1 u2).
    { intros p (s & Hin & Hid)%Hps Heq. apply H1. exists s.
      by rewrite Hid. }
    split; simpl.
    + intros s [Hin|Hin]%elem_of_app.
      * destruct (Hs s Hin) as (x & y & Hxy & Hid & Hpart).
        exists x, y. split; [done|]. split; [done|].
        intros u. rewrite <-Hpart. unfold participa. simpl. split.
        -- intros (p & [Hp|Hp]%elem_of_app & Hsala & Hu); [by exists p|].
           exfalso. apply H1. exists s. split; [done|]. rewrite <-Hsala.
           apply elem_of_cons in Hp as [->|Hp]; [done|].
           apply elem_of_cons in Hp as [->|Hp]; [done|].
           by apply elem_of_nil in Hp.
        -- intros (p & Hp & Hsala & Hu). exists p.
           split; [apply elem_of_app; by left|done].
      * apply list_elem_of_singleton in Hin as ->. simpl.
        exists u1, u2. split; [done|]. split; [done|].
        intros u. unfold participa. simpl. split.
        -- intros (p & [Hp|Hp]%elem_of_app & Hsala & Hu);
             [by destruct (Hsem p Hp)|].
           apply elem_of_cons in Hp as [->|Hp]; [by left|].
           apply elem_of_cons in Hp as [->|Hp]; [by right|].
           by apply elem_of_nil in Hp.
        -- intros [-> | ->].
           ++ eexists. split; [apply elem_of_app; right; left|done].
           ++ eexists. split; [apply elem_of_app; right; right; left|done].
    + intros p [Hp|Hp]%elem_of_app.
      * destruct (Hps p Hp) as (s & Hin & Hid). exists s.
        split; [apply elem_of_app; by left|done].
      * eexists. split; [apply elem_of_app; right; left|]. simpl.
        apply elem_of_cons in Hp as [->|Hp]; [done|].
        apply elem_of_cons in Hp as [->|Hp]; [done|].
        by apply elem_of_nil in Hp.
  - assert (Hids : ∀ s', s' ∈ salas →
              ∃ s0, s0 ∈ chat_sala b ∧ ChatSala.id s' = ChatSala.id s0).
    { intros s' Hin. destruct Hsalas as [->|[agora ->]]; [by exists s'|].
      apply list_elem_of_fmap in Hin as (s0 & -> & Hin).
      exists s0. split; [done|apply tocar_id]. }
    assert (Hids' : ∀ s0, s0 ∈ chat_sala b →
              ∃ s', s' ∈ salas ∧ ChatSala.id s' = ChatSala.id s0).
    { intros s0 Hin. destruct Hsalas as [->|[agora ->]]; [by exists s0|].
      eexists. split; [apply list_elem_of_fmap; eauto|apply tocar_id]. }
    split; simpl.
    + intros s' (s0 & Hin & ->)%Hids.
      destruct (Hs s0 Hin) as (x & y & Hxy & Hid & Hpart).
      exists x, y. split; [done|]. split; [done|]. exact Hpart.
    + intros p (s0 & Hin & Hid)%Hps.
      destruct (Hids' s0 Hin) as (s' & Hin' & Hid').
      exists s'. split; [done|congruence].
  - split; [exact Hs|exact Hps].
Qed.

Lemma salas_integras_vazio : salas_integras banco_vazio.
Proof. split; intros ? []%elem_of_nil. Qed.

Lemma ids_em_ordem_vazio : ids_em_ordem banco_vazio.
Proof.
  split; [intros i j mi mj Hi; by destruct i|intros ? []%elem_of_nil].
Qed.

(** The members of an existing room whose id is that of [a] and [b]. *)
Lemma salas_integras_membros a b s bd :
  salas_integras bd → s ∈ chat_sala bd → ChatSala.id s = gerar_sala_id a b →
  a ≠ b ∧ ∀ u, participa (gerar_sala_id a b) u bd ↔ u = a ∨ u = b.
Proof.
  intros [Hs _] Hin Hid.
  destruct (Hs s Hin) as (x & y & Hxy & Hid' & Hpart).
  rewrite Hid in Hid', Hpart.
  apply gerar_sala_id_inj in Hid' as [[-> ->]|[-> ->]].
  - done.
  - split; [done|]. intros u. rewrite Hpart. tauto.
Qed.

Lemma head_filter_sala sid (salas : list ChatSala.t) :
  match head (filter (λ s, ChatSala.id s = sid) salas) with
  | Some sala => sala ∈ salas ∧ ChatSala.id sala = sid
  | None => ¬ ∃ s, s ∈ salas ∧ ChatSala.id s = sid
  end.
Proof.
  destruct (filter _ salas) as [|sala l] eqn:Hf; simpl.
  - intros (s & Hin & Hid).
    assert (Hs : s ∈ filter (λ s, ChatSala.id s = sid) salas)
      by (by apply list_elem_of_filter).
    rewrite Hf in Hs. by apply elem_of_nil in Hs.
  - assert (Hs : sala ∈ filter (λ s, ChatSala.id s = sid) salas)
      by (rewrite Hf; left).
    apply list_elem_of_filter in Hs as [Hid Hin]. done.
Qed.

(** A call for a pair whose room exists returns it and writes nothing. *)
Lemma criar_ou_obter_sala_existente a b s w :
  s ∈ chat_sala (banco w) → ChatSala.id s = gerar_sala_id a b →
  sqlite_falha w (acessos w) = false →
  ∃ sala, chat_sala_repo.criar_ou_obter_sala a b w
          = (Retorno sala, com_acessos (S (acessos w)) w)
    ∧ sala ∈ chat_sala (banco w)
    ∧ ChatSala.id sala = gerar_sala_id a b.
Proof.
  intros Hin Hid Hf.
  unfold chat_sala_repo.criar_ou_obter_sala, chat_sala_repo.obter_por_id,
    get_connection. desdobrar. campos. rewrite Hf. campos.
  pose proof (head_filter_sala (gerar_sala_id a b) (chat_sala (banco w))) as Hh.
  destruct (head _) as [sala|]; [|destruct Hh; eauto].
  exists sala. destruct Hh as [Hh1 Hh2]. split; [|done].
  by destruct w as [? ? ? []].
Qed.

(** A call for two different users returns their room, which then exists. *)
Lemma criar_ou_obter_sala_retorna (a b : Z) (w : Mundo) :
  salas_integras (banco w) → a ≠ b →
  sqlite_falha w (acessos w) = false →
  sqlite_falha w (S (acessos w)) = false →
  ∃ sala w',
    chat_sala_repo.criar_ou_obter_sala a b w = (Retorno sala, w')
    ∧ ChatSala.id sala = gerar_sala_id a b
    ∧ passo_banco (banco w) (banco w')
    ∧ ∃ s, s ∈ chat_sala (banco w') ∧ ChatSala.id s = gerar_sala_id a b.
Proof.
  intros Hint Hab Hf1 Hf2.
  pose proof (head_filter_sala (gerar_sala_id a b) (chat_sala (banco w))) as Hh.
  destruct (head (filter (λ s, ChatSala.id s = gerar_sala_id a b)
                         (chat_sala (banco w)))) as [s|] eqn:Hhead.
  - destruct Hh as [Hin Hid].
    destruct (criar_ou_obter_sala_existente a b s w Hin Hid Hf1)
      as (sala & Hr & Hin' & Hid').
    exists sala, (com_acessos (S (acessos w)) w).
    split; [done|]. split; [done|]. split; [|by exists sala].
    destruct w as [? ? ? []]. constructor.
  - assert (Hsem : ∀ u, ¬ participa (gerar_sala_id a b) u (banco w)).
    { intros u (p & Hp & Hsala & _). destruct Hint as [_ Hps].
      destruct (Hps p Hp) as (s & Hin & Hid). apply Hh. exists s.
      by rewrite Hid. }
    unfold chat_sala_repo.criar_ou_obter_sala, chat_sala_repo.obter_por_id,
      get_connection. desdobrar. campos. rewrite Hf1. campos.
    rewrite Hhead. campos. rewrite Hf2. campos.
    unfold chat_sala_repo.inserir_sala. desdobrar.
    rewrite bool_decide_eq_false_2
      by (intros (s & Hin & Hid)%Exists_exists; apply Hh; eauto).
    rewrite bool_decide_eq_false_2
      by (intros Hp%(tem_participa _ _ _ (banco w)); [by eapply Hsem|done]).
    rewrite bool_decide_eq_false_2.
    2:{ intros (p & [Hp|Hp]%elem_of_app & Hsala & Hu)%Exists_exists.
        - apply (Hsem b). by exists p.
        - apply list_elem_of_singleton in Hp as ->. simpl in Hu. done. }
    campos. eexists _, _. split; [reflexivity|]. campos.
    split; [reflexivity|]. split.
    + apply pb_sala; [done|apply Hsem|apply Hsem|done].
    + eexists. split; [apply elem_of_app; right; left|reflexivity].
Qed.

(** X11.  In tables where every room is that of its two members, and the
    store answering, [criar_ou_obter_sala] for two different users returns
    the room with their generated id, existing or new; afterwards the
    members of that room are these two users and nobody else, the tables
    are again of that kind, and a further call for the pair, in either
    order, returns a room with the same id and changes no table. *)
Theorem criar_ou_obter_sala_simetrica (a b : Z) (w : Mundo) :
  salas_integras (banco w) → a ≠ b →
  sqlite_falha w (acessos w) = false →
  sqlite_falha w (S (acessos w)) = false →
  ∃ sala w',
    chat_sala_repo.criar_ou_obter_sala a b w = (Retorno sala, w')
    ∧ ChatSala.id sala = gerar_sala_id a b
    ∧ salas_integras (banco w')
    ∧ (∀ u, participa (gerar_sala_id a b) u (banco w') ↔ u = a ∨ u = b)
    ∧ ∀ x y w0,
        (x = a ∧ y = b ∨ x = b ∧ y = a) →
        banco w0 = banco w' → sqlite_falha w0 (acessos w0) = false →
        ∃ sala' w'',
          chat_sala_repo.criar_ou_obter_sala x y w0 = (Retorno sala', w'')
          ∧ ChatSala.id sala' = ChatSala.id sala
          ∧ banco w'' = banco w0.
Proof.
  intros Hint Hab Hf1 Hf2.
  destruct (criar_ou_obter_sala_retorna a b w Hint Hab Hf1 Hf2)
    as (sala & w' & Hr & Hid & Hpasso & s & Hin & Hsid).
  pose proof (passo_salas _ _ Hpasso Hint) as Hint'.
  exists sala, w'. split; [done|]. split; [done|]. split; [done|].
  split; [by eapply salas_integras_membros|].
  intros x y w0 Hxy Hb Hf0.
  assert (Hg : gerar_sala_id x y = gerar_sala_id a b).
  { apply gerar_sala_id_mesmo_par_aux. tauto. }
  rewrite <-Hb in Hin. rewrite <-Hg in Hsid.
  destruct (criar_ou_obter_sala_existente x y s w0 Hin Hsid Hf0)
    as (sala' & Hr' & _ & Hid').
  exists sala', (com_acessos (S (acessos w0)) w0).
  split; [done|]. split; [congruence|done].
Qed.

Lemma criar_ou_obter_sala_simetrica_witness :
  ∃ sala w',
    chat_sala_repo.criar_ou_obter_sala 7 3 mundo_vazio = (Retorno sala, w')
    ∧ ChatSala.id sala = gerar_sala_id 7 3
    ∧ participa (gerar_sala_id 7 3) 7 (banco w').
Proof.
  destruct (criar_ou_obter_sala_simetrica 7 3 mundo_vazio)
    as (sala & w' & Hr & Hid & _ & Hp & _).
  - split; intros x Hx; simpl in Hx; by apply elem_of_nil in Hx.
  - lia.
  - reflexivity.
  - reflexivity.
  - exists sala, w'. split; [exact Hr|]. split; [exact Hid|].
    apply Hp. by left.
Defined.

(** X12.  A room never gains or loses a member.  When every room of the
    tables is the room of two different users who are its only members,
    and every membership row belongs to a room of the room table, as in
    the empty tables, the same holds after any sequence of operations. *)
Theorem salas_sempre_integras (ops : list Operacao) (w : Mundo) :
  salas_integras (banco w) →
  salas_integras (banco (executar_todas ops w)).
Proof.
  revert w. induction ops as [|op ops IH]; intros w Hw; [done|].
  rewrite executar_todas_cons. apply IH.
  by apply (passo_salas _ _ (executar_passo_banco op w)).
Qed.

Lemma salas_sempre_integras_witness :
  salas_integras
    (banco (executar_todas [OpCriarSala 7 3; OpCriarSala 3 7; OpCriarSala 3 9]
                           mundo_vazio)).
Proof.
  apply (salas_sempre_integras
           [OpCriarSala 7 3; OpCriarSala 3 7; OpCriarSala 3 9] mundo_vazio).
  split; intros x Hx; simpl in Hx; by apply elem_of_nil in Hx.
Defined.

(** X13.  The repository cannot make a room of a user with themself.  In
    tables where every room is that of two different users, and the store
    answering, [criar_ou_obter_sala(a, a)] fails with the store's error on
    the second membership row, and the room row and the first membership
    row it had inserted are not kept. *)
Theorem criar_ou_obter_sala_consigo (a : Z) (w : Mundo) :
  salas_integras (banco w) →
  sqlite_falha w (acessos w) = false →
  sqlite_falha w (S (acessos w)) = false →
  ∃ w', chat_sala_repo.criar_ou_obter_sala a a w = (Levanta SqliteError, w')
        ∧ banco w' = banco w.
Proof.
  intros Hint Hf1 Hf2.
  pose proof (head_filter_sala (gerar_sala_id a a) (chat_sala (banco w))) as Hh.
  unfold chat_sala_repo.criar_ou_obter_sala, chat_sala_repo.obter_por_id,
    get_connection. desdobrar. campos. rewrite Hf1. campos.
  destruct (head _) as [s|].
  { destruct Hh as [Hin Hid].
    by destruct (salas_integras_membros a a s (banco w) Hint Hin Hid). }
  campos. rewrite Hf2. campos.
  unfold chat_sala_repo.inserir_sala. desdobrar.
  case_bool_decide; campos; [by eexists|].
  case_bool_decide; campos; [by eexists|].
  rewrite bool_decide_eq_true_2; [by eexists|].
  apply Exists_exists. eexists.
  split; [apply elem_of_app; right; left|done].
Qed.

Lemma criar_ou_obter_sala_consigo_witness :
  ∃ w', chat_sala_repo.criar_ou_obter_sala 3 3 mundo_vazio
        = (Levanta SqliteError, w')
        ∧ banco w' = banco mundo_vazio.
Proof.
  apply (criar_ou_obter_sala_consigo 3 mundo_vazio).
  - split; intros x Hx; simpl in Hx; by apply elem_of_nil in Hx.
  - reflexivity.
  - reflexivity.
Defined.

Lemma criar_ou_obter_sala_atomica (w w' : Mundo) (e : Excecao) (a b : Z) :
  chat_sala_repo.criar_ou_obter_sala a b w = (Levanta e, w') →
  banco w' = banco w.
Proof.
  unfold chat_sala_repo.criar_ou_obter_sala, chat_sala_repo.obter_por_id,
    get_connection. desdobrar. campos.
  destruct (sqlite_falha w (acessos w)); campos; [by intros [= _ <-]|].
  destruct (head _); campos; [discriminate|].
  destruct (sqlite_falha w (S (acessos w))); campos; [by intros [= _ <-]|].
  unfold chat_sala_repo.inserir_sala. desdobrar.
  repeat (case_bool_decide; campos; [by intros [= _ <-]|]).
  discriminate.
Qed.

(** X14.  A repository write that raises has written nothing: each of
    [criar_ou_obter_sala], [inserir], [marcar_como_lidas] and
    [atualizar_ultima_atividade] leaves the tables as they were when it
    ends with an exception. *)
Theorem escrita_atomica (w w' : Mundo) (e : Excecao) :
  (∀ a b, chat_sala_repo.criar_ou_obter_sala a b w = (Levanta e, w') →
          banco w' = banco w)
  ∧ (∀ s u m, chat_mensagem_repo.inserir s u m w = (Levanta e, w') →
              banco w' = banco w)
  ∧ (∀ s u, chat_mensagem_repo.marcar_como_lidas s u w = (Levanta e, w') →
            banco w' = banco w)
  ∧ (∀ s, chat_sala_repo.atualizar_ultima_atividade s w = (Levanta e, w') →
          banco w' = banco w).
Proof.
  split_and!.
  - intros a b. apply criar_ou_obter_sala_atomica.
  - intros s u m.
    unfold chat_mensagem_repo.inserir, get_connection. desdobrar. campos.
    destruct (sqlite_falha w (acessos w)); campos; [by intros [= _ <-]|].
    discriminate.
  - intros s u.
    unfold chat_mensagem_repo.marcar_como_lidas, get_connection,
      chat_mensagem_repo.update_lidas. desdobrar. campos.
    destruct (sqlite_falha w (acessos w)); campos; [by intros [= _ <-]|].
    discriminate.
  - intros s.
    unfold chat_sala_repo.atualizar_ultima_atividade, get_connection.
    desdobrar. campos.
    destruct (sqlite_falha w (acessos w)); campos; [by intros [= _ <-]|].
    discriminate.
Qed.

Lemma escrita_atomica_witness :
  banco (chat_sala_repo.criar_ou_obter_sala 3 9 mundo_falha_inserir).2
  = banco mundo_falha_inserir.
Proof.
  destruct (escrita_atomica mundo_falha_inserir
              (chat_sala_repo.criar_ou_obter_sala 3 9 mundo_falha_inserir).2
              SqliteError) as (H & _).
  apply (H 3 9). reflexivity.
Defined.

(** ** Read markers *)

Lemma marcar_lida s u agora m :
  chat_mensagem_repo.nao_lida_de_outro s u (chat_mensagem_repo.marcar s u agora m)
  = false.
Proof.
  unfold chat_mensagem_repo.marcar.
  destruct (chat_mensagem_repo.nao_lida_de_outro s u m) eqn:Hn; [|done].
  apply not_true_iff_false. rewrite nao_lida_de_outro_true. simpl.
  by intros (_ & _ & ?).
Qed.

Lemma marcar_outra_sala s u agora s' u' m :
  s' ≠ s →
  chat_mensagem_repo.nao_lida_de_outro s' u' (chat_mensagem_repo.marcar s u agora m)
  = chat_mensagem_repo.nao_lida_de_outro s' u' m.
Proof.
  intros Hs. unfold chat_mensagem_repo.marcar.
  destruct (chat_mensagem_repo.nao_lida_de_outro s u m) eqn:Hn; [|done].
  apply nao_lida_de_outro_true in Hn as (Hsala & _ & _).
  unfold chat_mensagem_repo.nao_lida_de_outro. simpl.
  rewrite (bool_decide_eq_false_2 (ChatMensagem.sala_id m = s')) by congruence.
  done.
Qed.

Lemma select_fmap_ext s u (f : ChatMensagem.t → ChatMensagem.t) tabela :
  (∀ m, chat_mensagem_repo.nao_lida_de_outro s u (f m)
        = chat_mensagem_repo.nao_lida_de_outro s u m) →
  chat_mensagem_repo.select_nao_lidas_por_sala s u (f <$> tabela)
  = chat_mensagem_repo.select_nao_lidas_por_sala s u tabela.
Proof.
  intros Hf. unfold chat_mensagem_repo.select_nao_lidas_por_sala.
  induction tabela as [|m l IH]; [done|].
  rewrite fmap_cons, !filter_cons, Hf.
  case_decide; simpl; by rewrite IH.
Qed.

Lemma select_marcadas s u agora tabela :
  chat_mensagem_repo.select_nao_lidas_por_sala s u
    (chat_mensagem_repo.marcar s u agora <$> tabela) = 0%nat.
Proof.
  unfold chat_mensagem_repo.select_nao_lidas_por_sala.
  induction tabela as [|m l IH]; [done|].
  rewrite fmap_cons, filter_cons_False; [done|].
  by rewrite marcar_lida.
Qed.

Lemma marcar_marcadas s u agora agora' (tabela : list ChatMensagem.t) :
  chat_mensagem_repo.marcar s u agora'
    <$> (chat_mensagem_repo.marcar s u agora <$> tabela)
  = chat_mensagem_repo.marcar s u agora <$> tabela.
Proof.
  rewrite <-list_fmap_compose. apply list_fmap_ext. intros i m _. simpl.
  unfold chat_mensagem_repo.marcar at 1. by rewrite marcar_lida.
Qed.

(** X15.  When the store answers, [marcar_como_lidas(sala, leitor)] returns
    whether the reader had unread messages in the room; afterwards the
    reader's unread count for the room is zero, and the counts of every
    user for every other room are what they were.  A second call returns
    [False] and changes no table. *)
Theorem marcar_como_lidas_zera (sala_id : string) (leitor : Z) (w : Mundo) :
  sqlite_falha w (acessos w) = false →
  ∃ w',
    chat_mensagem_repo.marcar_como_lidas sala_id leitor w
    = (Retorno (bool_decide
                  (0 < chat_mensagem_repo.select_nao_lidas_por_sala
                         sala_id leitor (chat_mensagem (banco w)))%nat), w')
    ∧ chat_mensagem_repo.select_nao_lidas_por_sala sala_id leitor
        (chat_mensagem (banco w')) = 0%nat
    ∧ (∀ s u, s ≠ sala_id →
         chat_mensagem_repo.select_nao_lidas_por_sala s u (chat_mensagem (banco w'))
         = chat_mensagem_repo.select_nao_lidas_por_sala s u (chat_mensagem (banco w)))
    ∧ (sqlite_falha w (S (acessos w)) = false →
       ∃ w'', chat_mensagem_repo.marcar_como_lidas sala_id leitor w'
              = (Retorno false, w'')
              ∧ banco w'' = banco w').
Proof.
  intros Hf. eexists. split.
  { unfold chat_mensagem_repo.marcar_como_lidas, get_connection,
      chat_mensagem_repo.update_lidas. desdobrar. campos. rewrite Hf. campos.
    reflexivity. }
  campos. split; [apply select_marcadas|].
  split; [intros s u Hs; apply select_fmap_ext; intros m;
          by apply marcar_outra_sala|].
  intros Hf2.
  unfold chat_mensagem_repo.marcar_como_lidas, get_connection,
    chat_mensagem_repo.update_lidas. desdobrar. campos. rewrite Hf2. campos.
  eexists. split.
  - f_equal. f_equal. apply bool_decide_eq_false_2.
    pose proof (select_marcadas sala_id leitor (relogio w (leituras w))
                  (chat_mensagem (banco w))) as H0.
    unfold chat_mensagem_repo.select_nao_lidas_por_sala in H0.
    rewrite H0. lia.
  - campos. by rewrite marcar_marcadas.
Qed.

Lemma marcar_como_lidas_zera_witness :
  ∃ w', chat_mensagem_repo.marcar_como_lidas "3_7" 7 mundo_com_mensagens
        = (Retorno true, w')
        ∧ chat_mensagem_repo.select_nao_lidas_por_sala "3_7" 7
            (chat_mensagem (banco w')) = 0%nat.
Proof.
  destruct (marcar_como_lidas_zera "3_7" 7 mundo_com_mensagens)
    as (w' & Hr & Hz & _).
  - reflexivity.
  - exists w'. split; [exact Hr|exact Hz].
Defined.

(** ** The two unread counters *)

Lemma length_filter_pares {A B} (P : A * B → Prop) `{!∀ x, Decision (P x)}
    (l1 : list A) (l2 : list B) :
  length (filter P (a ← l1; b ← l2; [(a, b)]))
  = sum_list ((λ b, length (filter (λ a, P (a, b)) l1)) <$> l2).
Proof.
  induction l1 as [|a l1 IH].
  - simpl. induction l2 as [|b l2 IH2]; [done|]. exact IH2.
  - rewrite bind_cons, filter_app, length_app, IH. clear IH.
    induction l2 as [|b l2 IH2]; [done|].
    rewrite bind_cons, !fmap_cons. simpl. rewrite <-IH2.
    rewrite !filter_cons. destruct (decide (P (a, b))); simpl; lia.
Qed.

Lemma sum_list_filter {A} (P : A → Prop) `{!∀ x, Decision (P x)}
    (f g : A → nat) (l : list A) :
  (∀ x, P x → f x = g x) → (∀ x, ¬ P x → f x = 0%nat) →
  sum_list (f <$> l) = sum_list (g <$> filter P l).
Proof.
  intros Hp Hn. induction l as [|x l IH]; [done|].
  rewrite fmap_cons, filter_cons. simpl. destruct (decide (P x)).
  - rewrite fmap_cons. simpl. by rewrite IH, Hp.
  - by rewrite IH, Hn.
Qed.

(** The join of the total, room by room. *)
Lemma soma_por_sala (usuario_id : Z) (mensagens : list ChatMensagem.t)
    (participantes : list ChatParticipante.t) :
  length
    (filter (λ par : ChatMensagem.t * ChatParticipante.t,
               (bool_decide (ChatMensagem.sala_id par.1 = ChatParticipante.sala_id par.2)
                && bool_decide (ChatParticipante.usuario_id par.2 = usuario_id)
                && negb (bool_decide (ChatMensagem.usuario_id par.1 = usuario_id))
                && bool_decide (ChatMensagem.lida_em par.1 = None)) = true)
            (cm ← mensagens; cp ← participantes; [(cm, cp)]))
  = sum_list
      ((λ cp, chat_mensagem_repo.select_nao_lidas_por_sala
                (ChatParticipante.sala_id cp) usuario_id mensagens)
       <$> filter (λ cp, ChatParticipante.usuario_id cp = usuario_id)
                  participantes).
Proof.
  rewrite length_filter_pares.
  apply sum_list_filter; intros cp Hcp; simpl.
  - unfold chat_mensagem_repo.select_nao_lidas_por_sala. f_equal.
    apply list_filter_iff. intros cm.
    rewrite nao_lida_de_outro_true, !andb_true_iff, negb_true_iff,
      !bool_decide_eq_true, bool_decide_eq_false. tauto.
  - induction mensagens as [|cm l IH]; [done|].
    rewrite filter_cons_False; [done|]. simpl.
    rewrite !andb_true_iff, !bool_decide_eq_true. tauto.
Qed.

(** X16.  The total that [contar_nao_lidas_por_usuario] counts for a user
    is the sum, over the membership rows of that user, of what
    [contar_nao_lidas_por_sala] counts for the room of the row: the badge
    of the chat button is the sum of the badges of the conversations. *)
Theorem total_nao_lidas_soma (usuario_id : Z) (b : Banco) :
  chat_mensagem_repo.select_nao_lidas_por_usuario usuario_id b
  = sum_list
      ((λ cp, chat_mensagem_repo.select_nao_lidas_por_sala
                (ChatParticipante.sala_id cp) usuario_id (chat_mensagem b))
       <$> filter (λ cp, ChatParticipante.usuario_id cp = usuario_id)
                  (chat_participante b)).
Proof. apply soma_por_sala. Qed.

(** ** A message from one member of a room to the other *)

Lemma sinal_ou_digito_sem_espaco c :
  sinal_ou_digito c = true → Py.is_space c = false.
Proof.
  destruct c as [[] [] [] [] [] [] [] []]; vm_compute; intros H;
    first [discriminate H | done].
Qed.

Lemma gerar_sala_id_sem_espaco a b :
  all_chars (λ c, negb (Py.is_space c)) (gerar_sala_id a b) = true.
Proof.
  assert (Hstr : ∀ z, all_chars (λ c, negb (Py.is_space c)) (Py.str z) = true).
  { intros z. apply (all_chars_impl sinal_ou_digito); [|apply str_chars].
    by intros c ->%sinal_ou_digito_sem_espaco. }
  unfold gerar_sala_id. cbv zeta. rewrite !all_chars_app, !Hstr. done.
Qed.

Lemma validar_gerar_sala_id a b :
  EnviarMensagemDTO.validar_sala_id (gerar_sala_id a b)
  = inr (gerar_sala_id a b).
Proof.
  unfold EnviarMensagemDTO.validar_sala_id.
  rewrite strip_sem_espaco by apply gerar_sala_id_sem_espaco.
  rewrite bool_decide_eq_false_2; [done|].
  intros Hg. pose proof (split_gerar_sala_id a b) as Hs.
  rewrite Hg in Hs. discriminate Hs.
Qed.

(** The send request of a member of a generated room, the store
    answering, in a state where no queue is registered twice. *)
Lemma enviar_difunde (a b : Z) (texto : string) (w : Mundo) :
  filas_distintas w → a ≠ b →
  participa (gerar_sala_id a b) a (banco w) →
  (∃ m, EnviarMensagemDTO.validar_mensagem texto = inr m) →
  sqlite_falha w (acessos w) = false →
  sqlite_falha w (S (acessos w)) = false →
  sqlite_falha w (S (S (acessos w))) = false →
  let evento :=
    chat_routes.mensagem_sse
      {| ChatMensagem.id := chat_mensagem_seq (banco w) + 1;
         ChatMensagem.sala_id := gerar_sala_id a b;
         ChatMensagem.usuario_id := a;
         ChatMensagem.mensagem := Py.strip texto;
         ChatMensagem.data_envio := relogio w (leituras w);
         ChatMensagem.lida_em := None |} in
  ∃ w',
    chat_routes.enviar_mensagem (gerar_sala_id a b) texto a w
    = (Retorno {| chat_routes.status_code := 200;
                  chat_routes.sucesso := true;
                  chat_routes.mensagem := Evento.mensagem evento |}, w')
    ∧ chat_manager w' = chat_manager w
    ∧ ∀ q pend, filas w !! q = Some pend →
        filas w' !! q
        = Some (if bool_decide (_connections (chat_manager w) !! a = Some q
                                ∨ _connections (chat_manager w) !! b = Some q)
                then pend ++ [evento] else pend).
Proof.
  intros Hdis Hab Hp [m Hm] Hf1 Hf2 Hf3 evento.
  apply head_participa in Hp as [p Hp].
  unfold chat_routes.enviar_mensagem, try_except,
    chat_routes.enviar_mensagem_try, EnviarMensagemDTO.novo.
  rewrite validar_gerar_sala_id, Hm.
  apply validar_mensagem_casos in Hm as (-> & _ & _).
  unfold chat_participante_repo.obter_por_sala_e_usuario, get_connection.
  desdobrar. campos. rewrite Hf1. campos. rewrite Hp. campos.
  unfold chat_mensagem_repo.inserir, get_connection. desdobrar. campos.
  rewrite Hf2. campos.
  unfold chat_sala_repo.atualizar_ultima_atividade, get_connection.
  desdobrar. campos. rewrite Hf3. campos.
  match goal with
  | |- context [broadcast_para_sala ?s ?e ?w0] =>
      destruct (difusao_sala_gerada a b e w0 Hdis Hab)
        as (w' & Hr & Hman & _ & _ & Hq);
      change (broadcast_para_sala s e w0)
        with (broadcast_para_sala (gerar_sala_id a b) e w0);
      rewrite Hr
  end.
  exists w'. split; [reflexivity|]. split; [exact Hman|exact Hq].
Qed.

(** X17.  In a reachable state, a member of the room of two different
    users who sends a valid text, the store answering, is answered with
    200 and the stored message; the event of that message is appended,
    once, to the queue of each of the two users that is registered, the
    sender included, and every other queue and the registry are as they
    were.  This holds for every room id the application generates. *)
Theorem enviar_mensagem_entrega (a b : Z) (texto : string) (w : Mundo) :
  alcancavel w → a ≠ b →
  participa (gerar_sala_id a b) a (banco w) →
  (∃ m, EnviarMensagemDTO.validar_mensagem texto = inr m) →
  sqlite_falha w (acessos w) = false →
  sqlite_falha w (S (acessos w)) = false →
  sqlite_falha w (S (S (acessos w))) = false →
  let evento :=
    chat_routes.mensagem_sse
      {| ChatMensagem.id := chat_mensagem_seq (banco w) + 1;
         ChatMensagem.sala_id := gerar_sala_id a b;
         ChatMensagem.usuario_id := a;
         ChatMensagem.mensagem := Py.strip texto;
         ChatMensagem.data_envio := relogio w (leituras w);
         ChatMensagem.lida_em := None |} in
  ∃ w',
    chat_routes.enviar_mensagem (gerar_sala_id a b) texto a w
    = (Retorno {| chat_routes.status_code := 200;
                  chat_routes.sucesso := true;
                  chat_routes.mensagem := Evento.mensagem evento |}, w')
    ∧ chat_manager w' = chat_manager w
    ∧ ∀ q pend, filas w !! q = Some pend →
        filas w' !! q
        = Some (if bool_decide (_connections (chat_manager w) !! a = Some q
                                ∨ _connections (chat_manager w) !! b = Some q)
                then pend ++ [evento] else pend).
Proof.
  intros (_ & _ & Hdis)%alcancavel_invariante. by apply enviar_difunde.
Qed.

Lemma enviar_mensagem_entrega_witness :
  ∃ w',
    (chat_routes.enviar_mensagem (gerar_sala_id 7 3) " hi" 7
       (executar (OpConnect 3) mundo_exemplo)).2 = w'
    ∧ filas w' !! 0%nat
      = Some [chat_routes.mensagem_sse
                {| ChatMensagem.id := 1; ChatMensagem.sala_id := "3_7";
                   ChatMensagem.usuario_id := 7; ChatMensagem.mensagem := "hi";
                   ChatMensagem.data_envio := relogio_exemplo 0;
                   ChatMensagem.lida_em := None |}].
Proof.
  destruct (enviar_mensagem_entrega 7 3 " hi"
              (executar (OpConnect 3) mundo_exemplo))
    as (w' & Hr & _ & Hq).
  - apply alc_passo, alc_inicial. split; reflexivity.
  - lia.
  - eexists. split; [right; left|split; reflexivity].
  - exists "hi"%string. reflexivity.
  - reflexivity.
  - reflexivity.
  - reflexivity.
  - exists w'. split; [by rewrite Hr|]. exact (Hq 0%nat [] eq_refl).
Defined.

(** ** The room endpoint *)

Lemma head_filter_usuario uid (usuario : list Usuario.t) :
  match head (filter (λ u, Usuario.id u = uid) usuario) with
  | Some u => u ∈ usuario ∧ Usuario.id u = uid
  | None => ∀ u, u ∈ usuario → Usuario.id u ≠ uid
  end.
Proof.
  destruct (filter _ usuario) as [|u l] eqn:Hf; simpl.
  - intros u Hin Hid.
    assert (Hu : u ∈ filter (λ u, Usuario.id u = uid) usuario)
      by (by apply list_elem_of_filter).
    rewrite Hf in Hu. by apply elem_of_nil in Hu.
  - assert (Hu : u ∈ filter (λ u, Usuario.id u = uid) usuario)
      by (rewrite Hf; left).
    apply list_elem_of_filter in Hu as [Hid Hin]. done.
Qed.



(** The endpoint for an existing user other than the caller, the store
    answering: the user's row is found, the room is made or found. *)
Lemma criar_sala_aceita (usuario : list Usuario.t) (outro eu : Z) (w : Mundo) :
  salas_integras (banco w) → 0 < outro → outro ≠ eu →
  (∃ u, u ∈ usuario ∧ Usuario.id u = outro) →
  sqlite_falha w (acessos w) = false →
  sqlite_falha w (S (acessos w)) = false →
  sqlite_falha w (S (S (acessos w))) = false →
  ∃ o w',
    chat_routes.criar_ou_obter_sala usuario outro eu w
    = (Retorno (chat_routes.RespostaSala200 (gerar_sala_id eu outro) o), w')
    ∧ chat_routes.usuario_json_id o = outro
    ∧ passo_banco (banco w) (banco w')
    ∧ ∃ s, s ∈ chat_sala (banco w') ∧ ChatSala.id s = gerar_sala_id eu outro.
Proof.
  intros Hint Ho Hne (u0 & Hu0 & Hid0) Hf1 Hf2 Hf3.
  unfold chat_routes.criar_ou_obter_sala, CriarSalaDTO.novo,
    CriarSalaDTO.validar_outro_usuario_id.
  rewrite bool_decide_eq_false_2 by lia. simpl.
  rewrite bool_decide_eq_false_2 by done.
  unfold usuario_repo.obter_por_id, get_connection. desdobrar. campos.
  rewrite Hf1. campos.
  pose proof (head_filter_usuario outro usuario) as Hh.
  destruct (head _) as [u|]; [|by destruct (Hh u0 Hu0)].
  destruct Hh as [Hin Hid]. campos.
  match goal with
  | |- context [chat_sala_repo.criar_ou_obter_sala ?a ?b ?w0] =>
      destruct (criar_ou_obter_sala_retorna a b w0)
        as (sala & w' & -> & Hsid & Hpasso & Hex)
  end; try done.
  campos. rewrite Hsid. eexists _, w'. split; [reflexivity|].
  split; [done|]. split; [|done]. by destruct w as [? ? ? []].
Qed.

(** X19.  Two different users of the user table, with positive ids, get
    the same room from the room endpoint whoever asks.  In tables where
    every room is that of its two members, and the store answering, the
    first request is answered with the id generated for the two and the
    other user's data; a later request from the other side is answered
    with the same room id and changes no table; and the two are the
    members of that room. *)
Theorem criar_sala_mesma_para_ambos (usuario : list Usuario.t) (a b : Z)
    (w : Mundo) :
  salas_integras (banco w) →
  0 < a → 0 < b → a ≠ b →
  (∃ u, u ∈ usuario ∧ Usuario.id u = a) →
  (∃ u, u ∈ usuario ∧ Usuario.id u = b) →
  sqlite_falha w (acessos w) = false →
  sqlite_falha w (S (acessos w)) = false →
  sqlite_falha w (S (S (acessos w))) = false →
  ∃ ob w',
    chat_routes.criar_ou_obter_sala usuario b a w
    = (Retorno (chat_routes.RespostaSala200 (gerar_sala_id a b) ob), w')
    ∧ chat_routes.usuario_json_id ob = b
    ∧ (∀ u, participa (gerar_sala_id a b) u (banco w') ↔ u = a ∨ u = b)
    ∧ ∀ w0, banco w0 = banco w' →
        sqlite_falha w0 (acessos w0) = false →
        sqlite_falha w0 (S (acessos w0)) = false →
        ∃ oa w'',
          chat_routes.criar_ou_obter_sala usuario a b w0
          = (Retorno (chat_routes.RespostaSala200 (gerar_sala_id a b) oa), w'')
          ∧ chat_routes.usuario_json_id oa = a
          ∧ banco w'' = banco w0.
Proof.
  intros Hint Ha Hb Hab Hua Hub Hf1 Hf2 Hf3.
  destruct (criar_sala_aceita usuario b a w Hint Hb (not_eq_sym Hab) Hub
              Hf1 Hf2 Hf3) as (ob & w' & Hr & Hob & Hpasso & s & Hin & Hsid).
  pose proof (passo_salas _ _ Hpasso Hint) as Hint'.
  exists ob, w'. split; [done|]. split; [done|].
  split; [by eapply salas_integras_membros|].
  intros w0 Hb0 Hg1 Hg2.
  assert (Hg : gerar_sala_id b a = gerar_sala_id a b)
    by (apply gerar_sala_id_mesmo_par_aux; tauto).
  unfold chat_routes.criar_ou_obter_sala, CriarSalaDTO.novo,
    CriarSalaDTO.validar_outro_usuario_id.
  rewrite bool_decide_eq_false_2 by lia. simpl.
  rewrite bool_decide_eq_false_2 by done.
  unfold usuario_repo.obter_por_id, get_connection. desdobrar. campos.
  rewrite Hg1. campos.
  pose proof (head_filter_usuario a usuario) as Hh.
  destruct Hua as (u0 & Hu0 & Hid0).
  destruct (head _) as [u|]; [|by destruct (Hh u0 Hu0)].
  destruct Hh as [Hinu Hidu]. campos.
  match goal with
  | |- context [chat_sala_repo.criar_ou_obter_sala ?x ?y ?w1] =>
      destruct (criar_ou_obter_sala_existente x y s w1)
        as (sala & -> & _ & Hid')
  end; campos; [by rewrite Hb0|by rewrite Hg|done|].
  rewrite Hid', Hg. eexists _, _. split; [reflexivity|].
  split; [done|]. campos. by destruct w0 as [? ? ? []].
Qed.

Lemma criar_sala_mesma_para_ambos_witness :
  ∃ ob w',
    chat_routes.criar_ou_obter_sala
      [ {| Usuario.id := 3; Usuario.nome := "Ana"; Usuario.email := "ana@x.io";
           Usuario.senha := "h3"; Usuario.data_cadastro := None |};
        {| Usuario.id := 7; Usuario.nome := "Rui"; Usuario.email := "rui@x.io";
           Usuario.senha := "h7"; Usuario.data_cadastro := None |} ]
      7 3 mundo_vazio
    = (Retorno (chat_routes.RespostaSala200 (gerar_sala_id 3 7) ob), w')
    ∧ chat_routes.usuario_json_id ob = 7.
Proof.
  destruct (criar_sala_mesma_para_ambos
              [ {| Usuario.id := 3; Usuario.nome := "Ana";
                   Usuario.email := "ana@x.io";
                   Usuario.senha := "h3"; Usuario.data_cadastro := None |};
                {| Usuario.id := 7; Usuario.nome := "Rui";
                   Usuario.email := "rui@x.io";
                   Usuario.senha := "h7"; Usuario.data_cadastro := None |} ]
              3 7 mundo_vazio)
    as (ob & w' & Hr & Hob & _).
  - split; intros x Hx; simpl in Hx; by apply elem_of_nil in Hx.
  - lia.
  - lia.
  - lia.
  - eexists. split; [left|reflexivity].
  - eexists. split; [right; left|reflexivity].
  - reflexivity.
  - reflexivity.
  - reflexivity.
  - exists ob, w'. split; [exact Hr|exact Hob].
Defined.

(** ** The badge total and the primary keys *)

Lemma sum_list_uma_chave {A K} (chave : A → K) (k : K) (f f' : A → nat)
    (c : nat) (l : list A) :
  NoDup (chave <$> l) → (∃ x, x ∈ l ∧ chave x = k) →
  (∀ x, chave x = k → f x = c ∧ f' x = 0%nat) →
  (∀ x, chave x ≠ k → f' x = f x) →
  (sum_list (f' <$> l) + c)%nat = sum_list (f <$> l).
Proof.
  intros Hnd Hex Hk Hnk. induction l as [|x l IH]; [by destruct Hex as (? & []%elem_of_nil & _)|].
  rewrite fmap_cons in Hnd. apply NoDup_cons in Hnd as [Hx Hnd].
  rewrite !fmap_cons. simpl.
  destruct Hex as (y & Hy & Hyk). apply elem_of_cons in Hy as [->|Hy].
  - destruct (Hk x Hyk) as [-> ->].
    assert (Hl : sum_list (f' <$> l) = sum_list (f <$> l)).
    { f_equal. apply list_fmap_ext. intros i z Hz. apply Hnk.
      intros Hzk. apply Hx. rewrite Hyk, <-Hzk.
      apply list_elem_of_fmap. exists z. split; [done|].
      by apply (list_elem_of_lookup_2 _ i). }
    lia.
  - assert (Hxk : chave x ≠ k).
    { intros Hxk. apply Hx. rewrite Hxk, <-Hyk.
      apply list_elem_of_fmap. by exists y. }
    rewrite (Hnk x Hxk). rewrite <-(IH Hnd); [lia|]. by exists y.
Qed.

Lemma salas_do_usuario_unicas u (ps : list ChatParticipante.t) :
  NoDup ((λ p, (ChatParticipante.sala_id p, ChatParticipante.usuario_id p)) <$> ps) →
  NoDup (ChatParticipante.sala_id
           <$> filter (λ cp, ChatParticipante.usuario_id cp = u) ps).
Proof.
  induction ps as [|p ps IH]; [constructor|].
  rewrite fmap_cons. intros [Hp Hnd]%NoDup_cons.
  rewrite filter_cons. case_decide as Hu; [|by apply IH].
  rewrite fmap_cons. apply NoDup_cons. split; [|by apply IH].
  intros (q & Hsala & [Hqu Hq]%list_elem_of_filter)%list_elem_of_fmap.
  apply Hp, list_elem_of_fmap. exists q. split; [|done]. congruence.
Qed.

(** The total after the marking of a room by a member. *)
Lemma select_total_marcado (sala_id : string) (leitor : Z) (agora : datetime)
    (b : Banco) :
  chaves_unicas b → participa sala_id leitor b →
  (chat_mensagem_repo.select_nao_lidas_por_usuario leitor
     {| chat_sala := chat_sala b;
        chat_mensagem :=
          chat_mensagem_repo.marcar sala_id leitor agora <$> chat_mensagem b;
        chat_mensagem_seq := chat_mensagem_seq b;
        chat_participante := chat_participante b |}
   + chat_mensagem_repo.select_nao_lidas_por_sala sala_id leitor
       (chat_mensagem b))%nat
  = chat_mensagem_repo.select_nao_lidas_por_usuario leitor b.
Proof.
  intros [_ Hnd] (p & Hp & Hps & Hpu).
  unfold chat_mensagem_repo.select_nao_lidas_por_usuario.
  rewrite !soma_por_sala. campos.
  apply (sum_list_uma_chave ChatParticipante.sala_id sala_id).
  - by apply salas_do_usuario_unicas.
  - exists p. split; [by apply list_elem_of_filter|done].
  - intros cp ->. split; [done|apply select_marcadas].
  - intros cp Hcp. apply select_fmap_ext. intros m.
    by apply marcar_outra_sala.
Qed.

(** X20.  Marking a room as read lowers the badge by the room's count.
    For a member of the room, the membership table having no repeated row
    and the store answering, [marcar_mensagens_lidas] answers 200, and the
    total that [contar_nao_lidas] then returns, plus the reader's unread
    count of that room before the marking, is the reader's total before
    it. *)
Theorem marcar_baixa_total (sala_id : string) (leitor : Z) (w : Mundo) :
  chaves_unicas (banco w) →
  participa sala_id leitor (banco w) →
  sqlite_falha w (acessos w) = false →
  sqlite_falha w (S (acessos w)) = false →
  sqlite_falha w (S (S (acessos w))) = false →
  ∃ w1 w2 total,
    chat_routes.marcar_mensagens_lidas sala_id leitor w = (Retorno true, w1)
    ∧ chat_routes.contar_nao_lidas leitor w1 = (Retorno total, w2)
    ∧ (total + chat_mensagem_repo.select_nao_lidas_por_sala sala_id leitor
                 (chat_mensagem (banco w)))%nat
      = chat_mensagem_repo.select_nao_lidas_por_usuario leitor (banco w).
Proof.
  intros Hch Hpart Hf1 Hf2 Hf3.
  pose proof Hpart as [p Hp]%head_participa.
  eexists _, _, _. split; [|split].
  - unfold chat_routes.marcar_mensagens_lidas,
      chat_participante_repo.obter_por_sala_e_usuario,
      chat_mensagem_repo.marcar_como_lidas, chat_mensagem_repo.update_lidas,
      get_connection.
    desdobrar. campos. rewrite Hf1. campos. rewrite Hp. campos.
    rewrite Hf2. campos. reflexivity.
  - unfold chat_routes.contar_nao_lidas,
      chat_mensagem_repo.contar_nao_lidas_por_usuario, get_connection.
    desdobrar. campos. rewrite Hf3. campos. reflexivity.
  - by apply select_total_marcado.
Qed.

Lemma marcar_baixa_total_witness :
  ∃ w1 w2 total,
    chat_routes.marcar_mensagens_lidas "3_9" 3 mundo_com_mensagens
    = (Retorno true, w1)
    ∧ chat_routes.contar_nao_lidas 3 w1 = (Retorno total, w2)
    ∧ (total + 1)%nat = 2%nat.
Proof.
  destruct (marcar_baixa_total "3_9" 3 mundo_com_mensagens)
    as (w1 & w2 & total & H1 & H2 & H3).
  - split; apply (bool_decide_unpack _); vm_compute; exact I.
  - eexists. split; [do 2 right; left|split; reflexivity].
  - reflexivity.
  - reflexivity.
  - reflexivity.
  - exists w1, w2, total. split; [exact H1|]. split; [exact H2|exact H3].
Defined.

Lemma passo_chaves b b' : passo_banco b b' → chaves_unicas b → chaves_unicas b'.
Proof.
  intros [|u1 u2 agora H1 H2 H3 Hne|s u txt d salas Hp Hsalas|s u agora Hp]
    [Hs Hps]; [done|..]; split; simpl; try done.
  - rewrite fmap_app. apply NoDup_app. split; [done|]. split.
    + intros x (s & -> & Hin)%list_elem_of_fmap Hx. simpl in Hx.
      apply list_elem_of_singleton in Hx. apply H1. eauto.
    + apply NoDup_singleton.
  - rewrite fmap_app. apply NoDup_app. split; [done|]. split.
    + intros x (p & -> & Hin)%list_elem_of_fmap Hx. simpl in Hx.
      apply elem_of_cons in Hx as [[= Hsala Hu]|Hx].
      { apply H2. by exists p. }
      apply list_elem_of_singleton in Hx as [= Hsala Hu].
      apply H3. by exists p.
    + simpl. apply NoDup_cons. split; [|apply NoDup_singleton].
      intros [= ?]%list_elem_of_singleton. done.
  - destruct Hsalas as [->|[agora ->]]; [done|].
    rewrite <-list_fmap_compose.
    by rewrite (list_fmap_ext _ ChatSala.id (chat_sala b))
      by (intros i x _; apply tocar_id).
Qed.

(** X21.  The primary keys hold.  When no two rows of the room table have
    the same id and no two rows of the membership table are for the same
    room and user, as in the empty tables, this is still so after any
    sequence of operations. *)
Theorem chaves_sempre_unicas (ops : list Operacao) (w : Mundo) :
  chaves_unicas (banco w) →
  chaves_unicas (banco (executar_todas ops w)).
Proof.
  revert w. induction ops as [|op ops IH]; intros w Hw; [done|].
  rewrite executar_todas_cons. apply IH.
  by apply (passo_chaves _ _ (executar_passo_banco op w)).
Qed.

Lemma chaves_sempre_unicas_witness :
  chaves_unicas
    (banco (executar_todas [OpCriarSala 7 3; OpCriarSala 3 7; OpCriarSala 3 3]
                           mundo_vazio)).
Proof.
  apply (chaves_sempre_unicas
           [OpCriarSala 7 3; OpCriarSala 3 7; OpCriarSala 3 3] mundo_vazio).
  split; simpl; constructor.
Defined.

(** ** Sessions and flash messages *)

Lemma adicionar_mensagem_flash tipo texto s :
  Sessao.flash_messages (flash_messages.adicionar_mensagem tipo texto s)
  = Some (default [] (Sessao.flash_messages s)
          ++ [ {| Sessao.tipo := tipo; Sessao.texto := texto |} ])
  ∧ Sessao.usuario_logado (flash_messages.adicionar_mensagem tipo texto s)
    = Sessao.usuario_logado s.
Proof.
  by destruct s as [u [l|]].
Qed.

(** X22.  Flash messages are shown once, in the order they were added.
    After any number of [adicionar_mensagem], [obter_mensagens] returns
    the messages the session held followed by the added ones, in order;
    a second [obter_mensagens] returns none; and the user of the session
    is who it was. *)
Theorem flash_uma_vez (novas : list Sessao.Flash) (s : Sessao.t) :
  let s1 := foldl (λ s m, flash_messages.adicionar_mensagem
                            (Sessao.tipo m) (Sessao.texto m) s) s novas in
  let s2 := (flash_messages.obter_mensagens s1).2 in
  (flash_messages.obter_mensagens s1).1
  = default [] (Sessao.flash_messages s) ++ novas
  ∧ (flash_messages.obter_mensagens s2).1 = []
  ∧ Sessao.usuario_logado s2 = Sessao.usuario_logado s.
Proof.
  intros s1 s2.
  assert (H1 : default [] (Sessao.flash_messages s1)
               = default [] (Sessao.flash_messages s) ++ novas
               ∧ Sessao.usuario_logado s1 = Sessao.usuario_logado s).
  { unfold s1. clear. revert s. induction novas as [|[tipo texto] l IH]; intros s.
    - simpl. by rewrite app_nil_r.
    - simpl. destruct (IH (flash_messages.adicionar_mensagem tipo texto s))
        as [-> ->].
      destruct (adicionar_mensagem_flash tipo texto s) as [-> ->]. simpl.
      by rewrite <-app_assoc. }
  destruct H1 as [H1 H2]. split; [exact H1|]. split; [done|exact H2].
Qed.

(** X23.  A session from login to logout.  Once [criar_sessao] has put a
    user in the session, the wrapper of [requer_autenticacao] runs the
    handler with that user, and the login and sign-up pages redirect
    without taking the flash messages.  After [logout], whatever the
    session held, nobody is logged in: the wrapper answers a request to
    [path] with the redirect to the login page and does not run the
    handler; the login page then shows the one message of the logout, and
    shows no message when it is loaded again. *)
Theorem sessao_do_login_ao_logout {A}
    (func : Sessao.UsuarioLogado → Sessao.t → A * Sessao.t)
    (path redirect : string) (usuario : Sessao.UsuarioLogado) (s : Sessao.t) :
  let s0 := auth_decorator.criar_sessao usuario s in
  let s1 := (auth_routes.logout s0).2 in
  let s2 := (auth_routes.get_login redirect s1).2 in
  auth_decorator.esta_logado s0 = true
  ∧ auth_decorator.requer_autenticacao func path s0
    = (inr (func usuario s0).1, (func usuario s0).2)
  ∧ auth_routes.get_login redirect s0 = (RedirectResponse redirect 303, s0)
  ∧ auth_routes.get_cadastrar s0 = (RedirectResponse "/home" 303, s0)
  ∧ Sessao.flash_messages s0 = Sessao.flash_messages s
  ∧ auth_decorator.esta_logado s1 = false
  ∧ auth_decorator.requer_autenticacao func path s1
    = (inl (RedirectResponse ("/login?redirect=" +:+ path) 303), s1)
  ∧ (auth_routes.get_login redirect s1).1
    = TemplateResponse "login.html" (Some redirect)
        [ {| Sessao.tipo := "success"; Sessao.texto := auth_routes.texto_saiu |} ]
  ∧ (auth_routes.get_login redirect s2).1
    = TemplateResponse "login.html" (Some redirect) [].
Proof.
  intros s0 s1 s2. split; [reflexivity|]. split.
  { unfold auth_decorator.requer_autenticacao. simpl.
    by destruct (func usuario s0). }
  by split_and!.
Qed.

(** ** The search for users *)




Lemma ate_nul_id s :
  all_chars (λ c, negb (Ascii.eqb c "000")) s = true → Sqlite.ate_nul s = s.
Proof.
  induction s as [|c s IH]; [done|]. simpl.
  intros [Hc Hs]%andb_prop. apply negb_true_iff in Hc. by rewrite Hc, IH.
Qed.








(** ** The history of a room *)



Lemma ordenar_desc_contrato :
  historico.order_by_data_envio_desc historico.ordenar_desc.
Proof.
  assert (Ht : Total historico.mais_recente_primeiro).
  { intros m1 m2. unfold historico.mais_recente_primeiro.
    destruct (String.leb_total
                (historico.adapt_datetime (ChatMensagem.data_envio m1))
                (historico.adapt_datetime (ChatMensagem.data_envio m2))); auto. }
  intros l. split.
  - apply merge_sort_Permutation.
  - by apply Sorted_merge_sort.
Qed.

(** The answer to a member of the room, the store answering. *)
Lemma listar_mensagens_membro order_by sala_id limite offset u w :
  participa sala_id u (banco w) →
  sqlite_falha w (acessos w) = false →
  sqlite_falha w (S (acessos w)) = false →
  historico.listar_mensagens order_by sala_id limite offset u w
  = (Retorno
       ((λ m, historico.mensagem_dict (historico.linha m))
        <$> Sqlite.limit limite
              (Sqlite.offset offset
                 (order_by (filter (λ m, ChatMensagem.sala_id m = sala_id)
                                   (chat_mensagem (banco w)))))),
     com_acessos (S (S (acessos w))) w).
Proof.
  intros [p Hp]%head_participa Hf1 Hf2.
  unfold historico.listar_mensagens,
    chat_participante_repo.obter_por_sala_e_usuario,
    historico.listar_por_sala, get_connection.
  desdobrar. campos. rewrite Hf1. campos. rewrite Hp. campos.
  rewrite Hf2. campos. by rewrite <-list_fmap_compose.
Qed.





Lemma append_assoc_local (s1 s2 s3 : string) :
  (s1 +:+ s2) +:+ s3 = s1 +:+ (s2 +:+ s3).
Proof.
  induction s1 as [|c s1 IH]; [done|].
  change (String c ((s1 +:+ s2) +:+ s3) = String c (s1 +:+ (s2 +:+ s3))).
  by rewrite IH.
Qed.

(** X28.  A message has two texts for its time of sending.  The event of
    the live stream carries the ISO text with the letter T between the
    date and the time; the history carries the text the store keeps, with
    a space at that place and the same date and time around it.  The two
    are never the same string. *)
Theorem data_envio_dois_formatos (m : ChatMensagem.t) :
  ∃ data hora,
    MensagemJson.data_envio (Evento.mensagem (chat_routes.mensagem_sse m))
    = Some (data +:+ "T" +:+ hora)
    ∧ MensagemJson.data_envio (historico.mensagem_dict (historico.linha m))
      = Some (data +:+ " " +:+ hora)
    ∧ MensagemJson.data_envio (Evento.mensagem (chat_routes.mensagem_sse m))
      ≠ MensagemJson.data_envio (historico.mensagem_dict (historico.linha m)).
Proof.
  assert (Hiso : ∀ sep d,
            historico.isoformat_sep sep d
            = (chat_routes.zfill 4 (Py.str (year d)) +:+ "-"
               +:+ chat_routes.zfill 2 (Py.str (month d)) +:+ "-"
               +:+ chat_routes.zfill 2 (Py.str (day d)))
              +:+ sep
              +:+ (chat_routes.zfill 2 (Py.str (hour d)) +:+ ":"
                   +:+ chat_routes.zfill 2 (Py.str (minute d)) +:+ ":"
                   +:+ chat_routes.zfill 2 (Py.str (second d))
                   +:+ (if microsecond d =? 0 then EmptyString
                        else "." +:+ chat_routes.zfill 6 (Py.str (microsecond d))))).
  { intros sep d. unfold historico.isoformat_sep.
    by rewrite !append_assoc_local. }
  eexists _, _. split; [|split].
  - simpl. unfold chat_routes.formatar_data_iso. simpl.
    change (chat_routes.isoformat ?d) with (historico.isoformat_sep "T" d).
    by rewrite Hiso.
  - simpl. unfold historico.formatar_data_iso, historico.adapt_datetime.
    by rewrite Hiso.
  - simpl. unfold chat_routes.formatar_data_iso, historico.formatar_data_iso,
      historico.adapt_datetime. simpl.
    change (chat_routes.isoformat ?d) with (historico.isoformat_sep "T" d).
    rewrite !Hiso. intros [= Heq]. apply String.app_inj in Heq. discriminate Heq.
Qed.

(** X29.  A message that was sent is in the history.  After a send request
    that was answered, every member of the room who asks for the history
    of the room, with a [limite] that covers the messages of the room and
    the store answering, finds the message in it: with the id and the text
    of the answer to the sender, and the sender as its user, whether or
    not anyone was connected when it was sent. *)
Theorem mensagem_enviada_no_historico
    (order_by : list ChatMensagem.t → list ChatMensagem.t)
    (sala_id texto : string) (a b limite : Z)
    (r : chat_routes.JSONResponse) (w w' : Mundo) :
  historico.order_by_data_envio_desc order_by →
  chat_routes.enviar_mensagem sala_id texto a w = (Retorno r, w') →
  participa (Py.strip sala_id) b (banco w) →
  (length (filter (λ m, ChatMensagem.sala_id m = Py.strip sala_id)
                  (chat_mensagem (banco w'))) ≤ Z.to_nat limite)%nat →
  sqlite_falha w' (acessos w') = false →
  sqlite_falha w' (S (acessos w')) = false →
  ∃ js j,
    (historico.listar_mensagens order_by (Py.strip sala_id) limite 0 b w').1
    = Retorno js
    ∧ j ∈ js
    ∧ MensagemJson.id j = MensagemJson.id (chat_routes.mensagem r)
    ∧ MensagemJson.sala_id j = Py.strip sala_id
    ∧ MensagemJson.usuario_id j = a
    ∧ MensagemJson.mensagem j = Py.strip texto
    ∧ MensagemJson.mensagem j = MensagemJson.mensagem (chat_routes.mensagem r)
    ∧ MensagemJson.lida_em j = None.
Proof.
  intros Hord Hr Hb Hlen Hf1 Hf2.
  destruct (enviar_sucesso_banco sala_id texto a w w' r Hr)
    as (_ & _ & -> & Hbw).
  assert (Hm : chat_mensagem (banco w')
               = chat_mensagem (banco w)
                 ++ [ {| ChatMensagem.id := chat_mensagem_seq (banco w) + 1;
                         ChatMensagem.sala_id := Py.strip sala_id;
                         ChatMensagem.usuario_id := a;
                         ChatMensagem.mensagem := Py.strip texto;
                         ChatMensagem.data_envio := relogio w (leituras w);
                         ChatMensagem.lida_em := None |} ])
    by (by rewrite Hbw).
  assert (Hps : chat_participante (banco w') = chat_participante (banco w))
    by (by rewrite Hbw).
  clear Hbw.
  rewrite listar_mensagens_membro;
    [|by apply (participa_mesmos _ _ (banco w))|done|done].
  set (m := {| ChatMensagem.id := chat_mensagem_seq (banco w) + 1;
               ChatMensagem.sala_id := Py.strip sala_id;
               ChatMensagem.usuario_id := a;
               ChatMensagem.mensagem := Py.strip texto;
               ChatMensagem.data_envio := relogio w (leituras w);
               ChatMensagem.lida_em := None |}) in *.
  eexists _, (historico.mensagem_dict (historico.linha m)).
  split; [reflexivity|]. split; [|done].
  apply list_elem_of_fmap. exists m. split; [done|].
  unfold Sqlite.limit, Sqlite.offset. simpl. rewrite drop_0.
  destruct (Hord (filter (λ m, ChatMensagem.sala_id m = Py.strip sala_id)
                         (chat_mensagem (banco w')))) as [Hperm _].
  assert (Hin : m ∈ order_by (filter (λ m, ChatMensagem.sala_id m = Py.strip sala_id)
                                     (chat_mensagem (banco w')))).
  { rewrite Hperm. apply list_elem_of_filter. split; [done|].
    rewrite Hm. apply elem_of_app. right. left. }
  destruct (limite <? 0); [done|].
  rewrite take_ge; [done|]. by rewrite Hperm.
Qed.

Lemma mensagem_enviada_no_historico_witness :
  ∃ js j,
    (historico.listar_mensagens historico.ordenar_desc (Py.strip " 3_7") 50 0 7
       (chat_routes.enviar_mensagem " 3_7" "hi " 3 mundo_exemplo).2).1
    = Retorno js
    ∧ j ∈ js
    ∧ MensagemJson.mensagem j = Py.strip "hi ".
Proof.
  destruct (mensagem_enviada_no_historico historico.ordenar_desc
              " 3_7" "hi " 3 7 50
              {| chat_routes.status_code := 200; chat_routes.sucesso := true;
                 chat_routes.mensagem :=
                   {| MensagemJson.id := 1; MensagemJson.sala_id := "3_7";
                      MensagemJson.usuario_id := 3;
                      MensagemJson.mensagem := "hi";
                      MensagemJson.data_envio :=
                        Some "2024-01-15T10:30:00"%string;
                      MensagemJson.lida_em := None |} |}
              mundo_exemplo
              (chat_routes.enviar_mensagem " 3_7" "hi " 3 mundo_exemplo).2)
    as (js & j & H1 & H2 & _ & _ & _ & H3 & _).
  - apply ordenar_desc_contrato.
  - vm_compute. reflexivity.
  - eexists. split; [right; left|split; reflexivity].
  - vm_compute. lia.
  - reflexivity.
  - reflexivity.
  - exists js, j. split; [exact H1|]. split; [exact H2|exact H3].
Defined.

(** ** From the sender to the stream of the receiver *)

(** X30.  What the receiver's stream yields is the message the sender was
    answered with.  In a reachable state, when a user opens a session and
    the other member of their room then sends a valid text, the store
    answering, the next turn of the session yields the event of the new
    message, carrying the very message of the 200 answer to the sender,
    and the turn after it finds the queue empty: the message arrives
    once. *)
Theorem do_remetente_ao_receptor (a b : Z) (texto : string) (w : Mundo) :
  alcancavel w → a ≠ b →
  participa (gerar_sala_id a b) a (banco w) →
  (∃ m, EnviarMensagemDTO.validar_mensagem texto = inr m) →
  sqlite_falha w (acessos w) = false →
  sqlite_falha w (S (acessos w)) = false →
  sqlite_falha w (S (S (acessos w))) = false →
  ∃ queue w1 r w2 evento w3,
    event_generator_inicio b w = (Retorno queue, w1)
    ∧ chat_routes.enviar_mensagem (gerar_sala_id a b) texto a w1 = (Retorno r, w2)
    ∧ chat_routes.status_code r = 200
    ∧ event_generator_passo queue w2 = (Retorno (Some (DataJson evento)), w3)
    ∧ Evento.tipo evento = "nova_mensagem"%string
    ∧ Evento.sala_id evento = gerar_sala_id a b
    ∧ Evento.mensagem evento = chat_routes.mensagem r
    ∧ MensagemJson.usuario_id (Evento.mensagem evento) = a
    ∧ MensagemJson.mensagem (Evento.mensagem evento) = Py.strip texto
    ∧ event_generator_passo queue w3 = (Retorno None, w3).
Proof.
  intros Halc Hab Hp Hv Hf1 Hf2 Hf3.
  assert (Hinv : invariante (connect b w).2)
    by (by apply connect_invariante, alcancavel_invariante).
  destruct Hinv as (_ & _ & Hdis).
  set (w1 := (connect b w).2) in *.
  assert (Hq : _connections (chat_manager w1) !! b = Some (length (filas w))).
  { unfold w1, connect. desdobrar. campos. apply lookup_insert_eq. }
  assert (Hfila : filas w1 !! length (filas w) = Some []).
  { unfold w1, connect. desdobrar. campos. apply lookup_fim. }
  destruct (enviar_difunde a b texto w1 Hdis Hab Hp Hv Hf1 Hf2 Hf3)
    as (w2 & Hr & _ & Hfilas).
  specialize (Hfilas _ _ Hfila).
  rewrite bool_decide_eq_true_2 in Hfilas by (by right). simpl in Hfilas.
  eexists (length (filas w)), w1, _, w2, _, _.
  split; [reflexivity|]. split; [exact Hr|]. split; [reflexivity|].
  split.
  { unfold event_generator_passo. desdobrar. rewrite Hfilas. reflexivity. }
  split; [reflexivity|].
  split; [reflexivity|]. split; [reflexivity|]. split; [reflexivity|].
  split; [reflexivity|].
  unfold event_generator_passo. desdobrar. campos.
  rewrite list_lookup_insert_eq; [done|]. by eapply lookup_lt_Some.
Qed.

Lemma do_remetente_ao_receptor_witness :
  ∃ queue w1 r w2 evento w3,
    event_generator_inicio 7 mundo_exemplo = (Retorno queue, w1)
    ∧ chat_routes.enviar_mensagem (gerar_sala_id 3 7) "hi" 3 w1 = (Retorno r, w2)
    ∧ event_generator_passo queue w2 = (Retorno (Some (DataJson evento)), w3)
    ∧ Evento.mensagem evento = chat_routes.mensagem r.
Proof.
  destruct (do_remetente_ao_receptor 3 7 "hi" mundo_exemplo)
    as (queue & w1 & r & w2 & evento & w3 & H1 & H2 & _ & H3 & _ & _ & H4 & _).
  - apply alc_inicial. split; reflexivity.
  - lia.
  - eexists. split; [left|split; reflexivity].
  - exists "hi"%string. reflexivity.
  - reflexivity.
  - reflexivity.
  - reflexivity.
  - exists queue, w1, r, w2, evento, w3.
    split; [exact H1|]. split; [exact H2|]. split; [exact H3|exact H4].
Defined.
